(** * The RunwayML proxy: request handlers and the polling client

    A shallow embedding of

    - [functions/ai.js]      the Pages function serving [/ai] (module [Ai]),
    - the second copy of the handler kept in the repository, which only
      knows the image-to-image workflow (module [ImageHandler]),
    - [src/App.jsx]          the polling part of the browser client
      (module [App]).

    JavaScript values are an inductive type, exceptions are an outcome type
    threaded through a small state-and-error monad, and everything outside
    the handler (the upstream API, the KV namespace, [Math.random], the
    room the engine has for the arguments of a call) is an explicit part of
    the environment or of the state. *)

From Stdlib Require Import ZArith Lia String Ascii List Bool DecimalString.
From Stdlib.Strings Require Import Byte.
From stdpp Require Import base strings gmap list.

Set Warnings "-register-all".

Local Open Scope string_scope.
Local Open Scope list_scope.
Local Open Scope Z_scope.

(** ** JavaScript values *)

Module JS.

(** Numbers.  A finite number is kept as the decimal fraction [m * 10^-k] it
    is written as in a JSON text or in the source (0.85 is [Dec 85 2]); it
    stands for the double nearest to that fraction, whose shortest digits
    are those of [m] for up to 15 significant digits.  An integer that is
    itself a double is [Dec n 0].  [NaN] is what [parseInt] answers when it
    finds no digits, an infinity what it answers beyond the largest double.
    The two zeros are not told apart: they convert to the same boolean, the
    same string and the same JSON text. *)
Inductive number :=
| NaN
| Infinity (negative : bool)
| Dec (m : Z) (k : nat).

Definition Int (n : Z) : number := Dec n 0.

Inductive value :=
| VUndefined
| VNull
| VBool (b : bool)
| VNum (n : number)
| VStr (s : string)
| VArr (xs : list value)
| VObj (props : list (string * value)).

(** [ToBoolean]: the falsy values are undefined, null, false, 0, NaN and the
    empty string. *)
Definition truthy (v : value) : bool :=
  match v with
  | VUndefined | VNull => false
  | VBool b => b
  | VNum NaN => false
  | VNum (Infinity _) => true
  | VNum (Dec m _) => negb (m =? 0)
  | VStr s => negb (String.eqb s "")
  | VArr _ | VObj _ => true
  end.

(** [a || b] *)
Definition or_else (a b : value) : value := if truthy a then a else b.

(** Strict equality with a string literal, [v === 'lit']. *)
Definition is_str (v : value) (lit : string) : bool :=
  match v with
  | VStr s => String.eqb s lit
  | _ => false
  end.

Fixpoint assoc (k : string) (props : list (string * value)) : value :=
  match props with
  | [] => VUndefined
  | (k', v) :: rest => if String.eqb k k' then v else assoc k rest
  end.

(** [o.k] where [o] is known not to be null or undefined: primitives and
    arrays have none of the properties the handlers read. *)
Definition prop (o : value) (k : string) : value :=
  match o with
  | VObj props => assoc k props
  | _ => VUndefined
  end.

(** [o?.k] *)
Definition opt_prop (o : value) (k : string) : value := prop o k.

(** [o?.[0]] *)
Definition opt_first (o : value) : value :=
  match o with
  | VArr (x :: _) => x
  | VStr (String c _) => VStr (String c "")
  | VObj props => assoc "0" props
  | _ => VUndefined
  end.

(** [o.k = v] on an object literal: replaces the property or appends it. *)
Fixpoint set_assoc (k : string) (v : value) (props : list (string * value))
  : list (string * value) :=
  match props with
  | [] => [(k, v)]
  | (k', v') :: rest =>
      if String.eqb k k' then (k, v) :: rest else (k', v') :: set_assoc k v rest
  end.

Definition set_prop (o : value) (k : string) (v : value) : value :=
  match o with
  | VObj props => VObj (set_assoc k v props)
  | _ => o
  end.

(** *** Strings *)

(** [hay.includes(needle)] *)
Fixpoint includes (hay needle : string) : bool :=
  String.prefix needle hay ||
  match hay with
  | EmptyString => false
  | String _ rest => includes rest needle
  end.

Definition Z_toString (n : Z) : string := NilZero.string_of_int (Z.to_int n).

Fixpoint zeros (n : nat) : string :=
  match n with
  | O => ""
  | S n' => String "0" (zeros n')
  end.

(** A string of digits without its trailing zeros. *)
Fixpoint trim_zeros (s : string) : string :=
  match s with
  | EmptyString => ""
  | String c rest =>
      match trim_zeros rest with
      | EmptyString => if Ascii.eqb c "0" then "" else String c ""
      | kept => String c kept
      end
  end.

(** [Number::toString].  With [digits] the significant digits of the number
    and [n] the position of the decimal point counted from their start (the
    number is [0.digits * 10^n]): the digits followed by zeros, the digits
    with a point among them, or "0." and zeros before them, as long as
    [-6 < n <= 21]; exponent notation otherwise. *)
Definition Number_toString (x : number) : string :=
  match x with
  | NaN => "NaN"
  | Infinity negative => if negative then "-Infinity" else "Infinity"
  | Dec m k =>
      if m =? 0 then "0"
      else
        let written := Z_toString (Z.abs m) in
        let digits := trim_zeros written in
        let len := Z.of_nat (String.length digits) in
        let n := Z.of_nat (String.length written) - Z.of_nat k in
        (if m <? 0 then "-" else "") +:+
        (if (len <=? n) && (n <=? 21) then
           digits +:+ zeros (Z.to_nat (n - len))
         else if (0 <? n) && (n <=? 21) then
           substring 0 (Z.to_nat n) digits +:+ "." +:+
           substring (Z.to_nat n) (Z.to_nat (len - n)) digits
         else if (-6 <? n) && (n <=? 0) then
           "0." +:+ zeros (Z.to_nat (- n)) +:+ digits
         else
           let e := n - 1 in
           substring 0 1 digits +:+
           (if len =? 1 then ""
            else "." +:+ substring 1 (Z.to_nat (len - 1)) digits) +:+
           "e" +:+ (if e <? 0 then "-" else "+") +:+ Z_toString (Z.abs e))
  end.

Fixpoint join (sep : string) (parts : list string) : string :=
  match parts with
  | [] => ""
  | [p] => p
  | p :: rest => p +:+ sep +:+ join sep rest
  end.

(** [ToString], as used by template literals, [new Error(v)] and [parseInt]. *)
Fixpoint ToString (v : value) : string :=
  match v with
  | VUndefined => "undefined"
  | VNull => "null"
  | VBool true => "true"
  | VBool false => "false"
  | VNum n => Number_toString n
  | VStr s => s
  | VArr xs =>
      join "," (map (fun x => match x with
                              | VUndefined | VNull => ""
                              | _ => ToString x
                              end) xs)
  | VObj _ => "[object Object]"
  end.

(** *** Rounding to binary64 *)

(** The real [n * 2^e] ([0 <= n], [-1074 <= e]) rounded to the nearest
    double, ties to even: [k] low bits of [n] do not fit in the 53-bit
    significand (or lie below the smallest exponent) and are rounded away. *)
Definition round_binary64 (n e : Z) : Z * Z :=
  let k := Z.max (Z.log2 n + 1 - 53) (-1074 - e) in
  if k <=? 0 then (n, e)
  else
    let q := n / 2 ^ k in
    let r := n mod 2 ^ k in
    let half := 2 ^ (k - 1) in
    (if (half <? r) || (r =? half) && Z.odd q then q + 1 else q, e + k).

(** The Number for the integer [n]: the nearest double, an infinity when
    that lies beyond the largest one. *)
Definition Number_of_Z (n : Z) : number :=
  let '(q, e) := round_binary64 (Z.abs n) 0 in
  if 2 ^ 1024 <=? q * 2 ^ e then Infinity (n <? 0)
  else Int (Z.sgn n * (q * 2 ^ e)).

(** *** [parseInt(s, 10)] *)

(** The white space code units below 256. *)
Definition is_white (c : ascii) : bool :=
  let n := N_of_ascii c in
  ((9 <=? n) && (n <=? 13) || (n =? 32) || (n =? 160))%N.

Fixpoint skip_white (s : string) : string :=
  match s with
  | String c rest => if is_white c then skip_white rest else s
  | EmptyString => s
  end.

Definition digit_of (c : ascii) : option Z :=
  let n := Z.of_N (N_of_ascii c) in
  if (48 <=? n) && (n <=? 57) then Some (n - 48) else None.

(** The value of the longest prefix of decimal digits; [acc] is [None] until
    the first digit has been read. *)
Fixpoint digits (acc : option Z) (s : string) : option Z :=
  match s with
  | String c rest =>
      match digit_of c with
      | Some d => digits (Some (10 * default 0 acc + d)) rest
      | None => acc
      end
  | EmptyString => acc
  end.

Definition strip_sign (s : string) : Z * string :=
  match s with
  | String "-" rest => (-1, rest)
  | String "+" rest => (1, rest)
  | _ => (1, s)
  end.

(** The digits are read as an integer, and the result is the Number for
    it. *)
Definition parseInt (s : string) : number :=
  let '(sign, body) := strip_sign (skip_white s) in
  match digits None body with
  | None => NaN
  | Some n => Number_of_Z (sign * n)
  end.

(** *** [String.fromCharCode] and [btoa] *)

Definition fromCharCode (b : byte) : ascii := ascii_of_byte b.

(** The string [String.fromCharCode(b1, ..., bn)] returns, one character
    for each argument. *)
Definition fromCharCodes (bs : list byte) : string :=
  string_of_list_ascii (map fromCharCode bs).

Definition b64_alphabet : string :=
  "ABCDEFGHIJKLMNOPQRSTUVWXYZabcdefghijklmnopqrstuvwxyz0123456789+/".

Definition b64 (n : N) : ascii :=
  match String.get (N.to_nat n) b64_alphabet with
  | Some c => c
  | None => "="%char
  end.

(** [btoa] on a binary string (every code unit is below 256 here). *)
Fixpoint btoa (s : string) : string :=
  match s with
  | EmptyString => ""
  | String a EmptyString =>
      let x := N_of_ascii a in
      String (b64 (x / 4)) (String (b64 (x mod 4 * 16)) "==")
  | String a (String b EmptyString) =>
      let x := N_of_ascii a in
      let y := N_of_ascii b in
      String (b64 (x / 4)) (String (b64 (x mod 4 * 16 + y / 16))
        (String (b64 (y mod 16 * 4)) "="))
  | String a (String b (String c rest)) =>
      let x := N_of_ascii a in
      let y := N_of_ascii b in
      let z := N_of_ascii c in
      String (b64 (x / 4)) (String (b64 (x mod 4 * 16 + y / 16))
        (String (b64 (y mod 16 * 4 + z / 64)) (String (b64 (z mod 64))
          (btoa rest))))
  end%N.

(** *** [Math.floor(Math.random() * c)] *)

(** A double in [0, 1), as [Math.random] answers: [mant * 2^expo]. *)
Record unit_double := { mant : Z; expo : Z }.

Definition is_unit_double (r : unit_double) : Prop :=
  0 <= mant r < 2 ^ 53 /\ -1074 <= expo r <= -53.

(** [r * c] for a double [r] and an integer [c] that is itself a double. *)
Definition times (r : unit_double) (c : Z) : Z * Z :=
  round_binary64 (mant r * c) (expo r).

Definition Math_floor (x : Z * Z) : Z :=
  let '(m, e) := x in
  if 0 <=? e then m * 2 ^ e else m / 2 ^ (- e).

End JS.

(** ** The world around a handler *)

Module Sys.
Import JS.

(** An outgoing [fetch]: the URL and the init object.  [fbody] is the value
    handed to [JSON.stringify]. *)
Record fetch_request := {
  url : string;
  fmethod : string;
  fheaders : list (string * value);
  fbody : option value
}.

(** What the handler sees of an upstream answer: [response.ok],
    [response.status], [response.statusText] and [await response.json()]. *)
Record reply := {
  ok : bool;
  status : Z;
  statusText : string;
  data : value
}.

(** [fetch] or [response.json()] may reject instead. *)
Inductive fetch_result :=
| Rejects (msg : string)
| Replies (r : reply).

(** What lies outside the worker: the upstream API, [Math.random], and the
    number of arguments the engine takes in one call before its stack is
    exhausted (of the order of 10^5 in V8, depending on the stack that is
    left). *)
Record platform := {
  upstream : fetch_request -> fetch_result;
  Math_random : unit_double;
  max_arguments : Z
}.

Record file := {
  name : string;
  type : string;
  bytes : list byte
}.

Inductive form_value :=
| FText (s : string)
| FFile (f : file).

Inductive parsed (A : Type) :=
| Malformed (msg : string)
| Parsed (a : A).
Arguments Malformed {A} msg.
Arguments Parsed {A} a.

(** The incoming request: its method, [headers.get('content-type')], and
    what [request.formData()] and [request.json()] make of its body. *)
Record request := {
  method : string;
  content_type : option string;
  formData : parsed (list (string * form_value));
  json : parsed value
}.

(** [env]: the API key, and whether the KV namespace [TASK_INFO_KV] is
    bound.  The content of the namespace is part of the state. *)
Record env := {
  RUNWAYML_API_KEY : option string;
  TASK_INFO_KV : bool
}.

Record context := {
  ctx_request : request;
  ctx_env : env
}.

Inductive body :=
| BNull
| BText (s : string)
| BJson (v : value).

(** A [Response]: status, the headers given to the constructor, and the
    body ([BJson v] is the text [JSON.stringify(v)]). *)
Record response := {
  rstatus : Z;
  rheaders : list (string * string);
  rbody : body
}.

(** The state a request runs in: the KV namespace (key to the JSON document
    stored under it), the upstream calls made so far, and the keys whose
    deletion was handed to [context.waitUntil]. *)
Record state := {
  kv : gmap string value;
  fetched : list fetch_request;
  waiting : list string
}.

Inductive outcome (A : Type) :=
| Returns (a : A)
| Throws (msg : string).
Arguments Returns {A} a.
Arguments Throws {A} msg.

(** Computations that read and change the state and may throw. *)
Definition M (A : Type) : Type := state -> outcome A * state.

#[export] Instance M_ret : MRet M := fun A a s => (Returns a, s).

#[export] Instance M_bind : MBind M := fun A B f m s =>
  match m s with
  | (Returns a, s') => f a s'
  | (Throws msg, s') => (Throws msg, s')
  end.

Definition throw {A : Type} (msg : string) : M A := fun s => (Throws msg, s).

(** [try { m } catch (error) { h(error.message) }] *)
Definition try_catch {A : Type} (m : M A) (h : string -> M A) : M A := fun s =>
  match m s with
  | (Returns a, s') => (Returns a, s')
  | (Throws msg, s') => h msg s'
  end.

(** The state after one more upstream call. *)
Definition called (rq : fetch_request) (s : state) : state :=
  {| kv := kv s; fetched := fetched s ++ [rq]; waiting := waiting s |}.

(** [await fetch(...)] followed by [await response.json()] *)
Definition fetch (p : platform) (rq : fetch_request) : M reply := fun s =>
  match upstream p rq with
  | Rejects msg => (Throws msg, called rq s)
  | Replies r => (Returns r, called rq s)
  end.

(** [await env.TASK_INFO_KV.put(key, JSON.stringify(doc))]; the key is
    converted to a string. *)
Definition kv_put (key doc : value) : M unit := fun s =>
  (Returns tt,
   {| kv := <[ToString key := doc]> (kv s); fetched := fetched s;
      waiting := waiting s |}).

(** [await env.TASK_INFO_KV.get(key, { type: 'json' })] *)
Definition kv_get (key : value) : M value := fun s =>
  (Returns (default VNull (kv s !! ToString key)), s).

(** [context.waitUntil(env.TASK_INFO_KV.delete(key))]: the deletion is not
    awaited; it is only recorded as pending. *)
Definition waitUntil_delete (key : value) : M unit := fun s =>
  (Returns tt,
   {| kv := kv s; fetched := fetched s;
      waiting := waiting s ++ [ToString key] |}).

(** The runtime completing the pending deletions after the response. *)
Definition settle (s : state) : state :=
  {| kv := foldr delete (kv s) (waiting s); fetched := fetched s; waiting := [] |}.

(** [o.k] where [o] may be null or undefined: a [TypeError], with the
    message V8 gives it. *)
Definition member (o : value) (k : string) : M value :=
  match o with
  | VUndefined | VNull =>
      throw ("Cannot read properties of " +:+ ToString o +:+
             " (reading '" +:+ k +:+ "')")
  | _ => mret (prop o k)
  end.

(** [const { k, ... } = o] where [o] is the variable [name] and [k] the
    first property of the pattern: a [TypeError] when [o] is null or
    undefined. *)
Definition destructure (o : value) (k name : string) : M value :=
  match o with
  | VUndefined | VNull =>
      throw ("Cannot destructure property '" +:+ k +:+ "' of '" +:+ name +:+
             "' as it is " +:+ ToString o +:+ ".")
  | _ => mret (prop o k)
  end.

(** [String.fromCharCode(...bytes)]: the bytes are the arguments of one
    call, which the engine refuses with a [RangeError] when they do not fit
    on its stack. *)
Definition spread_fromCharCode (p : platform) (bs : list byte) : M string :=
  if Z.of_nat (length bs) <=? max_arguments p then mret (fromCharCodes bs)
  else throw "Maximum call stack size exceeded".

Definition when (b : bool) (m : M unit) : M unit := if b then m else mret tt.

(** [formData.get(name)]: the first entry of that name, or null. *)
Fixpoint form_get (name : string) (entries : list (string * form_value))
  : option form_value :=
  match entries with
  | [] => None
  | (n, v) :: rest => if String.eqb n name then Some v else form_get name rest
  end.

(** A form entry as a value: a [File] has no enumerable property of its own,
    so [JSON.stringify] writes it as an empty object. *)
Definition form_value_of (v : option form_value) : value :=
  match v with
  | None => VNull
  | Some (FText s) => VStr s
  | Some (FFile _) => VObj []
  end.

Definition form_toString (v : option form_value) : string :=
  match v with
  | None => "null"
  | Some (FText s) => s
  | Some (FFile _) => "[object File]"
  end.

Definition form_truthy (v : option form_value) : bool :=
  truthy (form_value_of v).

Definition await_parsed {A : Type} (x : parsed A) : M A :=
  match x with
  | Malformed msg => throw msg
  | Parsed a => mret a
  end.

(** [await imageFile.arrayBuffer()], [imageFile.type] and [imageFile.name];
    a text entry has no [arrayBuffer] method. *)
Definition as_file (v : option form_value) : M file :=
  match v with
  | Some (FFile f) => mret f
  | _ => throw "imageFile.arrayBuffer is not a function"
  end.

(** A string key is truthy when it is set and not empty. *)
Definition key_present (k : option string) : bool :=
  match k with
  | Some s => negb (String.eqb s "")
  | None => false
  end.

Definition RUNWAY_API_BASE : string := "https://api.dev.runwayml.com/v1".

Definition bearer (e : env) : string :=
  "Bearer " +:+ default "undefined" (RUNWAYML_API_KEY e).

Definition COMMON_HEADERS (e : env) : list (string * value) :=
  [("Authorization", VStr (bearer e));
   ("X-Runway-Version", VStr "2024-11-06");
   ("Content-Type", VStr "application/json")].

(** The answer to a preflight request. *)
Definition preflight : response :=
  {| rstatus := 200;
     rheaders := [("Access-Control-Allow-Origin", "*");
                  ("Access-Control-Allow-Methods", "POST, OPTIONS");
                  ("Access-Control-Allow-Headers", "Content-Type, X-Runway-Version")];
     rbody := BNull |}.

Definition method_not_allowed : response :=
  {| rstatus := 405; rheaders := []; rbody := BText "Method not allowed" |}.

Definition json_headers : list (string * string) :=
  [("Content-Type", "application/json"); ("Access-Control-Allow-Origin", "*")].

(** [jsonResponse(data, status)], the same in both handlers. *)
Definition jsonResponse (data : value) (status : Z) : response :=
  {| rstatus := status; rheaders := json_headers; rbody := BJson data |}.

(** [Math.floor(Math.random() * 4294967295)] *)
Definition seed (p : platform) : Z :=
  Math_floor (times (Math_random p) 4294967295).

End Sys.

(** ** [functions/ai.js] *)

Module Ai.
Import JS Sys.

Definition failure (msg : string) : value :=
  VObj [("success", VBool false); ("error", VStr msg)].

Definition missing_key_message : string :=
  "CRITICAL FIX REQUIRED: Check Cloudflare project settings for API Key.".

(** The call to [/image_to_video]. *)
Definition image_to_video_request (p : platform) (e : env)
    (imageUrl prompt duration ratio : value) : fetch_request :=
  {| url := RUNWAY_API_BASE +:+ "/image_to_video";
     fmethod := "POST";
     fheaders := [("Authorization", VStr (bearer e));
                  ("X-Runway-Version", VStr "2024-11-06");
                  ("Content-Type", VStr "application/json")];
     fbody := Some (VObj [("model", VStr "gen4_turbo");
                          ("promptText", prompt);
                          ("promptImage", imageUrl);
                          ("seed", VNum (Int (seed p)));
                          ("watermark", VBool false);
                          ("duration", duration);
                          ("ratio", ratio)]) |}.

Definition startImageToVideoJob (p : platform)
    (imageUrl prompt duration ratio originalName : value) (e : env)
  : M response :=
  response ← fetch p (image_to_video_request p e imageUrl prompt duration ratio);
  let data := data response in
  (if negb (ok response) then
     error ← member data "error";
     throw (ToString (or_else error
       (VStr ("Runway I2V API returned status " +:+ Z_toString (status response)))))
   else mret tt);;
  when (TASK_INFO_KV e)
    (id ← member data "id"; kv_put id (VObj [("type", VStr "video")]));;
  id ← member data "id";
  st ← member data "status";
  mret (jsonResponse
          (VObj [("success", VBool true); ("taskId", id); ("status", st)]) 200).

(** The multipart branch of the [try] block. *)
Definition upload (p : platform) (ctx : context) : M response :=
  let request := ctx_request ctx in
  let env := ctx_env ctx in
  formData ← await_parsed (formData request);
  let prompt := form_get "prompt" formData in
  let imageFile := form_get "image" formData in
  let duration :=
    let d := form_get "duration" formData in
    parseInt (if form_truthy d then form_toString d else "5") in
  let ratio := or_else (form_value_of (form_get "ratio" formData)) (VStr "1280:720") in
  (if negb (form_truthy prompt) || negb (form_truthy imageFile)
   then throw "Request is missing prompt or image file."
   else mret tt);;
  imageFile ← as_file imageFile;
  binary ← spread_fromCharCode p (bytes imageFile);
  let base64 := btoa binary in
  let imageDataUrl := "data:" +:+ type imageFile +:+ ";base64," +:+ base64 in
  startImageToVideoJob p (VStr imageDataUrl) (form_value_of prompt)
    (VNum duration) ratio (VStr (name imageFile)) env.

(** The call to [/text_to_image]. *)
Definition text_to_image_request (p : platform) (e : env) (prompt ratio : value)
  : fetch_request :=
  {| url := RUNWAY_API_BASE +:+ "/text_to_image";
     fmethod := "POST";
     fheaders := COMMON_HEADERS e;
     fbody := Some (VObj [("model", VStr "gen4_image");
                          ("promptText", prompt);
                          ("ratio", or_else ratio (VStr "1280:720"));
                          ("seed", VNum (Int (seed p)))]) |}.

Definition generateImage (p : platform) (env : env) (body : value) : M response :=
  let prompt := prop body "prompt" in
  let ratio := prop body "ratio" in
  (if negb (truthy prompt) then throw "Image prompt is missing." else mret tt);;
  runwayResponse ← fetch p (text_to_image_request p env prompt ratio);
  let data := data runwayResponse in
  (if negb (ok runwayResponse) then
     error ← member data "error";
     throw (ToString (or_else error
       (VStr ("Runway T2I API error: " +:+ Z_toString (status runwayResponse)))))
   else mret tt);;
  when (TASK_INFO_KV env)
    (id ← member data "id"; kv_put id (VObj [("type", VStr "image")]));;
  id ← member data "id";
  mret (jsonResponse (VObj [("success", VBool true); ("taskId", id)]) 200).

Definition startVideoFromUrl (p : platform) (env : env) (body : value)
  : M response :=
  let videoPrompt := prop body "videoPrompt" in
  let imageUrl := prop body "imageUrl" in
  let duration := prop body "duration" in
  let ratio := prop body "ratio" in
  (if negb (truthy videoPrompt) || negb (truthy imageUrl)
   then throw "Missing video prompt or image URL."
   else mret tt);;
  startImageToVideoJob p imageUrl videoPrompt
    (VNum (parseInt (ToString (or_else duration (VStr "5")))))
    (or_else ratio (VStr "1280:720")) (VStr "generated-image") env.

(** The "status" case from the test on [data.status] on: what is relayed
    to the browser. *)
Definition relay (env : env) (taskId data : value) : M response :=
  status ← member data "status";
  if is_str status "SUCCEEDED" && truthy (opt_first (prop data "output")) then
    taskType ←
      (if TASK_INFO_KV env then
         taskInfo ← kv_get taskId;
         waitUntil_delete taskId;;
         mret (if truthy (opt_prop taskInfo "type")
               then prop taskInfo "type" else VStr "video")
       else mret (VStr "video"));
    let runwayOutputUrl := opt_first (prop data "output") in
    let successPayload :=
      VObj [("success", VBool true); ("status", status);
            ("progress", prop data "progress")] in
    mret (jsonResponse
            (if is_str taskType "image"
             then set_prop successPayload "imageUrl" runwayOutputUrl
             else set_prop successPayload "videoUrl" runwayOutputUrl) 200)
  else
    mret (jsonResponse
            (VObj [("success", VBool true); ("status", status);
                   ("progress", prop data "progress")]) 200).

Definition status_request (env : env) (taskId : value) : fetch_request :=
  {| url := RUNWAY_API_BASE +:+ "/tasks/" +:+ ToString taskId;
     fmethod := "GET";
     fheaders := set_assoc "Content-Type" VUndefined (COMMON_HEADERS env);
     fbody := None |}.

Definition check_status (p : platform) (env : env) (body : value) : M response :=
  let taskId := prop body "taskId" in
  (if negb (truthy taskId) then throw "Invalid status check request." else mret tt);;
  response ← fetch p (status_request env taskId);
  let data := data response in
  (if negb (ok response) then
     error ← member data "error";
     throw ("Status check failed: " +:+
            ToString (or_else error (VStr (statusText response))))
   else mret tt);;
  relay env taskId data.

(** The [try] block. *)
Definition process (p : platform) (ctx : context) : M response :=
  let request := ctx_request ctx in
  let env := ctx_env ctx in
  let contentType := default "" (content_type request) in
  if includes contentType "multipart/form-data" then upload p ctx
  else if includes contentType "application/json" then
    body ← await_parsed (json request);
    action ← destructure body "action" "body";
    if is_str action "generateImage" then generateImage p env body
    else if is_str action "startVideoFromUrl" then startVideoFromUrl p env body
    else if is_str action "status" then check_status p env body
    else throw "Invalid action specified."
  else throw "Invalid request content-type.".

Definition onRequest (p : platform) (ctx : context) : M response :=
  let request := ctx_request ctx in
  let env := ctx_env ctx in
  if String.eqb (method request) "OPTIONS" then mret preflight
  else if negb (String.eqb (method request) "POST") then mret method_not_allowed
  else if negb (key_present (RUNWAYML_API_KEY env)) then
    mret {| rstatus := 500; rheaders := [];
            rbody := BJson (failure missing_key_message) |}
  else
    try_catch (process p ctx)
      (fun message => mret (jsonResponse (failure message) 500)).

End Ai.

(** ** The image-to-image copy of the handler *)

Module ImageHandler.
Import JS Sys.

Definition failure (msg : string) : value :=
  VObj [("success", VBool false); ("error", VStr msg)].

Definition missing_key_message : string :=
  "CRITICAL FIX REQUIRED: Check Cloudflare project settings for RUNWAYML_API_KEY.".

(** [for (i = 0; i < len; i++) binary += String.fromCharCode(bytes[i])] *)
Definition binary_of (bs : list byte) : string :=
  fold_left (fun binary b => binary +:+ String (fromCharCode b) "") bs "".

(** The call to [/text_to_image], with the uploaded image. *)
Definition text_to_image_request (p : platform) (e : env)
    (prompt imageDataUrl ratio : value) : fetch_request :=
  {| url := RUNWAY_API_BASE +:+ "/text_to_image";
     fmethod := "POST";
     fheaders := COMMON_HEADERS e;
     fbody := Some (VObj [("model", VStr "gen4_image");
                          ("promptText", prompt);
                          ("promptImage", imageDataUrl);
                          ("ratio", ratio);
                          ("structure_strength", VNum (Dec 85 2));
                          ("seed", VNum (Int (seed p)))]) |}.

Definition upload (p : platform) (ctx : context) : M response :=
  let request := ctx_request ctx in
  let env := ctx_env ctx in
  formData ← await_parsed (formData request);
  let prompt := form_get "prompt" formData in
  let imageFile := form_get "image" formData in
  let ratio := or_else (form_value_of (form_get "ratio" formData)) (VStr "1280:720") in
  (if negb (form_truthy prompt) || negb (form_truthy imageFile)
   then throw "Request is missing prompt or image file."
   else mret tt);;
  imageFile ← as_file imageFile;
  let base64 := btoa (binary_of (bytes imageFile)) in
  let imageDataUrl := "data:" +:+ type imageFile +:+ ";base64," +:+ base64 in
  runwayResponse ← fetch p
    (text_to_image_request p env (form_value_of prompt) (VStr imageDataUrl) ratio);
  let data := data runwayResponse in
  (if negb (ok runwayResponse) then
     error ← member data "error";
     throw (ToString (or_else error
       (VStr ("Runway API Error: " +:+ Z_toString (status runwayResponse)))))
   else mret tt);;
  id ← member data "id";
  mret (jsonResponse (VObj [("success", VBool true); ("taskId", id)]) 200).

(** The "status" case from the test on [data.status] on. *)
Definition relay (data : value) : M response :=
  status ← member data "status";
  if is_str status "SUCCEEDED" then
    if truthy (prop data "output") && truthy (opt_first (prop data "output")) then
      mret (jsonResponse
              (VObj [("success", VBool true); ("status", status);
                     ("progress", prop data "progress");
                     ("imageUrl", opt_first (prop data "output"))]) 200)
    else
      mret (jsonResponse
              (VObj [("success", VBool false); ("status", VStr "FAILED");
                     ("error", VStr "Task succeeded but output was empty.")]) 200)
  else
    mret (jsonResponse
            (VObj [("success", VBool true); ("status", status);
                   ("progress", prop data "progress")]) 200).

Definition status_request (env : env) (taskId : value) : fetch_request :=
  {| url := RUNWAY_API_BASE +:+ "/tasks/" +:+ ToString taskId;
     fmethod := "GET";
     fheaders := [("Authorization", VStr (bearer env));
                  ("X-Runway-Version", VStr "2024-11-06")];
     fbody := None |}.

Definition check_status (p : platform) (env : env) (taskId : value) : M response :=
  (if negb (truthy taskId) then throw "Task ID is missing for status check."
   else mret tt);;
  response ← fetch p (status_request env taskId);
  let data := data response in
  (if negb (ok response) then
     error ← member data "error";
     throw ("Status check failed: " +:+
            ToString (or_else error (VStr (statusText response))))
   else mret tt);;
  relay data.

(** The [try] block. *)
Definition process (p : platform) (ctx : context) : M response :=
  let request := ctx_request ctx in
  let env := ctx_env ctx in
  let contentType := default "" (content_type request) in
  if includes contentType "multipart/form-data" then upload p ctx
  else if includes contentType "application/json" then
    body ← await_parsed (json request);
    action ← destructure body "action" "body";
    let taskId := prop body "taskId" in
    if is_str action "status" then check_status p env taskId
    else throw "Invalid action specified."
  else throw ("Invalid request content-type: " +:+ contentType).

Definition onRequest (p : platform) (ctx : context) : M response :=
  let request := ctx_request ctx in
  let env := ctx_env ctx in
  if String.eqb (method request) "OPTIONS" then mret preflight
  else if negb (String.eqb (method request) "POST") then mret method_not_allowed
  else if negb (key_present (RUNWAYML_API_KEY env)) then
    mret (jsonResponse (failure missing_key_message) 500)
  else
    try_catch (process p ctx)
      (fun message => mret (jsonResponse (failure message) 500)).

End ImageHandler.

(** ** [src/App.jsx]: polling for the status of a task *)

Module App.
Import JS.

(** How the [fetch] of a status request settles for the callback:
    [fetch] or [statusResponse.json()] rejects, or the callback gets
    [statusResponse.ok] and [statusData]. *)
Inductive arrival :=
| Rejected (msg : string)
| Arrived (ok : bool) (statusData : value).

(** The status line and the progress bar are kept as the values they are
    computed from. *)
Inductive status_line :=
| Line (text : string)
| Status_of (status progress : value).
    (* `Status: ${status} (${((progress * 100) || 0).toFixed(0)}%)` *)

Inductive progress_bar :=
| Percent (n : Z)
| Percent_of (progress : value).
    (* (progress * 100) || 0 *)

(** The component state the poller touches, the interval behind
    [pollIntervalRef.current], and the traffic: the task ids of the status
    requests sent, and how many of them have not settled yet. *)
Record state := {
  modifiedImageUrl : value;
  isGenerating : bool;
  progress : progress_bar;
  status : status_line;
  error : string;
  interval : bool;
  requests : list value;
  pending : nat
}.

Definition setModifiedImageUrl (v : value) (s : state) : state :=
  {| modifiedImageUrl := v; isGenerating := isGenerating s;
     progress := progress s; status := status s; error := error s;
     interval := interval s; requests := requests s; pending := pending s |}.

Definition setIsGenerating (b : bool) (s : state) : state :=
  {| modifiedImageUrl := modifiedImageUrl s; isGenerating := b;
     progress := progress s; status := status s; error := error s;
     interval := interval s; requests := requests s; pending := pending s |}.

Definition setProgress (x : progress_bar) (s : state) : state :=
  {| modifiedImageUrl := modifiedImageUrl s; isGenerating := isGenerating s;
     progress := x; status := status s; error := error s;
     interval := interval s; requests := requests s; pending := pending s |}.

Definition setStatus (x : status_line) (s : state) : state :=
  {| modifiedImageUrl := modifiedImageUrl s; isGenerating := isGenerating s;
     progress := progress s; status := x; error := error s;
     interval := interval s; requests := requests s; pending := pending s |}.

Definition setError (msg : string) (s : state) : state :=
  {| modifiedImageUrl := modifiedImageUrl s; isGenerating := isGenerating s;
     progress := progress s; status := status s; error := msg;
     interval := interval s; requests := requests s; pending := pending s |}.

Definition setInterval (s : state) : state :=
  {| modifiedImageUrl := modifiedImageUrl s; isGenerating := isGenerating s;
     progress := progress s; status := status s; error := error s;
     interval := true; requests := requests s; pending := pending s |}.

Definition clearInterval (s : state) : state :=
  {| modifiedImageUrl := modifiedImageUrl s; isGenerating := isGenerating s;
     progress := progress s; status := status s; error := error s;
     interval := false; requests := requests s; pending := pending s |}.

(** The callback up to its first [await]: the status request goes out. *)
Definition send (taskId : value) (s : state) : state :=
  {| modifiedImageUrl := modifiedImageUrl s; isGenerating := isGenerating s;
     progress := progress s; status := status s; error := error s;
     interval := interval s; requests := requests s ++ [taskId];
     pending := S (pending s) |}.

Definition settled (s : state) : state :=
  {| modifiedImageUrl := modifiedImageUrl s; isGenerating := isGenerating s;
     progress := progress s; status := status s; error := error s;
     interval := interval s; requests := requests s;
     pending := Nat.pred (pending s) |}.

(** The message of the [TypeError] for [o.k] when [o] is null or undefined,
    in the words of V8. *)
Definition null_read (o : value) (k : string) : string :=
  "Cannot read properties of " +:+ ToString o +:+ " (reading '" +:+ k +:+ "')".

(** The [try] block of the callback after the request has settled: the
    message of the error thrown, if any, and the state reached.  With a
    response that is not ok the test stops at [!statusResponse.ok], and the
    first property read is [statusData.error]. *)
Definition examine (a : arrival) (s : state) : option string * state :=
  match a with
  | Rejected msg => (Some msg, s)
  | Arrived ok ((VUndefined | VNull) as statusData) =>
      (Some (null_read statusData (if ok then "success" else "error")), s)
  | Arrived ok statusData =>
      if negb ok || negb (truthy (prop statusData "success")) then
        (Some (ToString (or_else (prop statusData "error")
                                 (VStr "Failed to check task status"))), s)
      else
        let s := setStatus (Status_of (prop statusData "status")
                                      (prop statusData "progress")) s in
        let s := setProgress (Percent_of (prop statusData "progress")) s in
        if is_str (prop statusData "status") "SUCCEEDED" then
          let s := clearInterval s in
          if truthy (prop statusData "imageUrl") then
            let s := setModifiedImageUrl (prop statusData "imageUrl") s in
            let s := setStatus (Line "Image generation completed!") s in
            (None, setIsGenerating false s)
          else (Some "Task succeeded but no image URL was returned.", s)
        else if is_str (prop statusData "status") "FAILED" then
          (Some (ToString (or_else (opt_prop (prop statusData "failure") "reason")
                                   (VStr "Image generation failed"))), s)
        else (None, s)
  end.

(** The rest of the callback, with its [catch]. *)
Definition resume (a : arrival) (s : state) : state :=
  match examine a s with
  | (None, s') => s'
  | (Some message, s') => clearInterval (setIsGenerating false (setError message s'))
  end.

(** [pollForStatus(taskId)] installs the interval. *)
Definition pollForStatus (s : state) : state := setInterval s.

(** What happens on the event loop afterwards: the interval elapses, or the
    oldest outstanding request settles. *)
Inductive event :=
| Tick
| Settle (a : arrival).

Definition step (taskId : value) (s : state) (e : event) : state :=
  match e with
  | Tick => if interval s then send taskId s else s
  | Settle a =>
      match pending s with
      | O => s
      | S _ => resume a (settled s)
      end
  end.

Definition run (taskId : value) (s : state) (es : list event) : state :=
  fold_left (step taskId) es s.

(** The state [generateModifiedImage] leaves when it calls [pollForStatus]. *)
Definition started : state :=
  {| modifiedImageUrl := VNull; isGenerating := true; progress := Percent 0;
     status := Line "Job started, processing image..."; error := "";
     interval := false; requests := []; pending := O |}.

(** A run in which every request settles before the next tick. *)
Fixpoint prompt_run (arrivals : list arrival) : list event :=
  match arrivals with
  | [] => []
  | a :: rest => Tick :: Settle a :: prompt_run rest
  end.

(** A status response the callback takes as still in progress, and one it
    takes as success with a result URL. *)
Definition in_progress (a : arrival) : bool :=
  match a with
  | Arrived true (VObj props) =>
      truthy (assoc "success" props) &&
      negb (is_str (assoc "status" props) "SUCCEEDED") &&
      negb (is_str (assoc "status" props) "FAILED")
  | _ => false
  end.

Definition succeeded_with (url : string) (a : arrival) : bool :=
  match a with
  | Arrived true (VObj props) =>
      truthy (assoc "success" props) &&
      is_str (assoc "status" props) "SUCCEEDED" &&
      is_str (assoc "imageUrl" props) url && negb (String.eqb url "")
  | _ => false
  end.

End App.

(** ** The situations the properties speak about *)

Module Scenario.
Import JS Sys.

(** A POST with the API key configured. *)
Definition keyed_post (ctx : context) : Prop :=
  method (ctx_request ctx) = "POST" /\
  key_present (RUNWAYML_API_KEY (ctx_env ctx)) = true.

(** A POST whose content type selects the JSON branch and whose body parses
    to [body]. *)
Definition json_post (ctx : context) (body : value) : Prop :=
  keyed_post ctx /\
  includes (default "" (content_type (ctx_request ctx))) "multipart/form-data" = false /\
  includes (default "" (content_type (ctx_request ctx))) "application/json" = true /\
  json (ctx_request ctx) = Parsed body.

(** A POST whose content type selects the multipart branch and whose body
    parses to the form entries [entries]. *)
Definition multipart_post (ctx : context) (entries : list (string * form_value))
  : Prop :=
  keyed_post ctx /\
  includes (default "" (content_type (ctx_request ctx))) "multipart/form-data" = true /\
  formData (ctx_request ctx) = Parsed entries.

(** A "status" action for the task [taskId]. *)
Definition status_action (ctx : context) (taskId : value) : Prop :=
  exists body,
    json_post ctx body /\
    is_str (prop body "action") "status" = true /\
    prop body "taskId" = taskId /\
    truthy taskId = true.

(** The upstream answers every request for [url] with [r]. *)
Definition answers (p : platform) (url : string) (r : reply) : Prop :=
  forall rq, Sys.url rq = url -> upstream p rq = Replies r.

(** The poll for [taskId] comes back with HTTP success and the task [data]. *)
Definition polled (p : platform) (taskId data : value) : Prop :=
  exists r,
    answers p (RUNWAY_API_BASE +:+ "/tasks/" +:+ ToString taskId) r /\
    ok r = true /\
    Sys.data r = data.

(** The submissions that lack a required field. *)
Definition malformed_upload (entries : list (string * form_value)) : bool :=
  negb (form_truthy (form_get "prompt" entries)) ||
  negb (form_truthy (form_get "image" entries)).

Definition malformed_action (body : value) : bool :=
  is_str (prop body "action") "generateImage" &&
    negb (truthy (prop body "prompt")) ||
  is_str (prop body "action") "startVideoFromUrl" &&
    (negb (truthy (prop body "videoPrompt")) ||
     negb (truthy (prop body "imageUrl"))).

Definition malformed (ctx : context) : Prop :=
  method (ctx_request ctx) = "POST" /\
  let contentType := default "" (content_type (ctx_request ctx)) in
  (includes contentType "multipart/form-data" = true /\
   exists entries, formData (ctx_request ctx) = Parsed entries /\
                   malformed_upload entries = true) \/
  (includes contentType "multipart/form-data" = false /\
   includes contentType "application/json" = true /\
   exists body, json (ctx_request ctx) = Parsed body /\
                malformed_action body = true).

(** A response refusing the request: a JSON body whose [success] is false. *)
Definition refused (r : response) : Prop :=
  exists v, rbody r = BJson v /\ prop v "success" = VBool false.

(** A JSON body sent with the permissive cross-origin header. *)
Definition json_with_cors (r : response) : Prop :=
  (exists v, rbody r = BJson v) /\
  In ("Content-Type", "application/json") (rheaders r) /\
  In ("Access-Control-Allow-Origin", "*") (rheaders r).

(** The error envelope with HTTP 500. *)
Definition error_envelope (r : response) (message : string) : Prop :=
  rbody r = BJson (VObj [("success", VBool false); ("error", VStr message)]) /\
  rstatus r = 500.

(** A string in which [parseInt] finds no decimal integer: after the white
    space and an optional sign there is no digit. *)
Definition unparseable (s : string) : bool :=
  match snd (strip_sign (skip_white s)) with
  | EmptyString => true
  | String c _ => negb (bool_decide (is_Some (digit_of c)))
  end.

(** Every value a computation can return satisfies [Q]. *)
Definition ensures {A : Type} (m : M A) (Q : A -> Prop) : Prop :=
  forall s a s', m s = (Returns a, s') -> Q a.

(** A response built by [jsonResponse]. *)
Definition built_by_jsonResponse (r : response) : Prop :=
  exists v status, r = jsonResponse v status.

End Scenario.

(** ** Concrete requests and answers *)

Module Sample.
Import JS Sys.

Definition fresh : state := {| kv := ∅; fetched := []; waiting := [] |}.

(** The largest double below 1. *)
Definition top_draw : unit_double := {| mant := 2 ^ 53 - 1; expo := -53 |}.

(** An upstream that answers every call with HTTP 200 and [data]. *)
Definition replying (data : value) : platform :=
  {| upstream := fun _ =>
       Replies {| ok := true; status := 200; statusText := "OK"; data := data |};
     Math_random := top_draw;
     max_arguments := 100000 |}.

Definition with_key (kv_bound : bool) : env :=
  {| RUNWAYML_API_KEY := Some "key_test"; TASK_INFO_KV := kv_bound |}.

Definition without_key : env :=
  {| RUNWAYML_API_KEY := None; TASK_INFO_KV := false |}.

Definition post_json (body : value) (e : env) : context :=
  {| ctx_request :=
       {| method := "POST";
          content_type := Some "application/json";
          formData := Malformed "Unrecognized Content-Type header value.";
          json := Parsed body |};
     ctx_env := e |}.

Definition post_form (entries : list (string * form_value)) (e : env) : context :=
  {| ctx_request :=
       {| method := "POST";
          content_type := Some "multipart/form-data; boundary=----x";
          formData := Parsed entries;
          json := Malformed "Unexpected token '-'" |};
     ctx_env := e |}.

Definition bare (method : string) (e : env) : context :=
  {| ctx_request :=
       {| method := method;
          content_type := None;
          formData := Malformed "Unrecognized Content-Type header value.";
          json := Malformed "Unexpected end of JSON input" |};
     ctx_env := e |}.

Definition status_of_task1 : value :=
  VObj [("taskId", VStr "task-1"); ("action", VStr "status")].

Definition succeeded_empty : value :=
  VObj [("id", VStr "task-1"); ("status", VStr "SUCCEEDED"); ("output", VArr [])].

Definition succeeded_png : value :=
  VObj [("id", VStr "task-1"); ("status", VStr "SUCCEEDED");
        ("output", VArr [VStr "https://x/y.png"])].

Definition image_record : value := VObj [("type", VStr "image")].

Definition holding_image_record : state :=
  {| kv := {["task-1" := image_record]}; fetched := []; waiting := [] |}.

Definition png : file :=
  {| name := "cat.png"; type := "image/png";
     bytes := [x89; x50; x4e; x47]%byte |}.

Definition running (progress : number) : App.arrival :=
  App.Arrived true
    (VObj [("success", VBool true); ("status", VStr "RUNNING");
           ("progress", VNum progress)]).

Definition done_with (url : string) : App.arrival :=
  App.Arrived true
    (VObj [("success", VBool true); ("status", VStr "SUCCEEDED");
           ("progress", VNum (Int 1)); ("imageUrl", VStr url)]).

End Sample.

(** ** What a computation leaves alone *)

Module Effects.
Import JS Sys.

(** [m] never changes what [view] shows of the state. *)
Definition keeps {X A : Type} (view : state -> X) (m : M A) : Prop :=
  forall s, view (snd (m s)) = view s.

(** [m] changes what [view] shows at most once, and then as [R] allows. *)
Definition changes_once {X A : Type} (view : state -> X) (R : X -> X -> Prop)
    (m : M A) : Prop :=
  forall s, view (snd (m s)) = view s \/ R (view s) (view (snd (m s))).

(** An upstream call of the worker configured with [e]: it goes to the API
    base and carries the bearer credential and the API version. *)
Definition authorized (e : env) (rq : fetch_request) : Prop :=
  String.prefix RUNWAY_API_BASE (url rq) = true /\
  assoc "Authorization" (fheaders rq) = VStr (bearer e) /\
  assoc "X-Runway-Version" (fheaders rq) = VStr "2024-11-06".

(** One more call, an authorized one. *)
Definition one_call (e : env) (old new : list fetch_request) : Prop :=
  exists rq, authorized e rq /\ new = old ++ [rq].

(** One more document in the store: the kind of a task. *)
Definition one_kind_record (old new : gmap string value) : Prop :=
  exists key kind,
    (kind = "image" \/ kind = "video") /\
    new = <[key := VObj [("type", VStr kind)]]> old.

(** One more pending deletion. *)
Definition one_deletion (old new : list string) : Prop :=
  exists key, new = old ++ [key].

(** The state after a submission the upstream accepted: the call, and the
    kind of the task under its id when the namespace is bound. *)
Definition submitted (e : env) (rq : fetch_request) (id : value) (kind : string)
    (s : state) : state :=
  if TASK_INFO_KV e
  then {| kv := <[ToString id := VObj [("type", VStr kind)]]> (kv s);
          fetched := fetched s ++ [rq]; waiting := waiting s |}
  else called rq s.

End Effects.

(** ** Between the browser and the worker *)

Module Browser.
Import JS Sys.

(** [JSON.parse(JSON.stringify(v))]: properties whose value is undefined are
    left out, undefined array elements, NaN and the infinities become null. *)
Fixpoint reparse (v : value) : value :=
  match v with
  | VUndefined => VNull
  | VNum NaN | VNum (Infinity _) => VNull
  | VArr xs => VArr (map reparse xs)
  | VObj props =>
      VObj ((fix kept (ps : list (string * value)) : list (string * value) :=
               match ps with
               | [] => []
               | (_, VUndefined) :: rest => kept rest
               | (k, x) :: rest => (k, reparse x) :: kept rest
               end) props)
  | _ => v
  end.

(** What reading a property of the reparsed object gives for a property
    that held [x]. *)
Definition seen (x : value) : value :=
  match x with
  | VUndefined => VUndefined
  | _ => reparse x
  end.

Fixpoint distinct_keys (props : list (string * value)) : bool :=
  match props with
  | [] => true
  | (k, _) :: rest =>
      forallb (fun kv => negb (String.eqb k (fst kv))) rest && distinct_keys rest
  end.

(** [response.ok] *)
Definition ok_status (status : Z) : bool := (200 <=? status) && (status <=? 299).

(** How a response of the worker settles the [fetch] of the client followed
    by [response.json()].  The only text body the handlers send, "Method not
    allowed", is not JSON, and neither is an empty body. *)
Definition receive (r : response) : App.arrival :=
  match rbody r with
  | BJson VUndefined | BNull => App.Rejected "Unexpected end of JSON input"
  | BText _ => App.Rejected "Unexpected token in JSON"
  | BJson v => App.Arrived (ok_status (rstatus r)) (reparse v)
  end.

(** The status request of the client as the worker receives it:
    [JSON.stringify({ taskId, action: 'status' })] with the JSON content
    type. *)
Definition status_call (taskId : value) (e : env) : context :=
  {| ctx_request :=
       {| method := "POST";
          content_type := Some "application/json";
          formData := Malformed "Unrecognized Content-Type header value.";
          json := Parsed (reparse (VObj [("taskId", taskId);
                                         ("action", VStr "status")])) |};
     ctx_env := e |}.

(** The upload of the client as the worker receives it; the browser picks
    the boundary. *)
Definition upload_call (entries : list (string * form_value)) (boundary : string)
    (e : env) : context :=
  {| ctx_request :=
       {| method := "POST";
          content_type := Some ("multipart/form-data; boundary=" +:+ boundary);
          formData := Parsed entries;
          json := Malformed "Unexpected token in JSON" |};
     ctx_env := e |}.

(** A status response the callback takes as the result: it sets the image
    and stops the poll. *)
Definition shows_result (a : App.arrival) : bool :=
  match a with
  | App.Arrived true (VObj props) =>
      truthy (assoc "success" props) &&
      is_str (assoc "status" props) "SUCCEEDED" &&
      truthy (assoc "imageUrl" props)
  | _ => false
  end.

(** The ticks among the events of a poll. *)
Fixpoint ticks (es : list App.event) : nat :=
  match es with
  | [] => O
  | App.Tick :: rest => S (ticks rest)
  | App.Settle _ :: rest => ticks rest
  end.

End Browser.

(** ** [src/App.jsx]: the component around the poller *)

Module Client.
Import JS Sys.

(** [s.trim()] on code units below 256. *)
Definition reverse (s : string) : string :=
  string_of_list_ascii (rev (list_ascii_of_string s)).

Definition trim (s : string) : string :=
  reverse (skip_white (reverse (skip_white s))).

(** The component: the form, the state the poller shows, and the timers.
    [shown] holds the state [pollForStatus] touches, with [interval] telling
    whether the interval held in [pollIntervalRef.current] is running and
    [requests] and [pending] the status requests sent and outstanding;
    [polling] is the task id the callback of that interval was created with;
    [stray] lists the task ids of the intervals that are running but no
    longer held in [pollIntervalRef]; [uploads] are the forms posted, and
    [uploading] how many of them have not settled. *)
Record component := {
  prompt : string;
  selectedFile : option file;
  previewUrl : option file;
  ratio : string;
  shown : App.state;
  polling : value;
  stray : list value;
  uploads : list (list (string * form_value));
  uploading : nat
}.

Definition with_shown (x : App.state) (c : component) : component :=
  {| prompt := prompt c; selectedFile := selectedFile c;
     previewUrl := previewUrl c; ratio := ratio c; shown := x;
     polling := polling c; stray := stray c; uploads := uploads c;
     uploading := uploading c |}.

Definition setPrompt (x : string) (c : component) : component :=
  {| prompt := x; selectedFile := selectedFile c;
     previewUrl := previewUrl c; ratio := ratio c; shown := shown c;
     polling := polling c; stray := stray c; uploads := uploads c;
     uploading := uploading c |}.

Definition setRatio (x : string) (c : component) : component :=
  {| prompt := prompt c; selectedFile := selectedFile c;
     previewUrl := previewUrl c; ratio := x; shown := shown c;
     polling := polling c; stray := stray c; uploads := uploads c;
     uploading := uploading c |}.

Definition setSelectedFile (x : option file) (c : component) : component :=
  {| prompt := prompt c; selectedFile := x;
     previewUrl := previewUrl c; ratio := ratio c; shown := shown c;
     polling := polling c; stray := stray c; uploads := uploads c;
     uploading := uploading c |}.

(** [setPreviewUrl(URL.createObjectURL(file))]: the URL is kept as the file
    it stands for. *)
Definition setPreviewUrl (x : option file) (c : component) : component :=
  {| prompt := prompt c; selectedFile := selectedFile c;
     previewUrl := x; ratio := ratio c; shown := shown c;
     polling := polling c; stray := stray c; uploads := uploads c;
     uploading := uploading c |}.

Definition setError (msg : string) (c : component) : component :=
  with_shown (App.setError msg (shown c)) c.

Definition setIsGenerating (b : bool) (c : component) : component :=
  with_shown (App.setIsGenerating b (shown c)) c.

Definition setStatus (text : string) (c : component) : component :=
  with_shown (App.setStatus (App.Line text) (shown c)) c.

Definition resetState (c : component) : component :=
  with_shown
    (App.setError ""
       (App.setStatus (App.Line "")
          (App.setProgress (App.Percent 0)
             (App.setIsGenerating false
                (App.setModifiedImageUrl VNull (shown c)))))) c.

Definition validTypes : list string :=
  ["image/jpeg"; "image/jpg"; "image/png"; "image/webp"].

Definition maxSize : Z := 10 * 1024 * 1024.

(** [file.size] *)
Definition size (f : file) : Z := Z.of_nat (length (bytes f)).

(** [handleFileSelect]; [picked] is [event.target.files[0]]. *)
Definition handleFileSelect (picked : option file) (c : component) : component :=
  match picked with
  | None => c
  | Some file =>
      let c := resetState c in
      if negb (existsb (String.eqb (type file)) validTypes) then
        setError "Please select a valid image format (JPEG, PNG, WebP)" c
      else if maxSize <? size file then
        setError "The file is too large. Maximum 10MB allowed." c
      else
        setPreviewUrl (Some file) (setError "" (setSelectedFile (Some file) c))
  end.

Definition removeFile (c : component) : component :=
  resetState (setPreviewUrl None (setSelectedFile None c)).

(** [pollForStatus(taskId)] in the component: the new interval takes the
    place of the one held in [pollIntervalRef], which keeps running if it
    was. *)
Definition pollForStatus (taskId : value) (c : component) : component :=
  {| prompt := prompt c; selectedFile := selectedFile c;
     previewUrl := previewUrl c; ratio := ratio c;
     shown := App.pollForStatus (shown c);
     polling := taskId;
     stray := if App.interval (shown c) then stray c ++ [polling c] else stray c;
     uploads := uploads c; uploading := uploading c |}.

(** [generateModifiedImage] up to its [await fetch]. *)
Definition generateModifiedImage (c : component) : component :=
  match selectedFile c with
  | Some file =>
      if negb (truthy (VStr (trim (prompt c)))) then
        setError "Please upload an image and provide a modification prompt." c
      else
        let c := setStatus "Uploading image and starting job..."
                   (setIsGenerating true (resetState c)) in
        {| prompt := prompt c; selectedFile := selectedFile c;
           previewUrl := previewUrl c; ratio := ratio c; shown := shown c;
           polling := polling c; stray := stray c;
           uploads := uploads c ++ [[("prompt", FText (prompt c));
                                     ("image", FFile file);
                                     ("ratio", FText (ratio c))]];
           uploading := S (uploading c) |}
  | None =>
      setError "Please upload an image and provide a modification prompt." c
  end.

(** The rest of [generateModifiedImage], once the upload has settled. *)
Definition uploaded (a : App.arrival) (c : component) : component :=
  let failed message := setIsGenerating false (setError message c) in
  match a with
  | App.Rejected msg => failed msg
  | App.Arrived ok ((VUndefined | VNull) as data) =>
      failed (App.null_read data (if ok then "success" else "error"))
  | App.Arrived ok data =>
      if negb ok || negb (truthy (prop data "success")) then
        failed (ToString (or_else (prop data "error")
                                  (VStr "Failed to start image modification")))
      else
        pollForStatus (prop data "taskId")
          (setStatus "Job started, processing image..." c)
  end.

(** The cleanup of the effect, run when the component unmounts. *)
Definition cleanup (c : component) : component :=
  if App.interval (shown c) then with_shown (App.clearInterval (shown c)) c else c.

Inductive event :=
| SelectFile (picked : option file)
| RemoveFile
| SetPrompt (text : string)
| SetRatio (r : string)
| Generate
| UploadSettles (a : App.arrival)
| Tick
| StrayTick (i : nat)
| Settle (a : App.arrival).

Definition step (c : component) (e : event) : component :=
  match e with
  | SelectFile picked => handleFileSelect picked c
  | RemoveFile => removeFile c
  | SetPrompt text => setPrompt text c
  | SetRatio r => setRatio r c
  | Generate => generateModifiedImage c
  | UploadSettles a =>
      match uploading c with
      | O => c
      | S n =>
          uploaded a
            {| prompt := prompt c; selectedFile := selectedFile c;
               previewUrl := previewUrl c; ratio := ratio c; shown := shown c;
               polling := polling c; stray := stray c; uploads := uploads c;
               uploading := n |}
      end
  | Tick => with_shown (App.step (polling c) (shown c) App.Tick) c
  | StrayTick i =>
      match stray c !! i with
      | Some taskId => with_shown (App.send taskId (shown c)) c
      | None => c
      end
  | Settle a => with_shown (App.step (polling c) (shown c) (App.Settle a)) c
  end.

Definition run (c : component) (es : list event) : component :=
  fold_left step es c.

(** The component as it is mounted. *)
Definition mounted : component :=
  {| prompt := ""; selectedFile := None; previewUrl := None;
     ratio := "1280:720";
     shown := {| App.modifiedImageUrl := VNull; App.isGenerating := false;
                 App.progress := App.Percent 0; App.status := App.Line "";
                 App.error := ""; App.interval := false;
                 App.requests := []; App.pending := O |};
     polling := VUndefined; stray := []; uploads := []; uploading := O |}.

(** The button that calls [generateModifiedImage] is rendered with a file
    selected and enabled unless generating or the prompt is blank. *)
Definition can_generate (c : component) : bool :=
  bool_decide (is_Some (selectedFile c)) &&
  negb (App.isGenerating (shown c) || negb (truthy (VStr (trim (prompt c))))).

(** A file [handleFileSelect] accepts. *)
Definition valid_file (f : file) : bool :=
  existsb (String.eqb (type f)) validTypes && (size f <=? maxSize).

(** An upload with a prompt that is not blank and an accepted file. *)
Definition well_formed (form : list (string * form_value)) : Prop :=
  exists text file r,
    form = [("prompt", FText text); ("image", FFile file); ("ratio", FText r)] /\
    trim text <> "" /\
    valid_file file = true.

(** What every step keeps: the selected file is one [handleFileSelect]
    accepted and is the file shown as preview, and every upload is well
    formed. *)
Definition sound (c : component) : Prop :=
  (forall file, selectedFile c = Some file -> valid_file file = true) /\
  previewUrl c = selectedFile c /\
  Forall well_formed (uploads c).

(** What the user does with the form, as opposed to what timers and the
    network do. *)
Definition is_form_event (e : event) : bool :=
  match e with
  | SelectFile _ | RemoveFile | SetPrompt _ | SetRatio _ => true
  | _ => false
  end.

End Client.

(** ** More concrete upstreams and requests *)

Module Cases.
Import JS Sys.

(** An upstream that accepts submissions with [job] and answers polls with
    [task]. *)
Definition serving (job task : value) : platform :=
  {| upstream := fun rq =>
       Replies {| ok := true; status := 200; statusText := "OK";
                  data := if includes (url rq) "/tasks/" then task else job |};
     Math_random := Sample.top_draw;
     max_arguments := 100000 |}.

(** An upstream that refuses every call with HTTP 400 and [data]. *)
Definition refusing (data : value) : platform :=
  {| upstream := fun _ =>
       Replies {| ok := false; status := 400; statusText := "Bad Request";
                  data := data |};
     Math_random := Sample.top_draw;
     max_arguments := 100000 |}.

(** An upstream that accepts every submission, behind an engine with room
    for three arguments. *)
Definition cramped : platform :=
  {| upstream := fun rq =>
       Replies {| ok := true; status := 200; statusText := "OK";
                  data := VObj [("id", VStr "task-1");
                                ("status", VStr "PENDING")] |};
     Math_random := Sample.top_draw;
     max_arguments := 3 |}.

(** An upstream that cannot be reached. *)
Definition down : platform :=
  {| upstream := fun _ => Rejects "Network connection lost.";
     Math_random := Sample.top_draw;
     max_arguments := 100000 |}.

Definition accepted_job : value :=
  VObj [("id", VStr "task-1"); ("status", VStr "PENDING")].

Definition running_task : value :=
  VObj [("id", VStr "task-1"); ("status", VStr "RUNNING");
        ("progress", VNum (Dec 4 1))].

Definition failed_task : value :=
  VObj [("id", VStr "task-1"); ("status", VStr "FAILED");
        ("failure", VStr "Content moderation."); ("failureCode", VStr "SAFETY")].

Definition video_from_url : value :=
  VObj [("action", VStr "startVideoFromUrl"); ("videoPrompt", VStr "a cat runs");
        ("imageUrl", VStr "https://x/y.png")].

Definition image_of_a_cat : value :=
  VObj [("action", VStr "generateImage"); ("prompt", VStr "a cat")].

Definition cat_form : list (string * form_value) :=
  [("prompt", FText "a cat"); ("image", FFile Sample.png);
   ("ratio", FText "1280:720")].

(** The component while it polls task-1. *)
Definition polling_task1 : Client.component :=
  Client.pollForStatus (VStr "task-1")
    (Client.setStatus "Job started, processing image..."
       (Client.setSelectedFile (Some Sample.png) Client.mounted)).

End Cases.

(** * Properties *)

Example parseInt_12abc : JS.parseInt "  12abc" = JS.Int 12.
Proof. reflexivity. Qed.
Example parseInt_neg : JS.parseInt "-7" = JS.Int (-7).
Proof. reflexivity. Qed.
Example parseInt_abc : JS.parseInt "abc" = JS.NaN.
Proof. reflexivity. Qed.
Example parseInt_rounds :
  JS.parseInt "9007199254740993" = JS.Int 9007199254740992 /\
  JS.parseInt "9007199254740995" = JS.Int 9007199254740996.
Proof. vm_compute. split; reflexivity. Qed.
Example parseInt_overflows :
  let largest := (2 ^ 53 - 1) * 2 ^ 971 in
  JS.parseInt (JS.Z_toString largest) = JS.Int largest /\
  JS.parseInt (JS.Z_toString (2 ^ 1024 - 2 ^ 970 - 1)) = JS.Int largest /\
  JS.parseInt (JS.Z_toString (2 ^ 1024 - 2 ^ 970)) = JS.Infinity false /\
  JS.parseInt ("-1" +:+ JS.zeros 309) = JS.Infinity true.
Proof. vm_compute. repeat split. Qed.
Example btoa_Man : JS.btoa (JS.fromCharCodes [x4d; x61; x6e; x4d]%byte) = "TWFuTQ==".
Proof. reflexivity. Qed.
Example toString_dec : JS.Number_toString (JS.Dec (-1250) 3) = "-1.25".
Proof. reflexivity. Qed.
Example toString_small : JS.Number_toString (JS.Dec 5 2) = "0.05".
Proof. reflexivity. Qed.
Example toString_integers :
  JS.Number_toString (JS.Int 500) = "500" /\
  JS.Number_toString (JS.Dec 0 3) = "0" /\
  JS.Number_toString (JS.Int (10 ^ 20)) = "100000000000000000000" /\
  JS.Number_toString (JS.Int (10 ^ 21)) = "1e+21" /\
  JS.Number_toString (JS.Int (-123 * 10 ^ 20)) = "-1.23e+22".
Proof. vm_compute. repeat split. Qed.
Example toString_fractions :
  JS.Number_toString (JS.Dec 1 6) = "0.000001" /\
  JS.Number_toString (JS.Dec 1 7) = "1e-7" /\
  JS.Number_toString (JS.Dec 123 9) = "1.23e-7" /\
  JS.Number_toString (JS.Dec 12345 2) = "123.45".
Proof. vm_compute. repeat split. Qed.
Example floor_half :
  JS.Math_floor (JS.times {| JS.mant := 2 ^ 52; JS.expo := -53 |} 4294967295)
  = 2147483647.
Proof. reflexivity. Qed.
Example floor_top :
  JS.Math_floor (JS.times {| JS.mant := 2 ^ 53 - 1; JS.expo := -53 |} 4294967295)
  = 4294967294.
Proof. reflexivity. Qed.
Example floor_tiny :
  JS.Math_floor (JS.times {| JS.mant := 1; JS.expo := -1074 |} 4294967295) = 0.
Proof. reflexivity. Qed.

(** ** Running the monad *)

Section MonadFacts.
Import JS Sys.

Lemma bind_returns {A B : Type} (m : M A) (f : A -> M B) s a s' :
  m s = (Returns a, s') -> (m ≫= f) s = f a s'.
Proof. intros H. unfold mbind, M_bind. now rewrite H. Qed.

Lemma fetch_replies p rq r s :
  upstream p rq = Replies r -> fetch p rq s = (Returns r, called rq s).
Proof. intros H. unfold fetch. now rewrite H. Qed.

Lemma is_str_eq v lit : is_str v lit = true -> v = VStr lit.
Proof.
  destruct v; simpl; try discriminate.
  intros H. apply String.eqb_eq in H. now subst.
Qed.

Lemma is_str_object o k lit :
  is_str (prop o k) lit = true -> exists props, o = VObj props.
Proof. destruct o; simpl; try discriminate. eauto. Qed.

Lemma truthy_object o k :
  truthy (prop o k) = true -> exists props, o = VObj props.
Proof. destruct o; simpl; try discriminate. eauto. Qed.

Lemma prop_object o k v :
  prop o k = v -> v <> VUndefined -> exists props, o = VObj props.
Proof. destruct o; simpl; intros <- H; try contradiction. eauto. Qed.

End MonadFacts.

(** Steps over [mret tt ≫= f] and over the parse of a body. *)
Ltac skip_unit :=
  change (mbind ?f (@mret Sys.M _ unit tt)) with (f tt); cbn beta.

(** ** Dispatch *)

Section Dispatch.
Import JS Sys Scenario.

Lemma Ai_post p ctx s :
  keyed_post ctx ->
  Ai.onRequest p ctx s =
    try_catch (Ai.process p ctx)
      (fun message => mret (jsonResponse (Ai.failure message) 500)) s.
Proof. intros [Hm Hk]. unfold Ai.onRequest. now rewrite Hm, Hk. Qed.

Lemma Image_post p ctx s :
  keyed_post ctx ->
  ImageHandler.onRequest p ctx s =
    try_catch (ImageHandler.process p ctx)
      (fun message => mret (jsonResponse (ImageHandler.failure message) 500)) s.
Proof. intros [Hm Hk]. unfold ImageHandler.onRequest. now rewrite Hm, Hk. Qed.

(** In the JSON branch [process] is the [switch] on the action. *)
Lemma Ai_process_json p ctx props s :
  json_post ctx (VObj props) ->
  Ai.process p ctx s =
    (let body := VObj props in
     let action := assoc "action" props in
     if is_str action "generateImage" then Ai.generateImage p (ctx_env ctx) body
     else if is_str action "startVideoFromUrl"
          then Ai.startVideoFromUrl p (ctx_env ctx) body
     else if is_str action "status" then Ai.check_status p (ctx_env ctx) body
     else throw "Invalid action specified.") s.
Proof.
  intros (_ & Hmp & Hj & Hb). unfold Ai.process. now rewrite Hmp, Hj, Hb.
Qed.

Lemma Image_process_json p ctx props s :
  json_post ctx (VObj props) ->
  ImageHandler.process p ctx s =
    (if is_str (assoc "action" props) "status"
     then ImageHandler.check_status p (ctx_env ctx) (assoc "taskId" props)
     else throw "Invalid action specified.") s.
Proof.
  intros (_ & Hmp & Hj & Hb). unfold ImageHandler.process.
  now rewrite Hmp, Hj, Hb.
Qed.

Lemma Ai_status p ctx taskId s :
  status_action ctx taskId ->
  exists body,
    prop body "taskId" = taskId /\
    Ai.onRequest p ctx s =
      try_catch (Ai.check_status p (ctx_env ctx) body)
        (fun message => mret (jsonResponse (Ai.failure message) 500)) s.
Proof.
  intros (body & Hpost & Ha & Ht & _).
  exists body. split; [assumption|].
  destruct (is_str_object _ _ _ Ha) as [props ->].
  rewrite Ai_post by apply Hpost.
  unfold try_catch. rewrite (Ai_process_json _ _ _ _ Hpost).
  cbn zeta. simpl in Ha. rewrite (is_str_eq _ _ Ha). reflexivity.
Qed.

Lemma Image_status p ctx taskId s :
  status_action ctx taskId ->
  ImageHandler.onRequest p ctx s =
    try_catch (ImageHandler.check_status p (ctx_env ctx) taskId)
      (fun message => mret (jsonResponse (ImageHandler.failure message) 500)) s.
Proof.
  intros (body & Hpost & Ha & Ht & _).
  destruct (is_str_object _ _ _ Ha) as [props ->].
  rewrite Image_post by apply Hpost.
  unfold try_catch. rewrite (Image_process_json _ _ _ _ Hpost).
  simpl in Ha, Ht. now rewrite Ha, Ht.
Qed.

(** A poll that comes back with HTTP success hands its data to [relay]. *)
Lemma Ai_check_status_polled p env body data s :
  truthy (prop body "taskId") = true ->
  polled p (prop body "taskId") data ->
  Ai.check_status p env body s =
    Ai.relay env (prop body "taskId") data
      (called (Ai.status_request env (prop body "taskId")) s).
Proof.
  intros Ht (r & Hup & Hok & Hd). unfold Ai.check_status. rewrite Ht.
  cbn [negb]. skip_unit.
  rewrite (bind_returns (fetch p _) _ s r (called _ s))
    by (apply fetch_replies, Hup; reflexivity).
  rewrite Hok, Hd. cbn [negb]. skip_unit. reflexivity.
Qed.

Lemma Image_check_status_polled p env taskId data s :
  truthy taskId = true ->
  polled p taskId data ->
  ImageHandler.check_status p env taskId s =
    ImageHandler.relay data (called (ImageHandler.status_request env taskId) s).
Proof.
  intros Ht (r & Hup & Hok & Hd). unfold ImageHandler.check_status. rewrite Ht.
  cbn [negb]. skip_unit.
  rewrite (bind_returns (fetch p _) _ s r (called _ s))
    by (apply fetch_replies, Hup; reflexivity).
  rewrite Hok, Hd. cbn [negb]. skip_unit. reflexivity.
Qed.

End Dispatch.

(** ** Relaying the status of a task *)

Section Status.
Import JS Sys Scenario.

Lemma opt_first_truthy v : truthy (opt_first v) = true -> truthy v = true.
Proof. destruct v as [| | |[]|[]| |]; simpl; try discriminate; auto. Qed.

(** The copy of the handler that only serves images turns a task that
    succeeded without output into a failure. *)
Lemma Image_empty_output_fails p ctx taskId data s :
  status_action ctx taskId ->
  polled p taskId data ->
  prop data "status" = VStr "SUCCEEDED" ->
  prop data "output" = VArr [] ->
  ImageHandler.onRequest p ctx s =
    (Returns (jsonResponse
                (VObj [("success", VBool false); ("status", VStr "FAILED");
                       ("error", VStr "Task succeeded but output was empty.")])
                200),
     called (ImageHandler.status_request (ctx_env ctx) taskId) s).
Proof.
  intros Hact Hpoll Hst Hout.
  rewrite (Image_status _ _ _ _ Hact).
  assert (Ht : truthy taskId = true) by (destruct Hact as (? & ? & ? & ? & ?); assumption).
  unfold try_catch. rewrite (Image_check_status_polled _ _ _ _ _ Ht Hpoll).
  destruct (truthy_object data "status") as [dprops ->]; [now rewrite Hst|].
  unfold ImageHandler.relay. cbn [member]. simpl in Hst, Hout.
  unfold mbind, M_bind, mret, M_ret. cbn [prop]. rewrite Hst, Hout. reflexivity.
Qed.

(** C1, on [functions/ai.js]: a task reported as SUCCEEDED with an empty
    output array is answered with the payload of a task still in progress,
    [{success: true, status: "SUCCEEDED", progress}], and not with the
    failure payload. *)
Theorem Ai_empty_output_relayed_as_progress p ctx taskId data s :
  status_action ctx taskId ->
  polled p taskId data ->
  prop data "status" = VStr "SUCCEEDED" ->
  prop data "output" = VArr [] ->
  Ai.onRequest p ctx s =
    (Returns ({| rstatus := 200;
                 rheaders := [("Content-Type", "application/json");
                              ("Access-Control-Allow-Origin", "*")];
                 rbody := BJson
                   (VObj [("success", VBool true); ("status", VStr "SUCCEEDED");
                          ("progress", prop data "progress")]) |}),
     called (Ai.status_request (ctx_env ctx) taskId) s).
Proof.
  intros Hact Hpoll Hst Hout.
  assert (Ht : truthy taskId = true) by (destruct Hact as (? & ? & ? & ? & ?); assumption).
  destruct (Ai_status p ctx taskId s Hact) as (body & Hid & ->). subst taskId.
  unfold try_catch. rewrite (Ai_check_status_polled _ _ _ _ _ Ht Hpoll).
  destruct (truthy_object data "status") as [dprops ->]; [now rewrite Hst|].
  unfold Ai.relay. cbn [member]. simpl in Hst, Hout.
  unfold mbind, M_bind, mret, M_ret. cbn [prop]. rewrite Hst, Hout. reflexivity.
Qed.

(** C2, as amended: when the task succeeded with an output URL and no
    metadata record exists for it (the namespace is not bound, or holds
    nothing under the task id), [functions/ai.js] answers with the success
    payload carrying the URL as [videoUrl]; the copy of the handler without a
    metadata store answers the same poll with the URL as [imageUrl]. *)
Theorem absent_record_defaults_to_video p ctx taskId data s :
  status_action ctx taskId ->
  polled p taskId data ->
  prop data "status" = VStr "SUCCEEDED" ->
  truthy (opt_first (prop data "output")) = true ->
  TASK_INFO_KV (ctx_env ctx) = false \/ kv s !! ToString taskId = None ->
  (exists s',
     Ai.onRequest p ctx s =
       (Returns ({| rstatus := 200;
                    rheaders := [("Content-Type", "application/json");
                                 ("Access-Control-Allow-Origin", "*")];
                    rbody := BJson
                      (VObj [("success", VBool true); ("status", VStr "SUCCEEDED");
                             ("progress", prop data "progress");
                             ("videoUrl", opt_first (prop data "output"))]) |}), s')) /\
  (exists s',
     ImageHandler.onRequest p ctx s =
       (Returns ({| rstatus := 200;
                    rheaders := [("Content-Type", "application/json");
                                 ("Access-Control-Allow-Origin", "*")];
                    rbody := BJson
                      (VObj [("success", VBool true); ("status", VStr "SUCCEEDED");
                             ("progress", prop data "progress");
                             ("imageUrl", opt_first (prop data "output"))]) |}), s')).
Proof.
  intros Hact Hpoll Hst Hout Habs.
  assert (Ht : truthy taskId = true) by (destruct Hact as (? & ? & ? & ? & ?); assumption).
  destruct (truthy_object data "status") as [dprops ->]; [now rewrite Hst|].
  split.
  - destruct (Ai_status p ctx taskId s Hact) as (body & Hid & ->). subst taskId.
    unfold try_catch. rewrite (Ai_check_status_polled _ _ _ _ _ Ht Hpoll).
    unfold Ai.relay. cbn [member].
    unfold mbind, M_bind, mret, M_ret. rewrite Hst, Hout.
    cbn [is_str String.eqb Ascii.eqb Bool.eqb andb].
    destruct (TASK_INFO_KV (ctx_env ctx)) eqn:Hkv.
    + destruct Habs as [Habs | Habs]; [discriminate|].
      unfold kv_get, waitUntil_delete, called. cbn [kv]. rewrite Habs.
      eexists. reflexivity.
    + eexists. reflexivity.
  - rewrite (Image_status _ _ _ _ Hact).
    unfold try_catch. rewrite (Image_check_status_polled _ _ _ _ _ Ht Hpoll).
    unfold ImageHandler.relay. cbn [member].
    unfold mbind, M_bind, mret, M_ret. rewrite Hst, Hout.
    rewrite (opt_first_truthy _ Hout).
    eexists. reflexivity.
Qed.

(** C5, as amended: with a stored record of kind image, a task that succeeded
    with the single output [url] is answered with
    [{success: true, status: "SUCCEEDED", progress, imageUrl: url}], where
    [progress] is whatever the upstream reported; the record is still in the
    store when the response is returned, its deletion is pending, and it is
    gone once the pending deletions have run. *)
Theorem image_record_yields_imageUrl p ctx taskId data url record s :
  status_action ctx taskId ->
  polled p taskId data ->
  prop data "status" = VStr "SUCCEEDED" ->
  prop data "output" = VArr [VStr url] ->
  url <> "" ->
  TASK_INFO_KV (ctx_env ctx) = true ->
  kv s !! ToString taskId = Some record ->
  prop record "type" = VStr "image" ->
  exists s',
    Ai.onRequest p ctx s =
      (Returns ({| rstatus := 200;
                   rheaders := [("Content-Type", "application/json");
                                ("Access-Control-Allow-Origin", "*")];
                   rbody := BJson
                     (VObj [("success", VBool true); ("status", VStr "SUCCEEDED");
                            ("progress", prop data "progress");
                            ("imageUrl", VStr url)]) |}), s') /\
    kv s' = kv s /\
    waiting s' = waiting s ++ [ToString taskId] /\
    kv (settle s') !! ToString taskId = None.
Proof.
  intros Hact Hpoll Hst Hout Hurl Hkv Hrec Hty.
  assert (Ht : truthy taskId = true) by (destruct Hact as (? & ? & ? & ? & ?); assumption).
  destruct (truthy_object data "status") as [dprops ->]; [now rewrite Hst|].
  destruct (Ai_status p ctx taskId s Hact) as (body & Hid & ->). subst taskId.
  unfold try_catch. rewrite (Ai_check_status_polled _ _ _ _ _ Ht Hpoll).
  unfold Ai.relay. cbn [member].
  unfold mbind, M_bind, mret, M_ret. rewrite Hst, Hout, Hkv.
  assert (Hu : truthy (opt_first (VArr [VStr url])) = true).
  { simpl. destruct (String.eqb_spec url ""); [contradiction | reflexivity]. }
  rewrite Hu. cbn [is_str String.eqb Ascii.eqb Bool.eqb andb].
  unfold kv_get, waitUntil_delete, called. cbn [kv]. rewrite Hrec.
  cbn [default from_option]. unfold opt_prop, id. rewrite Hty. cbn.
  eexists. split; [reflexivity|]. cbn.
  repeat split.
  rewrite foldr_app. cbn. 
  generalize (waiting s). intros l. induction l as [|k l IH]; cbn.
  - apply lookup_delete_eq.
  - destruct (decide (k = ToString (prop body "taskId"))) as [->|Hne].
    + apply lookup_delete_eq.
    + rewrite lookup_delete_ne by assumption. apply IH.
Qed.

End Status.

(** ** Submissions *)

Section Submissions.
Import JS Sys Scenario.

(** C6: a "generateImage" action with a prompt, answered by the upstream
    with HTTP success and the task id [taskId], is answered with
    [{success: true, taskId}]; when the KV namespace is bound, the document
    [{type: "image"}] is stored under [taskId] before the response. *)
Theorem generateImage_returns_task_id p ctx body r taskId s :
  json_post ctx body ->
  is_str (prop body "action") "generateImage" = true ->
  truthy (prop body "prompt") = true ->
  answers p (RUNWAY_API_BASE +:+ "/text_to_image") r ->
  ok r = true ->
  prop (data r) "id" = VStr taskId ->
  exists s',
    Ai.onRequest p ctx s =
      (Returns ({| rstatus := 200;
                   rheaders := [("Content-Type", "application/json");
                                ("Access-Control-Allow-Origin", "*")];
                   rbody := BJson
                     (VObj [("success", VBool true);
                            ("taskId", VStr taskId)]) |}), s') /\
    (TASK_INFO_KV (ctx_env ctx) = true ->
     kv s' !! taskId = Some (VObj [("type", VStr "image")])) /\
    (TASK_INFO_KV (ctx_env ctx) = false -> kv s' = kv s).
Proof.
  intros Hpost Ha Hp Hup Hok Hid.
  destruct (is_str_object _ _ _ Ha) as [props ->].
  destruct (prop_object _ _ _ Hid) as [dprops Hd]; [discriminate|].
  rewrite Ai_post by apply Hpost.
  unfold try_catch. rewrite (Ai_process_json _ _ _ _ Hpost).
  cbn zeta. simpl in Ha. rewrite Ha.
  unfold Ai.generateImage. rewrite Hp. cbn [negb]. skip_unit.
  rewrite (bind_returns (fetch p _) _ s r (called _ s))
    by (apply fetch_replies, Hup; reflexivity).
  rewrite Hok. cbn [negb]. skip_unit.
  rewrite Hd in *. simpl in Hid.
  destruct (TASK_INFO_KV (ctx_env ctx)); cbn; rewrite Hid;
    eexists; (split; [reflexivity|]); cbn.
  - split; [intros _ | discriminate]. apply lookup_insert_eq.
  - split; [discriminate | reflexivity].
Qed.

(** Whatever the upstream answers, [startImageToVideoJob] makes exactly one
    upstream call, with the body built from its arguments. *)
Lemma startImageToVideoJob_calls p imageUrl prompt duration ratio name e s :
  fetched (snd (Ai.startImageToVideoJob p imageUrl prompt duration ratio name e s))
  = fetched s ++ [Ai.image_to_video_request p e imageUrl prompt duration ratio].
Proof.
  unfold Ai.startImageToVideoJob.
  set (rq := Ai.image_to_video_request p e imageUrl prompt duration ratio).
  unfold mbind, M_bind, fetch.
  destruct (upstream p rq) as [msg | r]; [reflexivity|].
  destruct (ok r); cbn [negb];
    destruct (data r) as [| | | | | |dprops], (TASK_INFO_KV e); reflexivity.
Qed.

(** *** The duration of an upload *)

Lemma digits_some a s : is_Some (digits (Some a) s).
Proof.
  revert a. induction s as [|c s IH]; intros a; simpl; [eauto|].
  destruct (digit_of c); [apply IH | eauto].
Qed.

(** [parseInt] answers [NaN] exactly on the strings without a leading
    decimal integer. *)
Lemma Number_of_Z_not_NaN n : Number_of_Z n <> NaN.
Proof.
  unfold Number_of_Z. destruct (round_binary64 (Z.abs n) 0) as [q e].
  destruct (2 ^ 1024 <=? q * 2 ^ e); discriminate.
Qed.

Lemma parseInt_NaN s : parseInt s = NaN <-> unparseable s = true.
Proof.
  unfold parseInt, unparseable.
  destruct (strip_sign (skip_white s)) as [sign body]. cbn [snd].
  destruct body as [|c rest]; simpl; [tauto|].
  destruct (digit_of c) as [d|].
  - destruct (digits_some (10 * 0 + d) rest) as [n Hn].
    simpl in Hn. rewrite Hn.
    rewrite bool_decide_eq_true_2 by eauto.
    split; [intros H; now apply Number_of_Z_not_NaN in H | discriminate].
  - rewrite bool_decide_eq_false_2 by (intros [? ?]; discriminate). tauto.
Qed.

(** The upload branch with a prompt and an image file whose bytes fit in
    one call reaches [startImageToVideoJob] with the duration read by
    [parseInt]. *)
Lemma Ai_upload_starts_job p ctx entries file s :
  multipart_post ctx entries ->
  form_truthy (form_get "prompt" entries) = true ->
  form_get "image" entries = Some (FFile file) ->
  Z.of_nat (length (bytes file)) <= max_arguments p ->
  Ai.process p ctx s =
    Ai.startImageToVideoJob p
      (VStr ("data:" +:+ type file +:+ ";base64," +:+
             btoa (fromCharCodes (bytes file))))
      (form_value_of (form_get "prompt" entries))
      (VNum (parseInt (if form_truthy (form_get "duration" entries)
                       then form_toString (form_get "duration" entries)
                       else "5")))
      (or_else (form_value_of (form_get "ratio" entries)) (VStr "1280:720"))
      (VStr (name file)) (ctx_env ctx) s.
Proof.
  intros (_ & Hmp & Hfd) Hp Hi Hfit.
  unfold Ai.process. rewrite Hmp. unfold Ai.upload. rewrite Hfd.
  change (await_parsed (Parsed entries) ≫= ?f) with (f entries). cbn beta zeta.
  rewrite Hp, Hi. cbn [form_truthy form_value_of truthy negb orb].
  skip_unit.
  change (as_file (Some (FFile file)) ≫= ?f) with (f file). cbn beta.
  unfold spread_fromCharCode. apply Z.leb_le in Hfit. rewrite Hfit.
  reflexivity.
Qed.

(** In every other case the upload branch throws before any call. *)
Lemma Ai_upload_stops p ctx entries s :
  multipart_post ctx entries ->
  (forall file,
     form_truthy (form_get "prompt" entries) = true ->
     form_get "image" entries = Some (FFile file) ->
     max_arguments p < Z.of_nat (length (bytes file))) ->
  exists message, Ai.process p ctx s = (Throws message, s).
Proof.
  intros (_ & Hmp & Hfd) Hno.
  unfold Ai.process. rewrite Hmp. unfold Ai.upload. rewrite Hfd.
  change (await_parsed (Parsed entries) ≫= ?f) with (f entries). cbn beta zeta.
  destruct (form_truthy (form_get "prompt" entries)) eqn:Hp;
    [|eexists; reflexivity].
  destruct (form_get "image" entries) as [[text|file]|] eqn:Hi.
  - destruct (form_truthy (Some (FText text))); eexists; reflexivity.
  - specialize (Hno file eq_refl eq_refl). apply Z.leb_gt in Hno.
    cbn [form_truthy form_value_of truthy negb orb]. skip_unit.
    change (as_file (Some (FFile file)) ≫= ?f) with (f file). cbn beta.
    unfold spread_fromCharCode. rewrite Hno. eexists. reflexivity.
  - eexists. reflexivity.
Qed.

Lemma Ai_upload_too_large p ctx entries file s :
  multipart_post ctx entries ->
  form_truthy (form_get "prompt" entries) = true ->
  form_get "image" entries = Some (FFile file) ->
  max_arguments p < Z.of_nat (length (bytes file)) ->
  Ai.process p ctx s = (Throws "Maximum call stack size exceeded", s).
Proof.
  intros (_ & Hmp & Hfd) Hp Hi Hbig. apply Z.leb_gt in Hbig.
  unfold Ai.process. rewrite Hmp. unfold Ai.upload. rewrite Hfd.
  change (await_parsed (Parsed entries) ≫= ?f) with (f entries). cbn beta zeta.
  rewrite Hp, Hi. cbn [form_truthy form_value_of truthy negb orb]. skip_unit.
  change (as_file (Some (FFile file)) ≫= ?f) with (f file). cbn beta.
  unfold spread_fromCharCode. now rewrite Hbig.
Qed.

Lemma try_catch_fetched (m : M response) (h : string -> response) s :
  fetched (snd (try_catch m (fun message => mret (h message)) s))
  = fetched (snd (m s)).
Proof. unfold try_catch. destruct (m s) as [[a|msg] s']; reflexivity. Qed.

(** C9: whatever a multipart submission holds, every upstream call made for
    it goes to [/image_to_video] with a [duration] that is [parseInt] of the
    text of the duration field whenever that field is present and not empty:
    [NaN] exactly when the text has no decimal integer at its start, and
    [NaN] as well for a field that is a file.  The duration is the default 5
    when the field is absent or empty.  One call is made when the prompt is
    there and the image is a file whose bytes fit in one call, none
    otherwise. *)
Theorem unparseable_duration_is_NaN p ctx entries s :
  multipart_post ctx entries ->
  let raw := form_get "duration" entries in
  exists calls,
    fetched (snd (Ai.onRequest p ctx s)) = fetched s ++ calls /\
    Forall (fun rq =>
      url rq = RUNWAY_API_BASE +:+ "/image_to_video" /\
      exists sent,
        fbody rq = Some sent /\
        (forall text, raw = Some (FText text) -> text <> "" ->
           prop sent "duration" = VNum (parseInt text) /\
           (prop sent "duration" = VNum NaN <-> unparseable text = true)) /\
        (forall f, raw = Some (FFile f) -> prop sent "duration" = VNum NaN) /\
        (raw = None \/ raw = Some (FText "") ->
           prop sent "duration" = VNum (Int 5))) calls /\
    (forall file,
       form_truthy (form_get "prompt" entries) = true ->
       form_get "image" entries = Some (FFile file) ->
       (Z.of_nat (length (bytes file)) <= max_arguments p ->
        length calls = 1%nat) /\
       (max_arguments p < Z.of_nat (length (bytes file)) -> calls = [])) /\
    (form_truthy (form_get "prompt" entries) = false \/
     (forall file, form_get "image" entries <> Some (FFile file)) ->
     calls = []).
Proof.
  intros Hpost raw.
  rewrite Ai_post by apply Hpost. rewrite try_catch_fetched.
  assert (Hnone :
    (forall file,
       form_truthy (form_get "prompt" entries) = true ->
       form_get "image" entries = Some (FFile file) ->
       max_arguments p < Z.of_nat (length (bytes file))) ->
    exists calls : list fetch_request,
      fetched (snd (Ai.process p ctx s)) = fetched s ++ calls /\ calls = []).
  { intros Hno. destruct (Ai_upload_stops p ctx entries s Hpost Hno) as [msg ->].
    exists []. split; [symmetry; apply app_nil_r | reflexivity]. }
  destruct (form_truthy (form_get "prompt" entries)) eqn:Hp;
    [|destruct Hnone as (calls & Hc & ->); [discriminate|];
      exists []; split; [exact Hc|]; split; [constructor|];
      split; [discriminate | reflexivity]].
  destruct (form_get "image" entries) as [[text|file]|] eqn:Hi;
    [destruct Hnone as (calls & Hc & ->); [discriminate|];
     exists []; split; [exact Hc|]; split; [constructor|];
     split; [discriminate | reflexivity]
    | 
    |destruct Hnone as (calls & Hc & ->); [discriminate|];
     exists []; split; [exact Hc|]; split; [constructor|];
     split; [discriminate | reflexivity]].
  destruct (Z.leb_spec (Z.of_nat (length (bytes file))) (max_arguments p))
    as [Hfit|Hbig].
  - rewrite (Ai_upload_starts_job _ _ _ _ _ Hpost Hp Hi Hfit). fold raw.
    eexists. split; [apply startImageToVideoJob_calls|].
    split; [|split].
    + constructor; [|constructor]. split; [reflexivity|].
      eexists. split; [reflexivity|].
      cbn [prop assoc String.eqb Ascii.eqb Bool.eqb].
      split; [|split].
      * intros text -> Hne.
        assert (Ht : form_truthy (Some (FText text)) = true).
        { cbn. now destruct (String.eqb_spec text ""). }
        rewrite Ht. cbn [form_toString]. split; [reflexivity|].
        rewrite <- parseInt_NaN. split; [now intros [= ->] | now intros ->].
      * intros f ->. reflexivity.
      * intros [-> | ->]; reflexivity.
    + intros file' _ [= <-]. split; [reflexivity | lia].
    + intros [Hno | Hno]; [discriminate | now destruct (Hno file)].
  - destruct Hnone as (calls & Hc & ->).
    { intros file' _ [= <-]. exact Hbig. }
    exists []. split; [exact Hc|]. split; [constructor|].
    split; [|reflexivity].
    intros file' _ [= <-]. split; [lia | reflexivity].
Qed.

(** *** Submissions lacking a required field *)

(** C4: a multipart submission without prompt or image, a "generateImage"
    action without prompt and a "startVideoFromUrl" action without
    videoPrompt or imageUrl are each answered with [success: false], and the
    state is left as it was: no upstream call has been made. *)
Theorem malformed_submission_refused p ctx s :
  malformed ctx ->
  (exists r, Ai.onRequest p ctx s = (Returns r, s) /\ refused r) /\
  (exists r, ImageHandler.onRequest p ctx s = (Returns r, s) /\ refused r).
Proof.
  intros [Hm Hcase]. cbn zeta in Hcase.
  unfold Ai.onRequest, ImageHandler.onRequest. rewrite Hm.
  cbn [String.eqb Ascii.eqb Bool.eqb negb].
  destruct (key_present (RUNWAYML_API_KEY (ctx_env ctx))); cbn [negb];
    [| split; eexists; (split; [reflexivity|]); eexists; split; reflexivity].
  unfold try_catch, Ai.process, ImageHandler.process.
  destruct Hcase as [(Hmp & entries & Hfd & Hbad) | (Hmp & Hj & body & Hb & Hbad)].
  - rewrite Hmp. unfold Ai.upload, ImageHandler.upload. rewrite Hfd.
    change (await_parsed (Parsed entries) ≫= ?f) with (f entries). cbn beta zeta.
    unfold malformed_upload in Hbad. rewrite Hbad.
    split; eexists; (split; [reflexivity|]); eexists; split; reflexivity.
  - rewrite Hmp, Hj, Hb.
    change (await_parsed (Parsed body) ≫= ?f) with (f body). cbn beta.
    unfold malformed_action in Hbad.
    apply orb_true_iff in Hbad as [Hbad | Hbad];
      apply andb_true_iff in Hbad as [Ha Hmiss];
      destruct (is_str_object _ _ _ Ha) as [props ->];
      change (destructure (VObj props) "action" "body" ≫= ?f)
        with (f (prop (VObj props) "action")); cbn beta;
      rewrite (is_str_eq _ _ Ha); cbn [is_str String.eqb Ascii.eqb Bool.eqb];
      unfold Ai.generateImage, Ai.startVideoFromUrl; cbn zeta; rewrite Hmiss;
      split; eexists; (split; [reflexivity|]); eexists; split; reflexivity.
Qed.

End Submissions.

(** ** The shape of the responses *)

Section Responses.
Import JS Sys Scenario.

Lemma ensures_ret {A : Type} (a : A) (Q : A -> Prop) : Q a -> ensures (mret a) Q.
Proof. intros H s a' s' [= <- _]. exact H. Qed.

Lemma ensures_throw {A : Type} msg (Q : A -> Prop) : ensures (throw msg) Q.
Proof. intros s a s' [=]. Qed.

Lemma ensures_bind {A B : Type} (m : M A) (f : A -> M B) (Q : B -> Prop) :
  (forall a, ensures (f a) Q) -> ensures (m ≫= f) Q.
Proof.
  intros H s b s'. unfold mbind, M_bind.
  destruct (m s) as [[a|msg] s1]; [apply H | discriminate].
Qed.

Lemma ensures_jsonResponse v status :
  ensures (mret (jsonResponse v status)) built_by_jsonResponse.
Proof. apply ensures_ret. now exists v, status. Qed.

Ltac ensures_step :=
  first
    [ apply ensures_jsonResponse
    | apply ensures_throw
    | apply ensures_bind; intros ?
    | match goal with
      | |- ensures (if ?b then _ else _) _ => destruct b
      | |- ensures (match ?x with _ => _ end) _ => destruct x
      end ].

Lemma Ai_process_built p ctx : ensures (Ai.process p ctx) built_by_jsonResponse.
Proof.
  unfold Ai.process, Ai.upload, Ai.generateImage, Ai.startVideoFromUrl,
    Ai.check_status, Ai.relay, Ai.startImageToVideoJob.
  cbv zeta. repeat ensures_step.
Qed.

Lemma Image_process_built p ctx :
  ensures (ImageHandler.process p ctx) built_by_jsonResponse.
Proof.
  unfold ImageHandler.process, ImageHandler.upload, ImageHandler.check_status,
    ImageHandler.relay.
  cbv zeta. repeat ensures_step.
Qed.

Lemma built_json_with_cors r : built_by_jsonResponse r -> json_with_cors r.
Proof.
  intros (v & status & ->). split; [now exists v|]. simpl. tauto.
Qed.

(** What [try { process } catch] makes of the two outcomes. *)
Lemma caught_or_built (process : M response) (failure : string -> value) s :
  ensures process built_by_jsonResponse ->
  exists r s',
    try_catch process
      (fun message => mret (jsonResponse (failure message) 500)) s
    = (Returns r, s') /\
    built_by_jsonResponse r /\
    forall message, fst (process s) = Throws message ->
                    r = jsonResponse (failure message) 500.
Proof.
  intros Hb. unfold try_catch.
  destruct (process s) as [[r|msg] s'] eqn:Hp.
  - exists r, s'. split; [reflexivity|]. split; [eapply Hb, Hp | discriminate].
  - eexists _, s'. split; [reflexivity|]. split; [now eexists _, _|].
    now intros message [= ->].
Qed.

(** C3, as amended: a POST with the API key configured is always answered
    with a JSON body sent with [Content-Type: application/json] and
    [Access-Control-Allow-Origin: *], and an error thrown while the request
    is processed is answered with [{success: false, error: message}] and
    status 500; a POST without the API key is answered with that envelope and
    status 500 too. *)
Theorem post_answered_with_json p ctx s :
  method (ctx_request ctx) = "POST" ->
  (key_present (RUNWAYML_API_KEY (ctx_env ctx)) = true ->
   (exists r s',
      Ai.onRequest p ctx s = (Returns r, s') /\ json_with_cors r /\
      forall message, fst (Ai.process p ctx s) = Throws message ->
                      error_envelope r message) /\
   (exists r s',
      ImageHandler.onRequest p ctx s = (Returns r, s') /\ json_with_cors r /\
      forall message, fst (ImageHandler.process p ctx s) = Throws message ->
                      error_envelope r message)) /\
  (key_present (RUNWAYML_API_KEY (ctx_env ctx)) = false ->
   (exists r,
      Ai.onRequest p ctx s = (Returns r, s) /\
      error_envelope r Ai.missing_key_message) /\
   (exists r,
      ImageHandler.onRequest p ctx s = (Returns r, s) /\
      error_envelope r ImageHandler.missing_key_message)).
Proof.
  intros Hm. split; intros Hk.
  - rewrite Ai_post, Image_post by (split; assumption).
    split.
    + destruct (caught_or_built (Ai.process p ctx) Ai.failure s
                  (Ai_process_built p ctx)) as (r & s' & Hr & Hb & He).
      exists r, s'. split; [exact Hr|]. split; [now apply built_json_with_cors|].
      intros message Ht. rewrite (He _ Ht). split; reflexivity.
    + destruct (caught_or_built (ImageHandler.process p ctx) ImageHandler.failure s
                  (Image_process_built p ctx)) as (r & s' & Hr & Hb & He).
      exists r, s'. split; [exact Hr|]. split; [now apply built_json_with_cors|].
      intros message Ht. rewrite (He _ Ht). split; reflexivity.
  - unfold Ai.onRequest, ImageHandler.onRequest. rewrite Hm, Hk.
    split; eexists; (split; [reflexivity|]); split; reflexivity.
Qed.

(** C10: an OPTIONS request is answered with the preflight response, which
    has no body and allows POST and OPTIONS, whatever the environment holds;
    a request answered with the missing-key error is a POST. *)
Theorem preflight_needs_no_key p ctx s :
  method (ctx_request ctx) = "OPTIONS" ->
  (Ai.onRequest p ctx s = (Returns preflight, s) /\
   ImageHandler.onRequest p ctx s = (Returns preflight, s)) /\
  (rbody preflight = BNull /\
   In ("Access-Control-Allow-Methods", "POST, OPTIONS") (rheaders preflight)) /\
  (forall ctx' s1 r s2,
     Ai.onRequest p ctx' s1 = (Returns r, s2) ->
     error_envelope r Ai.missing_key_message ->
     method (ctx_request ctx') = "POST") /\
  (forall ctx' s1 r s2,
     ImageHandler.onRequest p ctx' s1 = (Returns r, s2) ->
     error_envelope r ImageHandler.missing_key_message ->
     method (ctx_request ctx') = "POST").
Proof.
  intros Hm. split; [|split; [|split]].
  - unfold Ai.onRequest, ImageHandler.onRequest. rewrite Hm. split; reflexivity.
  - split; [reflexivity|]. simpl. tauto.
  - intros ctx' s1 r s2. unfold Ai.onRequest.
    destruct (String.eqb_spec (method (ctx_request ctx')) "OPTIONS") as [|_].
    { intros [= <- _] [Hb _]. discriminate Hb. }
    destruct (String.eqb_spec (method (ctx_request ctx')) "POST") as [|_];
      [auto|].
    intros [= <- _] [Hb _]. discriminate Hb.
  - intros ctx' s1 r s2. unfold ImageHandler.onRequest.
    destruct (String.eqb_spec (method (ctx_request ctx')) "OPTIONS") as [|_].
    { intros [= <- _] [Hb _]. discriminate Hb. }
    destruct (String.eqb_spec (method (ctx_request ctx')) "POST") as [|_];
      [auto|].
    intros [= <- _] [Hb _]. discriminate Hb.
Qed.

End Responses.

(** ** The seed *)

Section Seed.
Import JS Sys Scenario.

Lemma floor_product_bound m e :
  0 <= m < 2 ^ 53 -> -1074 <= e <= -53 ->
  0 <= Math_floor (round_binary64 (m * 4294967295) e) <= 4294967294.
Proof.
  intros Hm He. unfold round_binary64.
  set (n := m * 4294967295).
  assert (Hn : 0 <= n) by (unfold n; lia).
  assert (HP : 2 ^ 53 <= 2 ^ (- e)) by (apply Z.pow_le_mono_r; lia).
  assert (HnP : n <= (2 ^ (- e) - 1) * 4294967295) by (unfold n; nia).
  set (k := Z.max (Z.log2 n + 1 - 53) (-1074 - e)).
  destruct (Z.leb_spec k 0) as [Hk|Hk].
  - unfold Math_floor. destruct (Z.leb_spec 0 e); [lia|].
    split; [apply Z.div_pos; lia|].
    assert (n / 2 ^ (- e) < 4294967295); [|lia].
    apply Z.div_lt_upper_bound; lia.
  - assert (Hpos : 0 < n).
    { destruct (Z.eq_dec n 0) as [H0|]; [|lia].
      unfold k in Hk. rewrite H0 in Hk. simpl in Hk. lia. }
    assert (Hlog : Z.log2 n < 85).
    { apply Z.log2_lt_pow2; [lia|]. unfold n. 
      change (2 ^ 85) with (2 ^ 53 * 4294967296). nia. }
    assert (Hk32 : k <= 32) by (unfold k; lia).
    unfold Math_floor.
    destruct (Z.leb_spec 0 (e + k)); [lia|].
    assert (HKT : 2 ^ (- e) = 2 ^ k * 2 ^ (- (e + k))).
    { rewrite <- Z.pow_add_r by lia. f_equal. lia. }
    assert (HK : 2 ^ k = 2 * 2 ^ (k - 1)).
    { rewrite <- (Z.pow_succ_r 2 (k - 1)) by lia. f_equal. lia. }
    assert (Hhalf : 2 ^ (k - 1) <= 2 ^ 31) by (apply Z.pow_le_mono_r; lia).
    change (2 ^ 31) with 2147483648 in Hhalf.
    assert (Hhpos : 0 < 2 ^ (k - 1)) by (apply Z.pow_pos_nonneg; lia).
    assert (HTpos : 0 < 2 ^ (- (e + k))) by (apply Z.pow_pos_nonneg; lia).
    pose proof (Z.div_mod n (2 ^ k) ltac:(lia)) as Hdm.
    pose proof (Z.mod_pos_bound n (2 ^ k) ltac:(lia)) as Hr.
    assert (Hq0 : 0 <= n / 2 ^ k) by (apply Z.div_pos; lia).
    set (q := n / 2 ^ k) in *. set (r := n mod 2 ^ k) in *.
    set (T := 2 ^ (- (e + k))) in *. set (h := 2 ^ (k - 1)) in *.
    set (K := 2 ^ k) in *. set (P := 2 ^ (- e)) in *.
    assert (Hgoal : forall q', 0 <= q' -> q' < T * 4294967295 ->
                                0 <= q' / T <= 4294967294).
    { intros q' H0 H1. split; [apply Z.div_pos; lia|].
      assert (q' / T < 4294967295); [|lia].
      apply Z.div_lt_upper_bound; lia. }
    destruct ((h <? r) || (r =? h) && Z.odd q) eqn:Hup.
    + apply Hgoal; [lia|].
      assert (Hrh : h <= r).
      { apply orb_true_iff in Hup as [Hup|Hup]; [lia|].
        apply andb_true_iff in Hup as [Hup _]. lia. }
      assert (q + 1 <= T * 4294967295); [|
        assert (q + 1 <> T * 4294967295); [|lia]].
      * nia.
      * intros Heq. 
        assert (K * q = P * 4294967295 - K) by nia. lia.
    + apply Hgoal; [lia|]. nia.
Qed.

(** Every smaller value is drawn by some double in [0, 1): the seeds are
    exactly the integers from 0 to 4294967294. *)
Lemma every_smaller_seed_is_drawn n :
  0 <= n <= 4294967294 ->
  exists r, is_unit_double r /\ Math_floor (times r 4294967295) = n.
Proof.
  intros Hn.
  set (m := (n * 2 ^ 53 + 4294967294) / 4294967295).
  exists {| mant := m; expo := -53 |}.
  pose proof (Z.div_mod (n * 2 ^ 53 + 4294967294) 4294967295 ltac:(lia)) as Hdm.
  pose proof (Z.mod_pos_bound (n * 2 ^ 53 + 4294967294) 4294967295 ltac:(lia)) as Hr.
  fold m in Hdm.
  set (B := 2 ^ 53) in *.
  assert (HB : B = 9007199254740992) by reflexivity.
  assert (Hlo : n * B <= m * 4294967295) by lia.
  assert (Hhi : m * 4294967295 <= n * B + 4294967294) by lia.
  assert (Hm : 0 <= m < B) by nia.
  split; [split; cbn [mant expo]; lia|].
  unfold times, round_binary64. cbn [mant expo].
  set (N := m * 4294967295) in *.
  set (k := Z.max (Z.log2 N + 1 - 53) (-1074 - -53)).
  destruct (Z.leb_spec k 0) as [Hk|Hk].
  - unfold Math_floor. cbn [Z.leb Z.opp Z.compare].
    change (2 ^ 53) with B.
    symmetry. apply (Z.div_unique N B n (N - n * B)); lia.
  - assert (Hpos : 0 < N).
    { destruct (Z.eq_dec N 0) as [H0|]; [|lia].
      unfold k in Hk. rewrite H0 in Hk. simpl in Hk. lia. }
    assert (Hlog : Z.log2 N < 85).
    { apply Z.log2_lt_pow2; [lia|].
      change (2 ^ 85) with (9007199254740992 * 4294967296). nia. }
    assert (Hk32 : k <= 32) by (unfold k; lia).
    unfold Math_floor.
    destruct (Z.leb_spec 0 (-53 + k)); [lia|].
    assert (HKT : B = 2 ^ k * 2 ^ (- (-53 + k))).
    { unfold B. rewrite <- Z.pow_add_r by lia. f_equal. lia. }
    assert (HT : 2 ^ (- (-53 + k)) = 2097152 * 2 ^ (32 - k)).
    { change 2097152 with (2 ^ 21). rewrite <- Z.pow_add_r by lia. f_equal. lia. }
    assert (HKU : 2 ^ k * 2 ^ (32 - k) = 4294967296).
    { rewrite <- Z.pow_add_r by lia. replace (k + (32 - k)) with 32 by lia.
      reflexivity. }
    assert (HUpos : 0 < 2 ^ (32 - k)) by (apply Z.pow_pos_nonneg; lia).
    assert (HKpos : 0 < 2 ^ k) by (apply Z.pow_pos_nonneg; lia).
    pose proof (Z.div_mod N (2 ^ k) ltac:(lia)) as HdmN.
    pose proof (Z.mod_pos_bound N (2 ^ k) ltac:(lia)) as HrN.
    set (q := N / 2 ^ k) in *. set (r := N mod 2 ^ k) in *.
    set (T := 2 ^ (- (-53 + k))) in *. set (U := 2 ^ (32 - k)) in *.
    set (K := 2 ^ k) in *.
    assert (Hq1 : n * T <= q) by nia.
    assert (Hq2 : q + 1 < (n + 1) * T) by nia.
    assert (Hgoal : forall q', n * T <= q' < (n + 1) * T -> q' / T = n).
    { intros q' H'. symmetry. apply (Z.div_unique q' T n (q' - n * T)); lia. }
    apply Hgoal.
    destruct ((2 ^ (k - 1) <? r) || (r =? 2 ^ (k - 1)) && Z.odd q); lia.
Qed.

(** C8, on both handlers: the seed put in the body of the three submit
    calls is [Math.floor(Math.random() * 4294967295)], which for every double
    in [0, 1) lies between 0 and 4294967294: the largest 32-bit unsigned
    integer, 4294967295, is never drawn. *)
Theorem seed_never_reaches_max p :
  is_unit_double (Math_random p) ->
  exists n,
    0 <= n <= 4294967294 /\ n <> 4294967295 /\
    (forall e prompt ratio,
       option_map (fun b => prop b "seed")
         (fbody (Ai.text_to_image_request p e prompt ratio))
       = Some (VNum (Int n))) /\
    (forall e imageUrl prompt duration ratio,
       option_map (fun b => prop b "seed")
         (fbody (Ai.image_to_video_request p e imageUrl prompt duration ratio))
       = Some (VNum (Int n))) /\
    (forall e prompt imageDataUrl ratio,
       option_map (fun b => prop b "seed")
         (fbody (ImageHandler.text_to_image_request p e prompt imageDataUrl ratio))
       = Some (VNum (Int n))).
Proof.
  intros [Hm He]. exists (seed p).
  pose proof (floor_product_bound _ _ Hm He) as Hb.
  fold (times (Math_random p) 4294967295) in Hb. fold (seed p) in Hb.
  split; [exact Hb|]. split; [lia|].
  repeat split.
Qed.

End Seed.

(** ** The polling client *)

Section Polling.
Import JS App.

Lemma examine_in_progress a s :
  in_progress a = true ->
  exists st pr,
    examine a s = (None, setProgress pr (setStatus st s)).
Proof.
  destruct a as [msg | [] [| | | | | |props]]; try discriminate.
  unfold in_progress. intros H.
  apply andb_true_iff in H as [H Hf]. apply andb_true_iff in H as [Hs Hn].
  apply negb_true_iff in Hf, Hn.
  unfold examine. cbn [prop negb orb]. rewrite Hs, Hn, Hf. cbn [negb].
  eauto.
Qed.

Lemma resume_in_progress a s :
  in_progress a = true ->
  interval (resume a s) = interval s /\
  requests (resume a s) = requests s /\
  pending (resume a s) = pending s /\
  modifiedImageUrl (resume a s) = modifiedImageUrl s /\
  isGenerating (resume a s) = isGenerating s /\
  error (resume a s) = error s.
Proof.
  intros H. unfold resume.
  destruct (examine_in_progress a s H) as (st & pr & ->).
  repeat split.
Qed.

Lemma resume_succeeded url a s :
  succeeded_with url a = true ->
  interval (resume a s) = false /\
  requests (resume a s) = requests s /\
  pending (resume a s) = pending s /\
  modifiedImageUrl (resume a s) = VStr url /\
  isGenerating (resume a s) = false /\
  error (resume a s) = error s /\
  status (resume a s) = Line "Image generation completed!".
Proof.
  destruct a as [msg | [] [| | | | | |props]]; try discriminate.
  unfold succeeded_with. intros H.
  apply andb_true_iff in H as [H Hne]. apply andb_true_iff in H as [H Hu].
  apply andb_true_iff in H as [Hs Hst].
  apply is_str_eq in Hu. apply negb_true_iff in Hne.
  unfold resume, examine. cbn [prop negb orb]. rewrite Hs, Hst, Hu. cbn [negb].
  cbn [truthy]. rewrite Hne. cbn. repeat split.
Qed.

(** One round of a prompt run: the tick sends a request, and the response
    settles it. *)
Lemma round_in_progress taskId a s :
  in_progress a = true -> interval s = true -> pending s = O ->
  let s' := run taskId s [Tick; Settle a] in
  interval s' = true /\ pending s' = O /\
  requests s' = requests s ++ [taskId] /\
  modifiedImageUrl s' = modifiedImageUrl s /\
  isGenerating s' = isGenerating s /\
  error s' = error s.
Proof.
  intros Ha Hi Hp. cbn [run fold_left step]. rewrite Hi.
  cbn [pending send]. 
  destruct (resume_in_progress a (settled (send taskId s)) Ha)
    as (H1 & H2 & H3 & H4 & H5 & H6).
  cbn zeta. rewrite H1, H2, H3, H4, H5, H6. cbn. rewrite Hi, Hp. repeat split.
Qed.

Lemma round_succeeded taskId url a s :
  succeeded_with url a = true -> interval s = true -> pending s = O ->
  let s' := run taskId s [Tick; Settle a] in
  interval s' = false /\ pending s' = O /\
  requests s' = requests s ++ [taskId] /\
  modifiedImageUrl s' = VStr url /\
  isGenerating s' = false /\
  error s' = error s.
Proof.
  intros Ha Hi Hp. cbn [run fold_left step]. rewrite Hi.
  cbn [pending send].
  destruct (resume_succeeded url a (settled (send taskId s)) Ha)
    as (H1 & H2 & H3 & H4 & H5 & H6 & _).
  cbn zeta. rewrite H1, H2, H3, H4, H5, H6. cbn. rewrite Hp. repeat split.
Qed.

(** Once the interval is cleared and nothing is outstanding, nothing happens
    any more. *)
Lemma run_quiescent taskId s es :
  interval s = false -> pending s = O -> run taskId s es = s.
Proof.
  intros Hi Hp. induction es as [|e es IH]; [reflexivity|].
  cbn [run fold_left]. 
  assert (step taskId s e = s) as ->; [|exact IH].
  destruct e; cbn [step]; [now rewrite Hi | now rewrite Hp].
Qed.

Lemma run_app taskId s es1 es2 :
  run taskId s (es1 ++ es2) = run taskId (run taskId s es1) es2.
Proof. apply fold_left_app. Qed.

(** C7, as amended: when every status response arrives before the next
    tick of the interval, the first three are taken as still in progress and
    the fourth reports success with the result under [imageUrl], the poller
    has sent exactly four status requests, shows that URL, is no longer
    generating, has no error, and the interval is cleared: whatever happens
    later, no further request is sent. *)
Theorem prompt_poll_stops_after_success taskId a1 a2 a3 a4 url later :
  in_progress a1 = true ->
  in_progress a2 = true ->
  in_progress a3 = true ->
  succeeded_with url a4 = true ->
  let s := run taskId (pollForStatus started)
               (prompt_run [a1; a2; a3; a4] ++ later) in
  requests s = [taskId; taskId; taskId; taskId] /\
  modifiedImageUrl s = VStr url /\
  isGenerating s = false /\
  error s = "" /\
  interval s = false /\
  pending s = O.
Proof.
  intros H1 H2 H3 H4.
  change (prompt_run [a1; a2; a3; a4])
    with ([Tick; Settle a1] ++ [Tick; Settle a2] ++ [Tick; Settle a3] ++
          [Tick; Settle a4]).
  rewrite <- !app_assoc. rewrite !run_app.
  set (s0 := pollForStatus started).
  destruct (round_in_progress taskId a1 s0 H1 eq_refl eq_refl)
    as (Hi1 & Hp1 & Hr1 & Hu1 & Hg1 & He1).
  set (s1 := run taskId s0 [Tick; Settle a1]) in *.
  destruct (round_in_progress taskId a2 s1 H2 Hi1 Hp1)
    as (Hi2 & Hp2 & Hr2 & Hu2 & Hg2 & He2).
  set (s2 := run taskId s1 [Tick; Settle a2]) in *.
  destruct (round_in_progress taskId a3 s2 H3 Hi2 Hp2)
    as (Hi3 & Hp3 & Hr3 & Hu3 & Hg3 & He3).
  set (s3 := run taskId s2 [Tick; Settle a3]) in *.
  destruct (round_succeeded taskId url a4 s3 H4 Hi3 Hp3)
    as (Hi4 & Hp4 & Hr4 & Hu4 & Hg4 & He4).
  set (s4 := run taskId s3 [Tick; Settle a4]) in *.
  cbn zeta. rewrite (run_quiescent taskId s4 later Hi4 Hp4).
  rewrite Hr4, Hr3, Hr2, Hr1, He4, He3, He2, He1.
  repeat split; assumption.
Qed.

End Polling.

(** ** The properties at concrete requests *)

Section Instances.
Import JS Sys Scenario Sample.

Ltac is_status_action body :=
  exists body; repeat split; reflexivity.

Ltac is_polled :=
  eexists; split; [intros rq _; reflexivity | split; reflexivity].

(** C1 at a poll: the upstream reports task-1 as SUCCEEDED with [output: []]
    and [functions/ai.js] answers [{success: true, status: "SUCCEEDED"}]. *)
Lemma Ai_empty_output_at_task1 :
  Ai.onRequest (replying succeeded_empty) (post_json status_of_task1 (with_key true))
    fresh
  = (Returns ({| rstatus := 200;
                 rheaders := [("Content-Type", "application/json");
                              ("Access-Control-Allow-Origin", "*")];
                 rbody := BJson
                   (VObj [("success", VBool true); ("status", VStr "SUCCEEDED");
                          ("progress", VUndefined)]) |}),
     called (Ai.status_request (with_key true) (VStr "task-1")) fresh).
Proof.
  apply (Ai_empty_output_relayed_as_progress (replying succeeded_empty)
           (post_json status_of_task1 (with_key true)) (VStr "task-1")
           succeeded_empty fresh).
  - is_status_action status_of_task1.
  - is_polled.
  - reflexivity.
  - reflexivity.
Defined.

(** The other copy of the handler, at the same poll. *)
Example Image_empty_output_at_task1 :
  fst (ImageHandler.onRequest (replying succeeded_empty)
         (post_json status_of_task1 (with_key true)) fresh)
  = Returns (jsonResponse
               (VObj [("success", VBool false); ("status", VStr "FAILED");
                      ("error", VStr "Task succeeded but output was empty.")])
               200).
Proof. reflexivity. Qed.

(** C2 where it fails as stated: the handler without a metadata store answers
    a succeeded task with the URL as [imageUrl]; there is no [videoUrl]. *)
Lemma Image_answers_imageUrl :
  exists payload s',
    ImageHandler.onRequest (replying succeeded_png)
      (post_json status_of_task1 (with_key false)) fresh
    = (Returns ({| rstatus := 200;
                   rheaders := [("Content-Type", "application/json");
                                ("Access-Control-Allow-Origin", "*")];
                   rbody := BJson
                     payload |}), s') /\
    prop payload "videoUrl" = VUndefined /\
    prop payload "imageUrl" = VStr "https://x/y.png".
Proof. eexists _, _. split; [reflexivity|]. split; reflexivity. Qed.

(** C2, as amended, at a poll for which the namespace is bound and empty. *)
Lemma absent_record_at_task1 :
  (exists s',
     Ai.onRequest (replying succeeded_png)
       (post_json status_of_task1 (with_key true)) fresh
     = (Returns ({| rstatus := 200;
                    rheaders := [("Content-Type", "application/json");
                                 ("Access-Control-Allow-Origin", "*")];
                    rbody := BJson
                      (VObj [("success", VBool true); ("status", VStr "SUCCEEDED");
                             ("progress", prop succeeded_png "progress");
                             ("videoUrl", opt_first (prop succeeded_png "output"))]) |}),
                   s')) /\
  (exists s',
     ImageHandler.onRequest (replying succeeded_png)
       (post_json status_of_task1 (with_key true)) fresh
     = (Returns ({| rstatus := 200;
                    rheaders := [("Content-Type", "application/json");
                                 ("Access-Control-Allow-Origin", "*")];
                    rbody := BJson
                      (VObj [("success", VBool true); ("status", VStr "SUCCEEDED");
                             ("progress", prop succeeded_png "progress");
                             ("imageUrl", opt_first (prop succeeded_png "output"))]) |}),
                   s')).
Proof.
  apply (absent_record_defaults_to_video (replying succeeded_png)
           (post_json status_of_task1 (with_key true)) (VStr "task-1")
           succeeded_png fresh).
  - is_status_action status_of_task1.
  - is_polled.
  - reflexivity.
  - reflexivity.
  - right. reflexivity.
Defined.

(** C3 where it fails as stated: a GET is answered with the plain text
    "Method not allowed", status 405, and no header at all. *)
Lemma get_is_not_answered_with_json :
  Ai.onRequest (replying VNull) (bare "GET" (with_key true)) fresh
  = (Returns method_not_allowed, fresh) /\
  ImageHandler.onRequest (replying VNull) (bare "GET" (with_key true)) fresh
  = (Returns method_not_allowed, fresh) /\
  ~ json_with_cors method_not_allowed.
Proof.
  split; [reflexivity|]. split; [reflexivity|].
  intros [[v Hv] _]. discriminate Hv.
Qed.

(** C3, as amended, at a POST that is neither multipart nor JSON. *)
Lemma post_answered_with_json_at_bare_post :
  (exists r s',
     Ai.onRequest (replying VNull) (bare "POST" (with_key true)) fresh
     = (Returns r, s') /\ json_with_cors r /\
     forall message,
       fst (Ai.process (replying VNull) (bare "POST" (with_key true)) fresh)
       = Throws message -> error_envelope r message) /\
  (exists r s',
     ImageHandler.onRequest (replying VNull) (bare "POST" (with_key true)) fresh
     = (Returns r, s') /\ json_with_cors r /\
     forall message,
       fst (ImageHandler.process (replying VNull) (bare "POST" (with_key true)) fresh)
       = Throws message -> error_envelope r message).
Proof.
  apply (post_answered_with_json (replying VNull) (bare "POST" (with_key true)) fresh).
  - reflexivity.
  - reflexivity.
Defined.

(** C4 at an upload without the image field. *)
Lemma upload_without_image_refused :
  (exists r,
     Ai.onRequest (replying VNull)
       (post_form [("prompt", FText "a cat")] (with_key true)) fresh
     = (Returns r, fresh) /\ refused r) /\
  (exists r,
     ImageHandler.onRequest (replying VNull)
       (post_form [("prompt", FText "a cat")] (with_key true)) fresh
     = (Returns r, fresh) /\ refused r).
Proof.
  apply (malformed_submission_refused (replying VNull)
           (post_form [("prompt", FText "a cat")] (with_key true)) fresh).
  split; [reflexivity|]. left. split; [reflexivity|].
  exists [("prompt", FText "a cat")]. split; reflexivity.
Defined.

(** C5 where it fails as stated: the upstream reports the task as SUCCEEDED
    without a progress, and the answer carries no [progress: 1]. *)
Lemma progress_is_relayed_not_set :
  exists payload s',
    Ai.onRequest (replying succeeded_png)
      (post_json status_of_task1 (with_key true)) holding_image_record
    = (Returns ({| rstatus := 200;
                   rheaders := [("Content-Type", "application/json");
                                ("Access-Control-Allow-Origin", "*")];
                   rbody := BJson
                     payload |}), s') /\
    prop payload "imageUrl" = VStr "https://x/y.png" /\
    prop payload "progress" = VUndefined /\
    prop payload "progress" <> VNum (Int 1).
Proof.
  eexists _, _. split; [reflexivity|]. split; [reflexivity|].
  split; [reflexivity | discriminate].
Qed.

(** C5, as amended, at that poll. *)
Lemma image_record_at_task1 :
  exists s',
    Ai.onRequest (replying succeeded_png)
      (post_json status_of_task1 (with_key true)) holding_image_record
    = (Returns ({| rstatus := 200;
                   rheaders := [("Content-Type", "application/json");
                                ("Access-Control-Allow-Origin", "*")];
                   rbody := BJson
                     (VObj [("success", VBool true); ("status", VStr "SUCCEEDED");
                            ("progress", prop succeeded_png "progress");
                            ("imageUrl", VStr "https://x/y.png")]) |}), s') /\
    kv s' = kv holding_image_record /\
    waiting s' = waiting holding_image_record ++ [ToString (VStr "task-1")] /\
    kv (settle s') !! ToString (VStr "task-1") = None.
Proof.
  apply (image_record_yields_imageUrl (replying succeeded_png)
           (post_json status_of_task1 (with_key true)) (VStr "task-1")
           succeeded_png "https://x/y.png" image_record holding_image_record).
  - is_status_action status_of_task1.
  - is_polled.
  - reflexivity.
  - reflexivity.
  - discriminate.
  - reflexivity.
  - reflexivity.
  - reflexivity.
Defined.

(** C6 at a "generateImage" action, with the namespace bound. *)
Lemma generateImage_at_a_cat :
  exists s',
    Ai.onRequest (replying (VObj [("id", VStr "task-1")]))
      (post_json (VObj [("action", VStr "generateImage");
                        ("prompt", VStr "a cat")]) (with_key true)) fresh
    = (Returns ({| rstatus := 200;
                   rheaders := [("Content-Type", "application/json");
                                ("Access-Control-Allow-Origin", "*")];
                   rbody := BJson
                     (VObj [("success", VBool true);
                            ("taskId", VStr "task-1")]) |}), s') /\
    (TASK_INFO_KV (with_key true) = true ->
     kv s' !! "task-1" = Some (VObj [("type", VStr "image")])) /\
    (TASK_INFO_KV (with_key true) = false -> kv s' = kv fresh).
Proof.
  apply (generateImage_returns_task_id (replying (VObj [("id", VStr "task-1")]))
           (post_json (VObj [("action", VStr "generateImage");
                             ("prompt", VStr "a cat")]) (with_key true))
           (VObj [("action", VStr "generateImage"); ("prompt", VStr "a cat")])
           {| ok := true; status := 200; statusText := "OK";
              data := VObj [("id", VStr "task-1")] |}
           "task-1" fresh).
  - repeat split; reflexivity.
  - reflexivity.
  - reflexivity.
  - intros rq _. reflexivity.
  - reflexivity.
  - reflexivity.
Defined.

(** C7 where it fails as stated: the fourth response arrives after the fifth
    tick, and a fifth request has been sent by then. *)
Lemma late_response_fifth_request :
  let arrivals := [running (Dec 1 1); running (Dec 4 1); running (Dec 9 1);
                   done_with "https://x/y.png"] in
  let events := [App.Tick; App.Settle (running (Dec 1 1));
                 App.Tick; App.Settle (running (Dec 4 1));
                 App.Tick; App.Settle (running (Dec 9 1));
                 App.Tick; App.Tick; App.Settle (done_with "https://x/y.png");
                 App.Tick] in
  map App.in_progress (take 3 arrivals) = [true; true; true] /\
  App.succeeded_with "https://x/y.png" (done_with "https://x/y.png") = true /\
  length (App.requests
            (App.run (VStr "task-1") (App.pollForStatus App.started) events))
  = 5%nat.
Proof. repeat split. Qed.

(** C7, as amended, at three running responses and a success. *)
Lemma prompt_poll_at_task1 :
  let s := App.run (VStr "task-1") (App.pollForStatus App.started)
             (App.prompt_run [running (Dec 1 1); running (Dec 4 1);
                              running (Dec 9 1); done_with "https://x/y.png"]
              ++ [App.Tick; App.Tick]) in
  App.requests s = [VStr "task-1"; VStr "task-1"; VStr "task-1"; VStr "task-1"] /\
  App.modifiedImageUrl s = VStr "https://x/y.png" /\
  App.isGenerating s = false /\
  App.error s = "" /\
  App.interval s = false /\
  App.pending s = O.
Proof.
  apply (prompt_poll_stops_after_success (VStr "task-1")
           (running (Dec 1 1)) (running (Dec 4 1)) (running (Dec 9 1))
           (done_with "https://x/y.png") "https://x/y.png"
           [App.Tick; App.Tick]).
  - reflexivity.
  - reflexivity.
  - reflexivity.
  - reflexivity.
Defined.

(** C8 at the largest double below 1: the seed is 4294967294. *)
Lemma seed_at_top_draw :
  exists n,
    0 <= n <= 4294967294 /\ n <> 4294967295 /\
    (forall e prompt ratio,
       option_map (fun b => prop b "seed")
         (fbody (Ai.text_to_image_request (replying VNull) e prompt ratio))
       = Some (VNum (Int n))) /\
    (forall e imageUrl prompt duration ratio,
       option_map (fun b => prop b "seed")
         (fbody (Ai.image_to_video_request (replying VNull) e imageUrl prompt
                   duration ratio))
       = Some (VNum (Int n))) /\
    (forall e prompt imageDataUrl ratio,
       option_map (fun b => prop b "seed")
         (fbody (ImageHandler.text_to_image_request (replying VNull) e prompt
                   imageDataUrl ratio))
       = Some (VNum (Int n))).
Proof.
  apply (seed_never_reaches_max (replying VNull)).
  split; simpl; lia.
Defined.

(** C9 at an upload whose duration field reads "five": one call is made,
    and its duration is [NaN]. *)
Lemma duration_five_is_NaN :
  exists rq sent,
    fetched (snd (Ai.onRequest (replying (VObj [("id", VStr "task-1")]))
                    (post_form [("prompt", FText "a cat"); ("image", FFile png);
                                ("duration", FText "five")] (with_key true))
                    fresh))
    = [rq] /\
    url rq = "https://api.dev.runwayml.com/v1/image_to_video" /\
    fbody rq = Some sent /\
    prop sent "duration" = VNum NaN.
Proof.
  destruct (unparseable_duration_is_NaN (replying (VObj [("id", VStr "task-1")]))
              (post_form [("prompt", FText "a cat"); ("image", FFile png);
                          ("duration", FText "five")] (with_key true))
              [("prompt", FText "a cat"); ("image", FFile png);
               ("duration", FText "five")] fresh)
    as (calls & Hcalls & Hall & Hone & _).
  - repeat split; reflexivity.
  - destruct (Hone png eq_refl eq_refl) as [Hlength _].
    assert (Hfit : Z.of_nat (length (bytes png)) <= 100000)
      by (vm_compute; discriminate).
    specialize (Hlength Hfit).
    destruct calls as [|rq [|]]; try discriminate Hlength.
    inversion Hall as [|? ? (Hurl & sent & Hbody & Htext & _ & _) _]. subst.
    exists rq, sent. split; [exact Hcalls|]. split; [exact Hurl|].
    split; [exact Hbody|].
    apply (Htext "five"); [reflexivity | discriminate | reflexivity].
Defined.

(** C10 at an OPTIONS request without the API key. *)
Lemma preflight_without_key :
  (Ai.onRequest (replying VNull) (bare "OPTIONS" without_key) fresh
   = (Returns preflight, fresh) /\
   ImageHandler.onRequest (replying VNull) (bare "OPTIONS" without_key) fresh
   = (Returns preflight, fresh)) /\
  (rbody preflight = BNull /\
   In ("Access-Control-Allow-Methods", "POST, OPTIONS") (rheaders preflight)) /\
  (forall ctx' s1 r s2,
     Ai.onRequest (replying VNull) ctx' s1 = (Returns r, s2) ->
     error_envelope r Ai.missing_key_message ->
     method (ctx_request ctx') = "POST") /\
  (forall ctx' s1 r s2,
     ImageHandler.onRequest (replying VNull) ctx' s1 = (Returns r, s2) ->
     error_envelope r ImageHandler.missing_key_message ->
     method (ctx_request ctx') = "POST").
Proof.
  apply (preflight_needs_no_key (replying VNull) (bare "OPTIONS" without_key) fresh).
  reflexivity.
Defined.

(** The upload of C9: the call the handler makes, and its duration on the
    wire, where [JSON.stringify] writes [NaN] as [null]. *)
Example duration_five_sent :
  let sent :=
    last (fetched (snd (Ai.onRequest (replying (VObj [("id", VStr "task-1")]))
            (post_form [("prompt", FText "a cat"); ("image", FFile png);
                        ("duration", FText "five")] (with_key true)) fresh))) in
  option_map (fun rq => option_map (fun b => prop b "duration") (fbody rq)) sent
  = Some (Some (VNum NaN)) /\
  option_map (fun rq => option_map (fun b => prop (Browser.reparse b) "duration")
                          (fbody rq)) sent
  = Some (Some VNull).
Proof. split; reflexivity. Qed.

(** A missing-key POST to [functions/ai.js] carries no header. *)
Example Ai_missing_key_has_no_header :
  fst (Ai.onRequest (replying VNull) (bare "POST" without_key) fresh)
  = Returns {| rstatus := 500; rheaders := [];
               rbody := BJson (Ai.failure Ai.missing_key_message) |}.
Proof. reflexivity. Qed.

End Instances.

(** * Further properties of the handlers *)

(** ** Effects of a computation, compositionally *)

Section EffectRules.
Import JS Sys Effects.
Context {X : Type} (view : state -> X).

Lemma keeps_ret {A : Type} (a : A) : keeps view (mret a).
Proof. intros s. reflexivity. Qed.

Lemma keeps_throw {A : Type} msg : keeps view (@throw A msg).
Proof. intros s. reflexivity. Qed.

Lemma keeps_bind {A B : Type} (m : M A) (f : A -> M B) :
  keeps view m -> (forall a, keeps view (f a)) -> keeps view (m ≫= f).
Proof.
  intros Hm Hf s. unfold mbind, M_bind. specialize (Hm s).
  destruct (m s) as [[a|msg] s1]; cbn [snd] in *; [|exact Hm].
  now rewrite Hf.
Qed.

Lemma keeps_try_catch {A : Type} (m : M A) h :
  keeps view m -> (forall msg, keeps view (h msg)) -> keeps view (try_catch m h).
Proof.
  intros Hm Hh s. unfold try_catch. specialize (Hm s).
  destruct (m s) as [[a|msg] s1]; cbn [snd] in *; [exact Hm|].
  now rewrite Hh.
Qed.

Lemma keeps_member o k : keeps view (member o k).
Proof. intros s. destruct o; reflexivity. Qed.

Lemma keeps_destructure o k name : keeps view (destructure o k name).
Proof. intros s. destruct o; reflexivity. Qed.

Lemma keeps_spread p bs : keeps view (spread_fromCharCode p bs).
Proof.
  intros s. unfold spread_fromCharCode.
  destruct (Z.of_nat (length bs) <=? max_arguments p); reflexivity.
Qed.

Lemma keeps_await_parsed {A : Type} (x : parsed A) : keeps view (await_parsed x).
Proof. intros s. destruct x; reflexivity. Qed.

Lemma keeps_as_file v : keeps view (as_file v).
Proof. intros s. destruct v as [[]|]; reflexivity. Qed.

Lemma keeps_kv_get key : keeps view (kv_get key).
Proof. intros s. reflexivity. Qed.

Context (R : X -> X -> Prop).

Lemma once_keeps {A : Type} (m : M A) : keeps view m -> changes_once view R m.
Proof. intros H s. left. apply H. Qed.

Lemma once_then_keeps {A B : Type} (m : M A) (f : A -> M B) :
  changes_once view R m -> (forall a, keeps view (f a)) ->
  changes_once view R (m ≫= f).
Proof.
  intros Hm Hf s. unfold mbind, M_bind. specialize (Hm s).
  destruct (m s) as [[a|msg] s1]; cbn [snd] in *; [|exact Hm].
  now rewrite Hf.
Qed.

Lemma keeps_then_once {A B : Type} (m : M A) (f : A -> M B) :
  keeps view m -> (forall a, changes_once view R (f a)) ->
  changes_once view R (m ≫= f).
Proof.
  intros Hm Hf s. unfold mbind, M_bind. specialize (Hm s).
  destruct (m s) as [[a|msg] s1]; cbn [snd] in *; [|now left].
  rewrite <- Hm. apply Hf.
Qed.

Lemma once_try_catch {A : Type} (m : M A) h :
  changes_once view R m -> (forall msg, keeps view (h msg)) ->
  changes_once view R (try_catch m h).
Proof.
  intros Hm Hh s. unfold try_catch. specialize (Hm s).
  destruct (m s) as [[a|msg] s1]; cbn [snd] in *; [exact Hm|].
  now rewrite Hh.
Qed.

End EffectRules.

Ltac keeps_step :=
  first
    [ apply keeps_ret | apply keeps_throw | apply keeps_member
    | apply keeps_destructure | apply keeps_spread
    | apply keeps_await_parsed | apply keeps_as_file | apply keeps_kv_get
    | apply keeps_bind; [|intros ?; cbv beta]
    | apply keeps_try_catch; [|intros ?; cbv beta]
    | match goal with
      | |- Effects.keeps _ (Sys.kv_put _ _) => solve [intros ?; reflexivity]
      | |- Effects.keeps _ (Sys.waitUntil_delete _) =>
          solve [intros ?; reflexivity]
      | |- Effects.keeps _ (Sys.fetch _ _) =>
          solve [intros ?; unfold Sys.fetch; destruct (Sys.upstream _ _);
                 reflexivity]
      | |- Effects.keeps _ (Sys.when ?b _) => destruct b; cbn [Sys.when]
      | |- Effects.keeps _ (if ?b then _ else _) => destruct b
      | |- Effects.keeps _ (match ?x with _ => _ end) => destruct x
      end ].

Ltac once_step prim :=
  first
    [ solve [apply once_keeps; repeat keeps_step]
    | solve [prim]
    | apply once_try_catch; [|intros ?; cbv beta; solve [repeat keeps_step]]
    | apply keeps_then_once; [solve [repeat keeps_step] | intros ?; cbv beta]
    | apply once_then_keeps;
        [solve [repeat (once_step prim)]
        | intros ?; cbv beta; solve [repeat keeps_step]]
    | match goal with
      | |- Effects.changes_once _ _ (Sys.when ?b _) => destruct b; cbn [Sys.when]
      | |- Effects.changes_once _ _ (if ?b then _ else _) => destruct b
      | |- Effects.changes_once _ _ (match ?x with _ => _ end) => destruct x
      end ].

Ltac unfold_Ai :=
  unfold Ai.onRequest, Ai.process, Ai.upload, Ai.generateImage,
    Ai.startVideoFromUrl, Ai.check_status, Ai.relay, Ai.startImageToVideoJob;
  cbv zeta.

Ltac unfold_ImageHandler :=
  unfold ImageHandler.onRequest, ImageHandler.process, ImageHandler.upload,
    ImageHandler.check_status, ImageHandler.relay;
  cbv zeta.

(** ** What a request can do to the world *)

Section ServerInvariants.
Import JS Sys Effects.

Ltac one_call_made :=
  intros ?; right; unfold fetch; eexists;
    (split; [| destruct (upstream _ _); reflexivity]); repeat split.

Ltac one_record_put :=
  intros ?; right; eexists _, _; split; [|reflexivity];
    first [left; reflexivity | right; reflexivity].

Ltac one_deletion_pending :=
  intros ?; right; eexists; reflexivity.

Lemma try_catch_returns (m : M response) (h : string -> response) s :
  exists r s', try_catch m (fun message => mret (h message)) s = (Returns r, s').
Proof. unfold try_catch. destruct (m s) as [[r|msg] s']; eauto. Qed.

(** X1: whatever the request, the environment and the upstream do, both
    handlers return a response: no exception escapes [onRequest]. *)
Theorem handlers_always_answer p ctx s :
  (exists r s', Ai.onRequest p ctx s = (Returns r, s')) /\
  (exists r s', ImageHandler.onRequest p ctx s = (Returns r, s')).
Proof.
  unfold Ai.onRequest, ImageHandler.onRequest. cbv zeta.
  destruct (String.eqb _ "OPTIONS"); [split; eauto|].
  destruct (negb (String.eqb _ "POST")); [split; eauto|].
  destruct (negb (key_present _)); [split; eauto|].
  split; apply try_catch_returns.
Qed.

(** X2: while it serves one request, either handler calls the upstream at
    most once, and the call goes to the API base with the bearer credential
    of the environment and the API version header. *)
Theorem at_most_one_authorized_call p ctx :
  changes_once fetched (one_call (ctx_env ctx)) (Ai.onRequest p ctx) /\
  changes_once fetched (one_call (ctx_env ctx)) (ImageHandler.onRequest p ctx).
Proof.
  split.
  - unfold_Ai. repeat (once_step one_call_made).
  - unfold_ImageHandler. repeat (once_step one_call_made).
Qed.

(** X3: [functions/ai.js] writes the store at most once per request, and what
    it writes is the kind of a task, image or video; nothing is removed from
    the store before the response, and at most one deletion is left
    pending. *)
Theorem Ai_store_effects p ctx :
  changes_once kv one_kind_record (Ai.onRequest p ctx) /\
  changes_once waiting one_deletion (Ai.onRequest p ctx).
Proof.
  split.
  - unfold_Ai. repeat (once_step one_record_put).
  - unfold_Ai. repeat (once_step one_deletion_pending).
Qed.

Lemma ImageHandler_process_keeps p ctx :
  keeps kv (ImageHandler.process p ctx) /\
  keeps waiting (ImageHandler.process p ctx).
Proof. split; unfold_ImageHandler; repeat keeps_step. Qed.

(** X4: the image-to-image copy of the handler never touches the store:
    it neither writes it nor schedules a deletion. *)
Theorem ImageHandler_leaves_store p ctx :
  keeps kv (ImageHandler.onRequest p ctx) /\
  keeps waiting (ImageHandler.onRequest p ctx).
Proof.
  split.
  - unfold_ImageHandler. repeat keeps_step.
  - unfold_ImageHandler. repeat keeps_step.
Qed.

End ServerInvariants.

(** ** Polls and submissions, case by case *)

Section ServerBehaviour.
Import JS Sys Scenario Effects.

Lemma status_action_truthy ctx taskId : status_action ctx taskId -> truthy taskId = true.
Proof. now intros (? & ? & ? & ? & ?). Qed.

(** A poll of [functions/ai.js] that comes back with HTTP success runs
    [relay] on the data, after the one upstream call. *)
Lemma Ai_poll_relays p ctx taskId data s :
  status_action ctx taskId ->
  polled p taskId data ->
  Ai.onRequest p ctx s =
    try_catch (Ai.relay (ctx_env ctx) taskId data)
      (fun message => mret (jsonResponse (Ai.failure message) 500))
      (called (Ai.status_request (ctx_env ctx) taskId) s).
Proof.
  intros Hact Hpoll.
  pose proof (status_action_truthy _ _ Hact) as Ht.
  destruct (Ai_status p ctx taskId s Hact) as (body & Hid & ->). subst taskId.
  unfold try_catch. now rewrite (Ai_check_status_polled _ _ _ _ _ Ht Hpoll).
Qed.

Lemma Image_poll_relays p ctx taskId data s :
  status_action ctx taskId ->
  polled p taskId data ->
  ImageHandler.onRequest p ctx s =
    try_catch (ImageHandler.relay data)
      (fun message => mret (jsonResponse (ImageHandler.failure message) 500))
      (called (ImageHandler.status_request (ctx_env ctx) taskId) s).
Proof.
  intros Hact Hpoll.
  pose proof (status_action_truthy _ _ Hact) as Ht.
  rewrite (Image_status _ _ _ _ Hact).
  unfold try_catch. now rewrite (Image_check_status_polled _ _ _ _ _ Ht Hpoll).
Qed.

(** X5: a poll that finds the task not finished (for [functions/ai.js]: not
    SUCCEEDED with a first output; for the other copy: not SUCCEEDED) is
    answered with [{success: true, status, progress}] as the upstream gave
    them, FAILED included, and apart from the record of the upstream call the
    state is as before: the store and the pending deletions are untouched. *)
Theorem unfinished_poll_is_read_only p ctx taskId task s :
  status_action ctx taskId ->
  polled p taskId (VObj task) ->
  let relayed :=
    {| rstatus := 200;
       rheaders := [("Content-Type", "application/json");
                    ("Access-Control-Allow-Origin", "*")];
       rbody := BJson
         (VObj [("success", VBool true); ("status", assoc "status" task);
                ("progress", assoc "progress" task)]) |} in
  (is_str (assoc "status" task) "SUCCEEDED"
     && truthy (opt_first (assoc "output" task)) = false ->
   Ai.onRequest p ctx s =
     (Returns relayed, called (Ai.status_request (ctx_env ctx) taskId) s)) /\
  (is_str (assoc "status" task) "SUCCEEDED" = false ->
   ImageHandler.onRequest p ctx s =
     (Returns relayed,
      called (ImageHandler.status_request (ctx_env ctx) taskId) s)).
Proof.
  intros Hact Hpoll relayed. split; intros Hun.
  - rewrite (Ai_poll_relays _ _ _ _ _ Hact Hpoll).
    unfold try_catch, Ai.relay. cbn [member prop].
    unfold mbind, M_bind, mret, M_ret. now rewrite Hun.
  - rewrite (Image_poll_relays _ _ _ _ _ Hact Hpoll).
    unfold try_catch, ImageHandler.relay. cbn [member prop].
    unfold mbind, M_bind, mret, M_ret. now rewrite Hun.
Qed.

Lemma kind_test v :
  is_str (if truthy v then v else VStr "video") "image" = is_str v "image".
Proof.
  destruct (truthy v) eqn:Hv; [reflexivity|].
  destruct v as [| | | |str| |]; try reflexivity.
  simpl in Hv. apply negb_false_iff, String.eqb_eq in Hv. now subst.
Qed.

(** The poll of a task that succeeded with an output, with the namespace
    bound: the answer and the state. *)
Lemma Ai_succeeded_with_store p ctx taskId task s :
  status_action ctx taskId ->
  polled p taskId (VObj task) ->
  assoc "status" task = VStr "SUCCEEDED" ->
  truthy (opt_first (assoc "output" task)) = true ->
  TASK_INFO_KV (ctx_env ctx) = true ->
  Ai.onRequest p ctx s =
    (Returns (jsonResponse
                (VObj [("success", VBool true); ("status", VStr "SUCCEEDED");
                       ("progress", assoc "progress" task);
                       (if is_str (prop (default VNull (kv s !! ToString taskId))
                                        "type") "image"
                        then "imageUrl" else "videoUrl",
                        opt_first (assoc "output" task))]) 200),
     {| kv := kv s;
        fetched := fetched s ++ [Ai.status_request (ctx_env ctx) taskId];
        waiting := waiting s ++ [ToString taskId] |}).
Proof.
  intros Hact Hpoll Hst Hout Hkv.
  rewrite (Ai_poll_relays _ _ _ _ _ Hact Hpoll).
  unfold try_catch, Ai.relay. cbn [member prop].
  unfold mbind, M_bind, mret, M_ret. rewrite Hst, Hout, Hkv.
  cbn [is_str String.eqb Ascii.eqb Bool.eqb andb].
  unfold kv_get, waitUntil_delete, called, opt_prop. cbn [kv fetched waiting].
  rewrite kind_test.
  destruct (is_str (prop (default VNull (kv s !! ToString taskId)) "type") "image");
    reflexivity.
Qed.

(** X6: with the namespace bound, the answer of [functions/ai.js] to the poll
    of a task that succeeded with an output carries that output under
    [imageUrl] when the document stored for the task has the type "image",
    and under [videoUrl] in every other case (no document, no type, any
    other type); it never carries both.  The store is read, not written, and
    the deletion of the key is left pending. *)
Theorem field_follows_stored_kind p ctx taskId task s :
  status_action ctx taskId ->
  polled p taskId (VObj task) ->
  assoc "status" task = VStr "SUCCEEDED" ->
  truthy (opt_first (assoc "output" task)) = true ->
  TASK_INFO_KV (ctx_env ctx) = true ->
  let stored := default VNull (kv s !! ToString taskId) in
  let field := if is_str (prop stored "type") "image"
               then "imageUrl" else "videoUrl" in
  exists s',
    Ai.onRequest p ctx s =
      (Returns ({| rstatus := 200;
                   rheaders := [("Content-Type", "application/json");
                                ("Access-Control-Allow-Origin", "*")];
                   rbody := BJson
                     (VObj [("success", VBool true); ("status", VStr "SUCCEEDED");
                            ("progress", assoc "progress" task);
                            (field, opt_first (assoc "output" task))]) |}), s') /\
    kv s' = kv s /\
    waiting s' = waiting s ++ [ToString taskId] /\
    fetched s' = fetched s ++ [Ai.status_request (ctx_env ctx) taskId].
Proof.
  intros Hact Hpoll Hst Hout Hkv stored field.
  rewrite (Ai_succeeded_with_store _ _ _ _ _ Hact Hpoll Hst Hout Hkv).
  eexists. split; [reflexivity|]. repeat split.
Qed.

End ServerBehaviour.

(** ** Submissions that reach the upstream *)

Section Jobs.
Import JS Sys Scenario Effects.

Lemma append_cons_assoc acc c rest :
  (acc +:+ String c "") +:+ rest = acc +:+ String c rest.
Proof.
  induction acc as [|a acc IH]; [reflexivity|].
  change (String a ((acc +:+ String c "") +:+ rest)
          = String a (acc +:+ String c rest)).
  now rewrite IH.
Qed.

Lemma binary_loop acc bs :
  fold_left (fun binary b => binary +:+ String (fromCharCode b) "") bs acc
  = acc +:+ fromCharCodes bs.
Proof.
  revert acc. induction bs as [|b bs IH]; intros acc.
  - cbn [fold_left]. induction acc as [|a acc IHa]; [reflexivity|].
    change (String a acc = String a (acc +:+ fromCharCodes [])).
    now rewrite <- IHa.
  - cbn [fold_left]. rewrite IH. apply append_cons_assoc.
Qed.

(** X7: the loop of the image-to-image copy builds the string that has one
    character for each byte of the file, whatever the size of the file.  The
    spread of [functions/ai.js] gives that same string when the bytes of the
    file fit in the arguments of one call, and throws a [RangeError] when they
    do not. *)
Theorem loop_builds_the_spread p (f : file) s :
  list_ascii_of_string (ImageHandler.binary_of (bytes f))
  = map ascii_of_byte (bytes f) /\
  (Z.of_nat (length (bytes f)) <= max_arguments p ->
   spread_fromCharCode p (bytes f) s
   = (Returns (ImageHandler.binary_of (bytes f)), s)) /\
  (max_arguments p < Z.of_nat (length (bytes f)) ->
   spread_fromCharCode p (bytes f) s
   = (Throws "Maximum call stack size exceeded", s)).
Proof.
  assert (H : ImageHandler.binary_of (bytes f) = fromCharCodes (bytes f))
    by apply (binary_loop "").
  split; [|split].
  - rewrite H. apply list_ascii_of_string_of_list_ascii.
  - intros Hfit. apply Z.leb_le in Hfit.
    unfold spread_fromCharCode. now rewrite Hfit, H.
  - intros Hbig. apply Z.leb_gt in Hbig.
    unfold spread_fromCharCode. now rewrite Hbig.
Qed.

Lemma startImageToVideoJob_accepted p imageUrl prompt duration ratio name e r task s :
  upstream p (Ai.image_to_video_request p e imageUrl prompt duration ratio)
    = Replies r ->
  ok r = true ->
  data r = VObj task ->
  Ai.startImageToVideoJob p imageUrl prompt duration ratio name e s =
    (Returns (jsonResponse
                (VObj [("success", VBool true); ("taskId", assoc "id" task);
                       ("status", assoc "status" task)]) 200),
     submitted e (Ai.image_to_video_request p e imageUrl prompt duration ratio)
       (assoc "id" task) "video" s).
Proof.
  intros Hup Hok Hd. unfold Ai.startImageToVideoJob, submitted.
  rewrite (bind_returns (fetch p _) _ s r (called _ s))
    by (apply fetch_replies, Hup).
  rewrite Hok, Hd. cbn [negb]. skip_unit.
  destruct (TASK_INFO_KV e); reflexivity.
Qed.

(** X8: a "startVideoFromUrl" action with a prompt and an image URL makes
    one call to [/image_to_video] that passes the prompt and the URL on as
    they are.  The duration sent is 5 when the body gives none (or a falsy
    one) and [parseInt] of the text when it gives a string; the ratio is
    the one given, 1280:720 when none is.  When the upstream accepts, the
    answer is [{success: true, taskId, status}] and, with the namespace
    bound, the document [{type: "video"}] is stored under the task id. *)
Theorem startVideoFromUrl_starts_job p ctx body r task s :
  json_post ctx body ->
  is_str (prop body "action") "startVideoFromUrl" = true ->
  truthy (prop body "videoPrompt") = true ->
  truthy (prop body "imageUrl") = true ->
  answers p (RUNWAY_API_BASE +:+ "/image_to_video") r ->
  ok r = true ->
  data r = VObj task ->
  exists sent b,
    Ai.onRequest p ctx s =
      (Returns ({| rstatus := 200;
                   rheaders := [("Content-Type", "application/json");
                                ("Access-Control-Allow-Origin", "*")];
                   rbody := BJson
                     (VObj [("success", VBool true); ("taskId", assoc "id" task);
                            ("status", assoc "status" task)]) |}),
       submitted (ctx_env ctx) sent (assoc "id" task) "video" s) /\
    url sent = RUNWAY_API_BASE +:+ "/image_to_video" /\
    fbody sent = Some b /\
    prop b "promptImage" = prop body "imageUrl" /\
    prop b "promptText" = prop body "videoPrompt" /\
    (truthy (prop body "duration") = false ->
     prop b "duration" = VNum (Int 5)) /\
    (forall text, prop body "duration" = VStr text -> text <> "" ->
     prop b "duration" = VNum (parseInt text)) /\
    (truthy (prop body "ratio") = false -> prop b "ratio" = VStr "1280:720") /\
    (truthy (prop body "ratio") = true -> prop b "ratio" = prop body "ratio").
Proof.
  intros Hpost Ha Hv Hi Hup Hok Hd.
  eexists _, _. split.
  { destruct (is_str_object _ _ _ Ha) as [props ->].
    rewrite Ai_post by apply Hpost.
    unfold try_catch. rewrite (Ai_process_json _ _ _ _ Hpost).
    cbn zeta. simpl in Ha. rewrite (is_str_eq _ _ Ha).
    cbn [is_str String.eqb Ascii.eqb Bool.eqb].
    unfold Ai.startVideoFromUrl. cbn zeta. rewrite Hv, Hi. cbn [negb orb].
    skip_unit.
    erewrite startImageToVideoJob_accepted;
      [reflexivity | apply Hup; reflexivity | exact Hok | exact Hd]. }
  split; [reflexivity|]. split; [reflexivity|].
  cbn [prop assoc String.eqb Ascii.eqb Bool.eqb]. unfold or_else.
  split; [reflexivity|]. split; [reflexivity|].
  split; [|split; [|split]].
  - intros ->. reflexivity.
  - intros text Hd' Hne. rewrite Hd'. cbn [truthy ToString].
    now destruct (String.eqb_spec text "").
  - intros ->. reflexivity.
  - intros ->. reflexivity.
Qed.

(** X9: an upload to [functions/ai.js] with a prompt and an image file.
    When the bytes of the file fit in the arguments of one call and the
    upstream accepts, the answer is [{success: true, taskId, status}], the
    image travels as the data URL of its bytes, and with the namespace bound
    the task is recorded as a video.  When they do not fit, the answer is 500
    with the message of the [RangeError], and nothing is called or stored. *)
Theorem Ai_upload_starts_video_job p ctx entries file r task s :
  multipart_post ctx entries ->
  form_truthy (form_get "prompt" entries) = true ->
  form_get "image" entries = Some (FFile file) ->
  (Z.of_nat (length (bytes file)) <= max_arguments p ->
   answers p (RUNWAY_API_BASE +:+ "/image_to_video") r ->
   ok r = true ->
   data r = VObj task ->
   exists sent,
     Ai.onRequest p ctx s =
       (Returns ({| rstatus := 200;
                    rheaders := [("Content-Type", "application/json");
                                 ("Access-Control-Allow-Origin", "*")];
                    rbody := BJson
                      (VObj [("success", VBool true); ("taskId", assoc "id" task);
                             ("status", assoc "status" task)]) |}),
        submitted (ctx_env ctx) sent (assoc "id" task) "video" s) /\
     url sent = RUNWAY_API_BASE +:+ "/image_to_video" /\
     option_map (fun b => prop b "promptImage") (fbody sent)
       = Some (VStr ("data:" +:+ type file +:+ ";base64," +:+
                     btoa (fromCharCodes (bytes file)))) /\
     option_map (fun b => prop b "promptText") (fbody sent)
       = Some (form_value_of (form_get "prompt" entries)) /\
     option_map (fun b => prop b "watermark") (fbody sent) = Some (VBool false)) /\
  (max_arguments p < Z.of_nat (length (bytes file)) ->
   Ai.onRequest p ctx s =
     (Returns ({| rstatus := 500;
                  rheaders := [("Content-Type", "application/json");
                               ("Access-Control-Allow-Origin", "*")];
                  rbody := BJson
                    (VObj [("success", VBool false);
                           ("error", VStr "Maximum call stack size exceeded")]) |}),
      s)).
Proof.
  intros Hpost Hp Hi. split.
  - intros Hfit Hup Hok Hd.
    eexists. split.
    { rewrite Ai_post by apply Hpost.
      unfold try_catch. rewrite (Ai_upload_starts_job _ _ _ _ _ Hpost Hp Hi Hfit).
      erewrite startImageToVideoJob_accepted;
        [reflexivity | apply Hup; reflexivity | exact Hok | exact Hd]. }
    repeat split.
  - intros Hbig. rewrite Ai_post by apply Hpost. unfold try_catch.
    now rewrite (Ai_upload_too_large _ _ _ _ _ Hpost Hp Hi Hbig).
Qed.


End Jobs.

(** ** Refusals *)

Section Refusals.
Import JS Sys Scenario Effects.

Lemma fetch_rejects p rq message s :
  upstream p rq = Rejects message -> fetch p rq s = (Throws message, called rq s).
Proof. intros H. unfold fetch. now rewrite H. Qed.

(** What the handlers make of a [data.error] read from a refusal, given the
    text that stands in for a missing error. *)
Lemma refusal_message (data : value) (prefix instead : string) s :
  let thrown := (error ← member data "error";
                 throw (prefix +:+ ToString (or_else error (VStr instead))))
                : M response in
  (forall text, prop data "error" = VStr text -> text <> "" ->
     thrown s = (Throws (prefix +:+ text), s)) /\
  (data <> VNull -> data <> VUndefined -> truthy (prop data "error") = false ->
     thrown s = (Throws (prefix +:+ instead), s)) /\
  (data = VNull ->
     thrown s = (Throws "Cannot read properties of null (reading 'error')", s)).
Proof.
  cbn zeta. split; [|split].
  - intros text He Hne.
    destruct (prop_object _ _ _ He) as [props ->]; [discriminate|].
    cbn [member prop] in *. unfold mbind, M_bind, mret, M_ret, or_else.
    rewrite He. cbn [truthy ToString].
    now destruct (String.eqb_spec text "").
  - intros Hnull Hundef Hno.
    destruct data; try contradiction; cbn [member];
      unfold mbind, M_bind, mret, M_ret, or_else; now rewrite Hno.
  - intros ->. reflexivity.
Qed.

(** A poll the upstream refuses, up to the message. *)
Lemma Ai_poll_refused p ctx taskId r s :
  status_action ctx taskId ->
  answers p (RUNWAY_API_BASE +:+ "/tasks/" +:+ ToString taskId) r ->
  ok r = false ->
  Ai.onRequest p ctx s =
    try_catch
      (error ← member (data r) "error";
       throw ("Status check failed: " +:+
              ToString (or_else error (VStr (statusText r)))))
      (fun message => mret (jsonResponse (Ai.failure message) 500))
      (called (Ai.status_request (ctx_env ctx) taskId) s).
Proof.
  intros Hact Hup Hok.
  pose proof (status_action_truthy _ _ Hact) as Ht.
  destruct (Ai_status p ctx taskId s Hact) as (body & Hid & ->). subst taskId.
  unfold try_catch, Ai.check_status. cbn zeta. rewrite Ht. cbn [negb].
  skip_unit.
  rewrite (bind_returns (fetch p _) _ s r (called _ s))
    by (apply fetch_replies, Hup; reflexivity).
  rewrite Hok. cbn [negb]. destruct (data r); reflexivity.
Qed.

Lemma Image_poll_refused p ctx taskId r s :
  status_action ctx taskId ->
  answers p (RUNWAY_API_BASE +:+ "/tasks/" +:+ ToString taskId) r ->
  ok r = false ->
  ImageHandler.onRequest p ctx s =
    try_catch
      (error ← member (data r) "error";
       throw ("Status check failed: " +:+
              ToString (or_else error (VStr (statusText r)))))
      (fun message => mret (jsonResponse (ImageHandler.failure message) 500))
      (called (ImageHandler.status_request (ctx_env ctx) taskId) s).
Proof.
  intros Hact Hup Hok.
  pose proof (status_action_truthy _ _ Hact) as Ht.
  rewrite (Image_status _ _ _ _ Hact).
  unfold try_catch, ImageHandler.check_status. rewrite Ht. cbn [negb].
  skip_unit.
  rewrite (bind_returns (fetch p _) _ s r (called _ s))
    by (apply fetch_replies, Hup; reflexivity).
  rewrite Hok. cbn [negb]. destruct (data r); reflexivity.
Qed.

(** X11: a poll the upstream refuses (an HTTP status outside 2xx) is
    answered 500 by both handlers, after the one call and without a look at
    the store.  The message is "Status check failed: " followed by the
    upstream's [error] when that is a non-empty string, and by the status
    text when the body has no [error] (or a falsy one).  A refusal whose body
    is [null] is answered with the message of the [TypeError] instead, and
    when the call or the parsing of the body fails, with the message of that
    failure, both without the prefix. *)
Theorem refused_poll_passes_message p ctx taskId s :
  status_action ctx taskId ->
  let poll := RUNWAY_API_BASE +:+ "/tasks/" +:+ ToString taskId in
  let says message :=
    Ai.onRequest p ctx s =
      (Returns ({| rstatus := 500;
                   rheaders := [("Content-Type", "application/json");
                                ("Access-Control-Allow-Origin", "*")];
                   rbody := BJson
                     (VObj [("success", VBool false); ("error", VStr message)]) |}),
       called (Ai.status_request (ctx_env ctx) taskId) s) /\
    ImageHandler.onRequest p ctx s =
      (Returns ({| rstatus := 500;
                   rheaders := [("Content-Type", "application/json");
                                ("Access-Control-Allow-Origin", "*")];
                   rbody := BJson
                     (VObj [("success", VBool false); ("error", VStr message)]) |}),
       called (ImageHandler.status_request (ctx_env ctx) taskId) s) in
  (forall r,
     answers p poll r ->
     ok r = false ->
     (forall text, prop (data r) "error" = VStr text -> text <> "" ->
        says ("Status check failed: " +:+ text)) /\
     (data r <> VNull -> data r <> VUndefined ->
      truthy (prop (data r) "error") = false ->
        says ("Status check failed: " +:+ statusText r)) /\
     (data r = VNull ->
        says "Cannot read properties of null (reading 'error')")) /\
  (forall message,
     (forall rq, url rq = poll -> upstream p rq = Rejects message) ->
     says message).
Proof.
  intros Hact poll says. subst says. cbv beta. split.
  - intros r Hup Hok.
    rewrite (Ai_poll_refused _ _ _ _ _ Hact Hup Hok),
            (Image_poll_refused _ _ _ _ _ Hact Hup Hok).
    unfold try_catch.
    split; [|split].
    + intros text He Hne.
      now rewrite !(proj1 (refusal_message _ _ _ _) text He Hne).
    + intros Hnull Hundef Hno.
      now rewrite !(proj1 (proj2 (refusal_message _ _ _ _)) Hnull Hundef Hno).
    + intros Hnull.
      now rewrite !(proj2 (proj2 (refusal_message _ _ _ _)) Hnull).
  - intros message Hup.
    pose proof (status_action_truthy _ _ Hact) as Ht.
    split.
    + destruct (Ai_status p ctx taskId s Hact) as (body & Hid & ->).
      subst taskId.
      unfold try_catch, Ai.check_status. cbn zeta. rewrite Ht. cbn [negb].
      skip_unit. unfold mbind at 1, M_bind at 1.
      now rewrite (fetch_rejects _ _ message) by (apply Hup; reflexivity).
    + rewrite (Image_status _ _ _ _ Hact).
      unfold try_catch, ImageHandler.check_status. rewrite Ht. cbn [negb].
      skip_unit. unfold mbind at 1, M_bind at 1.
      now rewrite (fetch_rejects _ _ message) by (apply Hup; reflexivity).
Qed.

(** X12: a "generateImage" submission the upstream refuses is answered 500
    by [functions/ai.js], and nothing is stored even with the namespace
    bound.  The message is the upstream's [error] when that is a non-empty
    string, and "Runway T2I API error: " with the HTTP status when the body
    has no [error] (or a falsy one).  A refusal whose body is [null] is
    answered with the message of the [TypeError] instead, and when the call
    or the parsing of the body fails, with the message of that failure. *)
Theorem refused_generateImage_passes_message p ctx body s :
  json_post ctx body ->
  is_str (prop body "action") "generateImage" = true ->
  truthy (prop body "prompt") = true ->
  let sent :=
    Ai.text_to_image_request p (ctx_env ctx)
      (prop body "prompt") (prop body "ratio") in
  let says message :=
    Ai.onRequest p ctx s =
      (Returns ({| rstatus := 500;
                   rheaders := [("Content-Type", "application/json");
                                ("Access-Control-Allow-Origin", "*")];
                   rbody := BJson
                     (VObj [("success", VBool false);
                            ("error", VStr message)]) |}), called sent s) in
  (forall r,
     answers p (RUNWAY_API_BASE +:+ "/text_to_image") r ->
     ok r = false ->
     (forall text, prop (data r) "error" = VStr text -> text <> "" ->
        says text) /\
     (data r <> VNull -> data r <> VUndefined ->
      truthy (prop (data r) "error") = false ->
        says ("Runway T2I API error: " +:+ Z_toString (status r))) /\
     (data r = VNull ->
        says "Cannot read properties of null (reading 'error')")) /\
  (forall message,
     (forall rq, url rq = RUNWAY_API_BASE +:+ "/text_to_image" ->
                 upstream p rq = Rejects message) ->
     says message).
Proof.
  intros Hpost Ha Hp sent says. subst says. cbv beta.
  destruct (is_str_object _ _ _ Ha) as [props ->].
  rewrite Ai_post by apply Hpost.
  unfold try_catch. rewrite (Ai_process_json _ _ _ _ Hpost).
  cbn zeta. simpl in Ha. rewrite Ha.
  unfold Ai.generateImage. rewrite Hp. cbn [negb]. skip_unit. fold sent.
  split.
  - intros r Hup Hok.
    rewrite (bind_returns (fetch p _) _ s r (called _ s))
      by (apply fetch_replies, Hup; reflexivity).
    rewrite Hok. cbn [negb].
    split; [|split].
    + intros text He Hne.
      destruct (prop_object _ _ _ He) as [dprops Hd]; [discriminate|].
      rewrite Hd in *. cbn [member prop] in *.
      unfold mbind, M_bind, mret, M_ret, or_else.
      rewrite He. cbn [truthy ToString].
      now destruct (String.eqb_spec text "").
    + intros Hnull Hundef Hno.
      destruct (data r); try contradiction; cbn [member];
        unfold mbind, M_bind, mret, M_ret, or_else; now rewrite Hno.
    + intros ->. reflexivity.
  - intros message Hup. unfold mbind at 1, M_bind at 1.
    now rewrite (fetch_rejects _ _ message) by (apply Hup; reflexivity).
Qed.

(** X13: the requests both handlers turn down before any upstream call: a
    content type that is neither multipart nor JSON, a JSON body that does not
    parse, an action the handler does not know, and a "status" action without
    a task id.  Each is answered 500 with the message of the error, and the
    state is left as it was. *)
Theorem turned_down_before_any_call p ctx s :
  keyed_post ctx ->
  let contentType := default "" (content_type (ctx_request ctx)) in
  let Ai_says message :=
    Ai.onRequest p ctx s
    = (Returns ({| rstatus := 500;
                   rheaders := [("Content-Type", "application/json");
                                ("Access-Control-Allow-Origin", "*")];
                   rbody := BJson
                     (VObj [("success", VBool false);
                            ("error", VStr message)]) |}), s) in
  let Image_says message :=
    ImageHandler.onRequest p ctx s
    = (Returns ({| rstatus := 500;
                   rheaders := [("Content-Type", "application/json");
                                ("Access-Control-Allow-Origin", "*")];
                   rbody := BJson
                     (VObj [("success", VBool false);
                            ("error", VStr message)]) |}), s) in
  (includes contentType "multipart/form-data" = false ->
   includes contentType "application/json" = false ->
   Ai_says "Invalid request content-type." /\
   Image_says ("Invalid request content-type: " +:+ contentType)) /\
  (includes contentType "multipart/form-data" = false ->
   includes contentType "application/json" = true ->
   (forall message, json (ctx_request ctx) = Malformed message ->
      Ai_says message /\ Image_says message) /\
   (forall props, json (ctx_request ctx) = Parsed (VObj props) ->
      (is_str (assoc "action" props) "generateImage" = false ->
       is_str (assoc "action" props) "startVideoFromUrl" = false ->
       is_str (assoc "action" props) "status" = false ->
       Ai_says "Invalid action specified.") /\
      (is_str (assoc "action" props) "status" = false ->
       Image_says "Invalid action specified.") /\
      (is_str (assoc "action" props) "status" = true ->
       truthy (assoc "taskId" props) = false ->
       Ai_says "Invalid status check request." /\
       Image_says "Task ID is missing for status check."))).
Proof.
  intros Hkeyed contentType Ai_says Image_says.
  subst Ai_says Image_says contentType. cbv beta.
  rewrite Ai_post, Image_post by assumption.
  unfold try_catch, Ai.process, ImageHandler.process. cbv zeta.
  split.
  - intros -> ->. split; reflexivity.
  - intros -> ->. split.
    + intros message ->. split; reflexivity.
    + intros props ->.
      change (await_parsed (Parsed (VObj props)) ≫= ?f) with (f (VObj props)).
      cbv beta.
      change (destructure (VObj props) "action" "body" ≫= ?f)
        with (f (assoc "action" props)).
      cbv beta. cbn [prop].
      split; [|split].
      * intros -> -> ->. reflexivity.
      * intros ->. reflexivity.
      * intros Hst Hno.
        rewrite (is_str_eq _ _ Hst).
        cbn [is_str String.eqb Ascii.eqb Bool.eqb].
        unfold Ai.check_status, ImageHandler.check_status. cbn zeta.
        cbn [prop]. rewrite Hno. split; reflexivity.
Qed.

(** *** An upstream that cannot be reached *)

Lemma ensures_dead_bind {A B : Type} (m : M A) (f : A -> M B) (Q : B -> Prop) :
  ensures m (fun _ => False) -> ensures (m ≫= f) Q.
Proof.
  intros H s b s'. unfold mbind, M_bind.
  destruct (m s) as [[a|msg] s1] eqn:Hm; [|discriminate].
  destruct (H _ _ _ Hm).
Qed.

Lemma keeps_dead_bind {X A B : Type} (view : state -> X) (m : M A) (f : A -> M B) :
  ensures m (fun _ => False) -> keeps view m -> keeps view (m ≫= f).
Proof.
  intros Hd Hm s. unfold mbind, M_bind. specialize (Hm s).
  destruct (m s) as [[a|msg] s1] eqn:Hs; cbn [snd] in *; [|exact Hm].
  destruct (Hd _ _ _ Hs).
Qed.

Lemma fetch_dead p rq :
  (forall rq, exists msg, upstream p rq = Rejects msg) ->
  ensures (fetch p rq) (fun _ => False).
Proof.
  intros H s r s'. unfold fetch. destruct (H rq) as [msg ->]. discriminate.
Qed.

Lemma dead_is_caught (m : M response) (failure : string -> value) s :
  ensures m (fun _ => False) ->
  exists message,
    try_catch m (fun message => mret (jsonResponse (failure message) 500)) s
    = (Returns (jsonResponse (failure message) 500), snd (m s)).
Proof.
  intros Hd. unfold try_catch.
  destruct (m s) as [[r|msg] s'] eqn:Hm; [destruct (Hd _ _ _ Hm)|].
  now exists msg.
Qed.

Ltac dead_step H :=
  first
    [ apply ensures_throw
    | apply ensures_dead_bind; apply fetch_dead; exact H
    | apply ensures_bind; intros ?; cbv beta
    | match goal with
      | |- ensures (if ?b then _ else _) _ => destruct b
      | |- ensures (match ?x with _ => _ end) _ => destruct x
      end ].

Ltac keeps_unreached H :=
  first
    [ apply keeps_dead_bind;
        [apply fetch_dead; exact H
        | intros ?; unfold Sys.fetch; destruct (Sys.upstream _ _); reflexivity]
    | keeps_step ].

(** X14: when every upstream call fails (the network is down), every POST
    with the API key is answered 500 with an error message by both handlers,
    and neither the store nor the pending deletions change. *)
Theorem unreachable_upstream_is_reported p ctx s :
  (forall rq, exists msg, upstream p rq = Rejects msg) ->
  keyed_post ctx ->
  (exists message s',
     Ai.onRequest p ctx s
     = (Returns ({| rstatus := 500;
                    rheaders := [("Content-Type", "application/json");
                                 ("Access-Control-Allow-Origin", "*")];
                    rbody := BJson
                      (VObj [("success", VBool false);
                             ("error", VStr message)]) |}), s') /\
     kv s' = kv s /\ waiting s' = waiting s) /\
  (exists message s',
     ImageHandler.onRequest p ctx s
     = (Returns ({| rstatus := 500;
                    rheaders := [("Content-Type", "application/json");
                                 ("Access-Control-Allow-Origin", "*")];
                    rbody := BJson
                      (VObj [("success", VBool false);
                             ("error", VStr message)]) |}), s') /\
     kv s' = kv s /\ waiting s' = waiting s).
Proof.
  intros Hdown Hkeyed.
  rewrite Ai_post, Image_post by assumption.
  split.
  - destruct (dead_is_caught (Ai.process p ctx) Ai.failure s) as [message ->].
    { unfold_Ai. repeat (dead_step Hdown). }
    exists message, (snd (Ai.process p ctx s)).
    split; [reflexivity|]. split.
    + assert (H : keeps kv (Ai.process p ctx))
        by (unfold_Ai; repeat (keeps_unreached Hdown)).
      apply H.
    + assert (H : keeps waiting (Ai.process p ctx))
        by (unfold_Ai; repeat (keeps_unreached Hdown)).
      apply H.
  - destruct (dead_is_caught (ImageHandler.process p ctx) ImageHandler.failure s)
      as [message ->].
    { unfold_ImageHandler. repeat (dead_step Hdown). }
    exists message, (snd (ImageHandler.process p ctx s)).
    split; [reflexivity|].
    pose proof (ImageHandler_process_keeps p ctx) as [Hk Hw].
    split; [apply Hk | apply Hw].
Qed.

End Refusals.

(** ** From the submission to the poll *)

Section Lifecycle.
Import JS Sys Scenario Effects.

Lemma Ai_generateImage_accepted p ctx body r task s :
  json_post ctx body ->
  is_str (prop body "action") "generateImage" = true ->
  truthy (prop body "prompt") = true ->
  answers p (RUNWAY_API_BASE +:+ "/text_to_image") r ->
  ok r = true ->
  data r = VObj task ->
  Ai.onRequest p ctx s =
    (Returns (jsonResponse
                (VObj [("success", VBool true); ("taskId", assoc "id" task)]) 200),
     submitted (ctx_env ctx)
       (Ai.text_to_image_request p (ctx_env ctx)
          (prop body "prompt") (prop body "ratio"))
       (assoc "id" task) "image" s).
Proof.
  intros Hpost Ha Hp Hup Hok Hd.
  destruct (is_str_object _ _ _ Ha) as [props ->].
  rewrite Ai_post by apply Hpost.
  unfold try_catch. rewrite (Ai_process_json _ _ _ _ Hpost).
  cbn zeta. simpl in Ha. rewrite Ha.
  unfold Ai.generateImage, submitted. rewrite Hp. cbn [negb]. skip_unit.
  rewrite (bind_returns (fetch p _) _ s r (called _ s))
    by (apply fetch_replies, Hup; reflexivity).
  rewrite Hok, Hd. cbn [negb]. skip_unit.
  destruct (TASK_INFO_KV (ctx_env ctx)); reflexivity.
Qed.

Lemma settle_deletes key s :
  In key (waiting s) -> kv (settle s) !! key = None.
Proof.
  unfold settle. cbn [kv]. generalize (kv s) as m.
  induction (waiting s) as [|k l IH]; intros m Hin; [destruct Hin|].
  cbn [foldr]. destruct (decide (k = key)) as [->|Hne].
  - apply lookup_delete_eq.
  - rewrite lookup_delete_ne by assumption.
    destruct Hin as [Heq|Hin]; [contradiction | now apply IH].
Qed.

(** X15: the kind written at submission is the kind read at the poll.  With
    the namespace bound, a task started by "generateImage" and then polled
    when it has succeeded is answered with [imageUrl]; that poll leaves the
    deletion of the record pending, and once the deletion has run, the same
    poll is answered with [videoUrl]. *)
Theorem generate_then_poll p generate poll body r task taskId done s :
  json_post generate body ->
  is_str (prop body "action") "generateImage" = true ->
  truthy (prop body "prompt") = true ->
  answers p (RUNWAY_API_BASE +:+ "/text_to_image") r ->
  ok r = true ->
  data r = VObj task ->
  assoc "id" task = VStr taskId ->
  TASK_INFO_KV (ctx_env generate) = true ->
  status_action poll (VStr taskId) ->
  polled p (VStr taskId) (VObj done) ->
  assoc "status" done = VStr "SUCCEEDED" ->
  truthy (opt_first (assoc "output" done)) = true ->
  TASK_INFO_KV (ctx_env poll) = true ->
  let answer field :=
    Returns ({| rstatus := 200;
                rheaders := [("Content-Type", "application/json");
                             ("Access-Control-Allow-Origin", "*")];
                rbody := BJson
                  (VObj [("success", VBool true); ("status", VStr "SUCCEEDED");
                         ("progress", assoc "progress" done);
                         (field, opt_first (assoc "output" done))]) |}) in
  let s1 := snd (Ai.onRequest p generate s) in
  let s2 := snd (Ai.onRequest p poll s1) in
  fst (Ai.onRequest p poll s1) = answer "imageUrl" /\
  kv s2 !! taskId = Some (VObj [("type", VStr "image")]) /\
  kv (settle s2) !! taskId = None /\
  fst (Ai.onRequest p poll (settle s2)) = answer "videoUrl".
Proof.
  intros Hpost Ha Hp Hup Hok Hd Hid Hkv Hact Hpoll Hst Hout Hkv' answer s1 s2.
  assert (Hs1 : kv s1 !! taskId = Some (VObj [("type", VStr "image")])).
  { subst s1.
    rewrite (Ai_generateImage_accepted _ _ _ _ _ _ Hpost Ha Hp Hup Hok Hd).
    unfold submitted. rewrite Hkv, Hid. cbn. apply lookup_insert_eq. }
  assert (Hrun : Ai.onRequest p poll s1 = _)
    by exact (Ai_succeeded_with_store _ _ _ _ s1 Hact Hpoll Hst Hout Hkv').
  assert (Hgone : kv (settle s2) !! taskId = None).
  { apply settle_deletes. subst s2. rewrite Hrun. cbn.
    apply in_or_app. right. now left. }
  split; [|split; [|split]].
  - rewrite Hrun. cbn [fst ToString]. now rewrite Hs1.
  - subst s2. rewrite Hrun. exact Hs1.
  - exact Hgone.
  - rewrite (Ai_succeeded_with_store _ _ _ _ (settle s2) Hact Hpoll Hst Hout Hkv').
    cbn [fst ToString]. now rewrite Hgone.
Qed.

End Lifecycle.

(** * Further properties of the client *)

(** ** What a status response does to the poll *)

Section PollOutcomes.
Import JS App Browser.

Lemma examine_traffic a s :
  requests (snd (examine a s)) = requests s /\
  pending (snd (examine a s)) = pending s /\
  (interval (snd (examine a s)) = true -> interval s = true).
Proof.
  destruct a as [msg | ok [| | | | | |props]]; try (repeat split; tauto).
  all: unfold examine; cbn [prop];
    repeat match goal with
           | |- context [if ?b then _ else _] => destruct b
           end; repeat split; try tauto; try discriminate.
Qed.

Lemma resume_traffic a s :
  requests (resume a s) = requests s /\
  pending (resume a s) = pending s /\
  (interval (resume a s) = true -> interval s = true).
Proof.
  unfold resume. destruct (examine_traffic a s) as (Hr & Hp & Hi).
  destruct (examine a s) as [[message|] s']; cbn [snd] in *.
  - repeat split; try assumption. discriminate.
  - repeat split; assumption.
Qed.

Lemma resume_result ok statusData s :
  shows_result (Arrived ok statusData) = true ->
  interval (resume (Arrived ok statusData) s) = false /\
  modifiedImageUrl (resume (Arrived ok statusData) s) = prop statusData "imageUrl" /\
  isGenerating (resume (Arrived ok statusData) s) = false /\
  error (resume (Arrived ok statusData) s) = error s.
Proof.
  destruct ok, statusData as [| | | | | |props]; try discriminate.
  unfold shows_result. intros H.
  apply andb_true_iff in H as [H Hu]. apply andb_true_iff in H as [Hs Hst].
  unfold resume, examine. cbn [prop negb orb]. rewrite Hs, Hst, Hu.
  cbn. repeat split.
Qed.

Lemma resume_stops a s :
  in_progress a = false -> shows_result a = false ->
  interval (resume a s) = false /\
  modifiedImageUrl (resume a s) = modifiedImageUrl s /\
  isGenerating (resume a s) = false.
Proof.
  destruct a as [msg | [] [| | | | | |props]];
    try solve [intros; repeat split].
  unfold in_progress, shows_result, resume, examine. cbn [prop negb orb].
  destruct (truthy (assoc "success" props)); [|intros; repeat split].
  destruct (is_str (assoc "status" props) "SUCCEEDED").
  - destruct (truthy (assoc "imageUrl" props));
      [intros _ Hno; discriminate Hno|].
    intros; repeat split.
  - destruct (is_str (assoc "status" props) "FAILED");
      [|intros Hno; discriminate Hno].
    intros; repeat split.
Qed.

(** X16: every status response falls in one of three cases.  Taken as still
    in progress, it leaves the interval, the image, the error and the
    generating flag as they are.  Taken as the result, it sets the image to
    the [imageUrl] of the response, clears the interval and ends generating,
    with no error.  Anything else (a rejected request, an HTTP error,
    [success] false, FAILED, SUCCEEDED without [imageUrl]) clears the
    interval and ends generating, and leaves the image as it was. *)
Theorem poll_outcomes a s :
  (in_progress a = true ->
   interval (resume a s) = interval s /\
   modifiedImageUrl (resume a s) = modifiedImageUrl s /\
   isGenerating (resume a s) = isGenerating s /\
   error (resume a s) = error s) /\
  (shows_result a = true ->
   exists ok statusData,
     a = Arrived ok statusData /\
     interval (resume a s) = false /\
     modifiedImageUrl (resume a s) = prop statusData "imageUrl" /\
     isGenerating (resume a s) = false /\
     error (resume a s) = error s) /\
  (in_progress a = false -> shows_result a = false ->
   interval (resume a s) = false /\
   modifiedImageUrl (resume a s) = modifiedImageUrl s /\
   isGenerating (resume a s) = false).
Proof.
  split; [|split].
  - intros H. destruct (resume_in_progress a s H) as (? & ? & ? & ? & ? & ?).
    repeat split; assumption.
  - destruct a as [msg | ok statusData]; [discriminate|].
    intros H. exists ok, statusData. split; [reflexivity|].
    now apply resume_result.
  - apply resume_stops.
Qed.

Lemma step_traffic taskId s e :
  (interval (step taskId s e) = true -> interval s = true) /\
  (interval s = false -> requests (step taskId s e) = requests s).
Proof.
  destruct e as [|a]; cbn [step].
  - destruct (interval s) eqn:Hi; [split; [tauto | discriminate]|].
    split; [now rewrite Hi | reflexivity].
  - destruct (pending s) eqn:Hp; [split; [tauto | reflexivity]|].
    destruct (resume_traffic a (settled s)) as (Hr & _ & Hi).
    split; [exact Hi | intros _; exact Hr].
Qed.

(** X17: a cleared interval stays cleared: from then on no status request is
    sent, whatever ticks and late responses follow. *)
Theorem cleared_interval_sends_nothing taskId s es :
  interval s = false ->
  interval (run taskId s es) = false /\
  requests (run taskId s es) = requests s.
Proof.
  revert s. induction es as [|e es IH]; intros s Hi; [now split|].
  cbn [run fold_left]. destruct (step_traffic taskId s e) as [Hback Hreq].
  assert (Hi' : interval (step taskId s e) = false).
  { destruct (interval (step taskId s e)); [|reflexivity].
    rewrite Hback in Hi by reflexivity. discriminate. }
  destruct (IH _ Hi') as [H1 H2]. split; [exact H1|].
  unfold run in H2. rewrite H2. now apply Hreq.
Qed.

(** X18: every status request of a poll is for the task the poll was
    started with, and there are at most as many requests as ticks. *)
Theorem requests_follow_ticks taskId s es :
  exists n,
    (n <= ticks es)%nat /\
    requests (run taskId s es) = requests s ++ replicate n taskId.
Proof.
  revert s. induction es as [|e es IH]; intros s.
  - exists O. split; [lia|]. cbn. now rewrite app_nil_r.
  - cbn [run fold_left]. destruct (IH (step taskId s e)) as (n & Hn & Hr).
    unfold run in Hr. rewrite Hr.
    destruct e as [|a]; cbn [step].
    + cbn [ticks]. destruct (interval s).
      * exists (S n). split; [lia|]. cbn [send requests replicate].
        now rewrite <- app_assoc.
      * exists n. split; [lia | reflexivity].
    + cbn [ticks]. exists n. split; [exact Hn|]. f_equal.
      destruct (pending s); [reflexivity|].
      exact (proj1 (resume_traffic a (settled s))).
Qed.

(** X19: polling has no limit of its own: as long as every response is
    taken as in progress and arrives before the next tick, each tick sends
    one more request and the interval keeps running. *)
Theorem polls_as_long_as_in_progress taskId arrivals s :
  Forall (fun a => in_progress a = true) arrivals ->
  interval s = true ->
  pending s = O ->
  let s' := run taskId s (prompt_run arrivals) in
  interval s' = true /\
  pending s' = O /\
  requests s' = requests s ++ replicate (length arrivals) taskId /\
  isGenerating s' = isGenerating s /\
  modifiedImageUrl s' = modifiedImageUrl s.
Proof.
  intros Hall. revert s.
  induction Hall as [|a arrivals Ha _ IH]; intros s Hi Hp.
  - cbn. rewrite app_nil_r. repeat split; assumption.
  - cbn zeta. change (prompt_run (a :: arrivals))
      with ([Tick; Settle a] ++ prompt_run arrivals).
    rewrite run_app.
    destruct (round_in_progress taskId a s Ha Hi Hp)
      as (Hi1 & Hp1 & Hr1 & Hu1 & Hg1 & _).
    destruct (IH _ Hi1 Hp1) as (Hi2 & Hp2 & Hr2 & Hg2 & Hu2).
    rewrite Hi2, Hp2, Hr2, Hg2, Hu2, Hr1, Hg1, Hu1.
    cbn [length replicate]. rewrite <- app_assoc. repeat split.
Qed.

End PollOutcomes.

(** ** The answers of the handlers, as the poller takes them *)

Section EndToEnd.
Import JS Sys Scenario Effects Browser.

Lemma reparse_absent k props :
  forallb (fun kv => negb (String.eqb k (fst kv))) props = true ->
  prop (reparse (VObj props)) k = VUndefined.
Proof.
  induction props as [|[k' x] rest IH]; [reflexivity|].
  cbn [forallb fst]. intros H. apply andb_true_iff in H as [Hk Hrest].
  apply negb_true_iff in Hk. specialize (IH Hrest). cbn in IH.
  destruct x; cbn; rewrite ?Hk; exact IH.
Qed.

Lemma prop_reparse k props :
  distinct_keys props = true ->
  prop (reparse (VObj props)) k = seen (assoc k props).
Proof.
  induction props as [|[k' x] rest IH]; [reflexivity|].
  cbn [distinct_keys]. intros H. apply andb_true_iff in H as [Hk Hrest].
  specialize (IH Hrest). cbn in IH. cbn [assoc].
  destruct (String.eqb k k') eqn:Hkk.
  - apply String.eqb_eq in Hkk. subst k'.
    pose proof (reparse_absent k rest Hk) as Habs. cbn in Habs.
    destruct x; cbn; rewrite ?String.eqb_refl; try reflexivity. exact Habs.
  - destruct x; cbn; rewrite ?Hkk; exact IH.
Qed.

(** An infinity is truthy in the worker and arrives as null. *)
Lemma truthy_seen x :
  (forall negative, x <> VNum (Infinity negative)) ->
  truthy (seen x) = truthy x.
Proof.
  destruct x as [| | |[|negative|]| | |]; try reflexivity.
  intros H. now destruct (H negative).
Qed.

Lemma is_str_seen x lit : is_str (seen x) lit = is_str x lit.
Proof. destruct x as [| | |[| |]| | |]; reflexivity. Qed.

(** A JSON response of the worker arrives as an object whose properties are
    those of the payload, as [seen] through the wire. *)
Lemma received props status :
  distinct_keys props = true ->
  exists props',
    receive (jsonResponse (VObj props) status)
    = App.Arrived (ok_status status) (VObj props') /\
    forall k, assoc k props' = seen (assoc k props).
Proof.
  intros Hd. eexists. split; [reflexivity|].
  intros k. exact (prop_reparse k props Hd).
Qed.

Lemma status_call_is_status_action taskId e :
  key_present (RUNWAYML_API_KEY e) = true ->
  taskId <> "" ->
  status_action (status_call (VStr taskId) e) (VStr taskId).
Proof.
  intros Hk Hne. eexists. split; [|split; [|split]].
  - split; [split; [reflexivity | exact Hk]|]. repeat split.
  - reflexivity.
  - reflexivity.
  - cbn. now destruct (String.eqb_spec taskId "").
Qed.

Lemma Ai_succeeded_without_store p ctx taskId task s :
  status_action ctx taskId ->
  polled p taskId (VObj task) ->
  assoc "status" task = VStr "SUCCEEDED" ->
  truthy (opt_first (assoc "output" task)) = true ->
  TASK_INFO_KV (ctx_env ctx) = false ->
  Ai.onRequest p ctx s =
    (Returns (jsonResponse
                (VObj [("success", VBool true); ("status", VStr "SUCCEEDED");
                       ("progress", assoc "progress" task);
                       ("videoUrl", opt_first (assoc "output" task))]) 200),
     called (Ai.status_request (ctx_env ctx) taskId) s).
Proof.
  intros Hact Hpoll Hst Hout Hkv.
  rewrite (Ai_poll_relays _ _ _ _ _ Hact Hpoll).
  unfold try_catch, Ai.relay. cbn [member prop].
  unfold mbind, M_bind, mret, M_ret. now rewrite Hst, Hout, Hkv.
Qed.

Lemma Image_succeeded p ctx taskId task s :
  status_action ctx taskId ->
  polled p taskId (VObj task) ->
  assoc "status" task = VStr "SUCCEEDED" ->
  truthy (opt_first (assoc "output" task)) = true ->
  ImageHandler.onRequest p ctx s =
    (Returns (jsonResponse
                (VObj [("success", VBool true); ("status", VStr "SUCCEEDED");
                       ("progress", assoc "progress" task);
                       ("imageUrl", opt_first (assoc "output" task))]) 200),
     called (ImageHandler.status_request (ctx_env ctx) taskId) s).
Proof.
  intros Hact Hpoll Hst Hout.
  rewrite (Image_poll_relays _ _ _ _ _ Hact Hpoll).
  unfold try_catch, ImageHandler.relay. cbn [member prop].
  unfold mbind, M_bind, mret, M_ret.
  now rewrite Hst, Hout, (opt_first_truthy _ Hout).
Qed.

(** How the poller takes a payload without [imageUrl] that says SUCCEEDED. *)
Lemma no_imageUrl_is_an_error props st :
  distinct_keys props = true ->
  assoc "success" props = VBool true ->
  assoc "status" props = VStr "SUCCEEDED" ->
  assoc "imageUrl" props = VUndefined ->
  let st' := App.resume (receive (jsonResponse (VObj props) 200)) st in
  App.error st' = "Task succeeded but no image URL was returned." /\
  App.interval st' = false /\
  App.isGenerating st' = false /\
  App.modifiedImageUrl st' = App.modifiedImageUrl st.
Proof.
  intros Hd Hs Hst Hu.
  destruct (received props 200 Hd) as (props' & -> & Hread).
  cbn zeta. unfold App.resume, App.examine. cbn [ok_status Z.leb Z.compare andb
    Pos.compare Pos.compare_cont prop negb orb].
  rewrite !Hread, Hs, Hst, Hu. cbn. repeat split.
Qed.

(** X20: the answer of the image-to-image copy of the handler to the poll of
    a task that succeeded with the output [url] makes the poller show [url],
    clear the interval and end generating, with no error. *)
Theorem Image_result_reaches_client p e taskId task url more s st :
  key_present (RUNWAYML_API_KEY e) = true ->
  taskId <> "" ->
  polled p (VStr taskId) (VObj task) ->
  assoc "status" task = VStr "SUCCEEDED" ->
  assoc "output" task = VArr (VStr url :: more) ->
  url <> "" ->
  exists r s',
    ImageHandler.onRequest p (status_call (VStr taskId) e) s = (Returns r, s') /\
    let st' := App.resume (receive r) st in
    App.modifiedImageUrl st' = VStr url /\
    App.interval st' = false /\
    App.isGenerating st' = false /\
    App.error st' = App.error st.
Proof.
  intros Hk Hne Hpoll Hst Hout Hurl.
  assert (Hfirst : truthy (opt_first (assoc "output" task)) = true).
  { rewrite Hout. cbn. now destruct (String.eqb_spec url ""). }
  rewrite (Image_succeeded _ _ _ _ s
             (status_call_is_status_action _ _ Hk Hne) Hpoll Hst Hfirst).
  eexists _, _. split; [reflexivity|].
  match goal with
  | |- context [jsonResponse (VObj ?props) 200] =>
      destruct (received props 200 eq_refl) as (props' & -> & Hread)
  end.
  assert (Hshow : shows_result (App.Arrived (ok_status 200) (VObj props')) = true).
  { cbn [shows_result ok_status Z.leb Z.compare andb Pos.compare Pos.compare_cont].
    rewrite !Hread. cbn [assoc String.eqb Ascii.eqb Bool.eqb].
    rewrite Hout. cbn. now destruct (String.eqb_spec url ""). }
  destruct (resume_result _ _ st Hshow) as (Hi & Hu & Hg & He).
  cbn zeta. rewrite Hi, Hu, Hg, He. cbn [prop]. rewrite Hread.
  cbn [assoc String.eqb Ascii.eqb Bool.eqb]. rewrite Hout. repeat split.
Qed.

(** X21: unless the document stored for the task has the type "image", the
    answer of [functions/ai.js] to the poll of a task that succeeded with an
    output carries it as [videoUrl], and the poller, which only reads
    [imageUrl], stops with the error "Task succeeded but no image URL was
    returned." and shows nothing. *)
Theorem Ai_video_answer_is_an_error_for_the_client p e taskId task s st :
  key_present (RUNWAYML_API_KEY e) = true ->
  taskId <> "" ->
  polled p (VStr taskId) (VObj task) ->
  assoc "status" task = VStr "SUCCEEDED" ->
  truthy (opt_first (assoc "output" task)) = true ->
  TASK_INFO_KV e = false \/
    is_str (prop (default VNull (kv s !! taskId)) "type") "image" = false ->
  exists r s',
    Ai.onRequest p (status_call (VStr taskId) e) s = (Returns r, s') /\
    let st' := App.resume (receive r) st in
    App.error st' = "Task succeeded but no image URL was returned." /\
    App.interval st' = false /\
    App.isGenerating st' = false /\
    App.modifiedImageUrl st' = App.modifiedImageUrl st.
Proof.
  intros Hk Hne Hpoll Hst Hout Hkind.
  pose proof (status_call_is_status_action _ _ Hk Hne) as Hact.
  destruct (TASK_INFO_KV e) eqn:Hkv.
  - destruct Hkind as [Hkind|Hkind]; [discriminate|].
    rewrite (Ai_succeeded_with_store _ _ _ _ s Hact Hpoll Hst Hout Hkv).
    cbn [ToString]. rewrite Hkind.
    eexists _, _. split; [reflexivity|].
    now apply no_imageUrl_is_an_error.
  - rewrite (Ai_succeeded_without_store _ _ _ _ s Hact Hpoll Hst Hout Hkv).
    eexists _, _. split; [reflexivity|].
    now apply no_imageUrl_is_an_error.
Qed.

(** X22: a task that succeeded with an empty output stops the poller with an
    error under either handler: under the image-to-image copy it is the
    handler's "Task succeeded but output was empty.", sent with status 200;
    under [functions/ai.js], which relays the task as if in progress, it is
    the poller's own "Task succeeded but no image URL was returned.". *)
Theorem empty_output_stops_the_client p e taskId task s st :
  key_present (RUNWAYML_API_KEY e) = true ->
  taskId <> "" ->
  polled p (VStr taskId) (VObj task) ->
  assoc "status" task = VStr "SUCCEEDED" ->
  assoc "output" task = VArr [] ->
  (exists r s',
     ImageHandler.onRequest p (status_call (VStr taskId) e) s = (Returns r, s') /\
     rstatus r = 200 /\
     let st' := App.resume (receive r) st in
     App.error st' = "Task succeeded but output was empty." /\
     App.interval st' = false /\ App.isGenerating st' = false) /\
  (exists r s',
     Ai.onRequest p (status_call (VStr taskId) e) s = (Returns r, s') /\
     let st' := App.resume (receive r) st in
     App.error st' = "Task succeeded but no image URL was returned." /\
     App.interval st' = false /\ App.isGenerating st' = false).
Proof.
  intros Hk Hne Hpoll Hst Hout.
  pose proof (status_call_is_status_action _ _ Hk Hne) as Hact.
  split.
  - rewrite (Image_poll_relays _ _ _ _ _ Hact Hpoll).
    unfold try_catch, ImageHandler.relay. cbn [member prop].
    unfold mbind, M_bind, mret, M_ret. rewrite Hst, Hout.
    eexists _, _. split; [reflexivity|]. repeat split.
  - rewrite (Ai_poll_relays _ _ _ _ _ Hact Hpoll).
    unfold try_catch, Ai.relay. cbn [member prop].
    unfold mbind, M_bind, mret, M_ret. rewrite Hst, Hout.
    eexists _, _. split; [reflexivity|].
    cbn [is_str String.eqb Ascii.eqb Bool.eqb andb opt_first truthy].
    destruct (no_imageUrl_is_an_error
                [("success", VBool true); ("status", VStr "SUCCEEDED");
                 ("progress", assoc "progress" task)] st
                eq_refl eq_refl eq_refl eq_refl) as (He & Hi & Hg & _).
    repeat split; assumption.
Qed.

(** X23: the handlers relay the status and the progress of a task and
    nothing else, so a FAILED task stops the poller with the fixed message
    "Image generation failed" whatever the task says about its failure. *)
Theorem failure_reason_is_not_relayed p e taskId task s st :
  key_present (RUNWAYML_API_KEY e) = true ->
  taskId <> "" ->
  polled p (VStr taskId) (VObj task) ->
  assoc "status" task = VStr "FAILED" ->
  let stopped r :=
    let st' := App.resume (receive r) st in
    App.error st' = "Image generation failed" /\
    App.interval st' = false /\ App.isGenerating st' = false in
  (exists r s',
     Ai.onRequest p (status_call (VStr taskId) e) s = (Returns r, s') /\
     stopped r) /\
  (exists r s',
     ImageHandler.onRequest p (status_call (VStr taskId) e) s = (Returns r, s') /\
     stopped r).
Proof.
  intros Hk Hne Hpoll Hst stopped.
  pose proof (status_call_is_status_action _ _ Hk Hne) as Hact.
  assert (Hstop : stopped
    (jsonResponse (VObj [("success", VBool true); ("status", VStr "FAILED");
                         ("progress", assoc "progress" task)]) 200)).
  { subst stopped. cbv beta.
    match goal with
    | |- context [jsonResponse (VObj ?props) 200] =>
        destruct (received props 200 eq_refl) as (props' & -> & Hread)
    end.
    cbn zeta. unfold App.resume, App.examine.
    cbn [ok_status Z.leb Z.compare andb Pos.compare Pos.compare_cont prop negb
         orb opt_prop].
    rewrite !Hread. cbn. repeat split. }
  split.
  - rewrite (Ai_poll_relays _ _ _ _ _ Hact Hpoll).
    unfold try_catch, Ai.relay. cbn [member prop].
    unfold mbind, M_bind, mret, M_ret. rewrite Hst.
    eexists _, _. split; [reflexivity | exact Hstop].
  - rewrite (Image_poll_relays _ _ _ _ _ Hact Hpoll).
    unfold try_catch, ImageHandler.relay. cbn [member prop].
    unfold mbind, M_bind, mret, M_ret. rewrite Hst.
    eexists _, _. split; [reflexivity | exact Hstop].
Qed.

(** How the client takes the error envelope, as the answer to a poll and as
    the answer to an upload. *)
Lemma envelope_is_shown message st c :
  message <> "" ->
  let r := jsonResponse (VObj [("success", VBool false); ("error", VStr message)])
             500 in
  (let st' := App.resume (receive r) st in
   App.error st' = message /\
   App.interval st' = false /\
   App.isGenerating st' = false /\
   App.modifiedImageUrl st' = App.modifiedImageUrl st) /\
  (let c' := Client.uploaded (receive r) c in
   App.error (Client.shown c') = message /\
   App.isGenerating (Client.shown c') = false /\
   App.interval (Client.shown c') = App.interval (Client.shown c) /\
   Client.stray c' = Client.stray c /\
   App.requests (Client.shown c') = App.requests (Client.shown c)).
Proof.
  intros Hne r. subst r.
  assert (Ht : negb (message =? "")%string = true)
    by (now destruct (String.eqb_spec message "")).
  split; cbn; unfold or_else; cbn; rewrite Ht; repeat split.
Qed.

(** X24: whatever makes a handler throw while it processes a POST (a missing
    field, an unknown action, an upstream refusal, a network failure), the
    message of the error is what the client shows: answering a poll it stops
    the poller with that error, answering an upload it ends generating with
    that error and starts no poll. *)
Theorem thrown_error_is_shown p ctx message s st c :
  keyed_post ctx ->
  message <> "" ->
  let shown_by r :=
    rstatus r = 500 /\
    (let st' := App.resume (receive r) st in
     App.error st' = message /\ App.interval st' = false /\
     App.isGenerating st' = false) /\
    (let c' := Client.uploaded (receive r) c in
     App.error (Client.shown c') = message /\
     App.isGenerating (Client.shown c') = false /\
     App.interval (Client.shown c') = App.interval (Client.shown c) /\
     Client.stray c' = Client.stray c) in
  (fst (Ai.process p ctx s) = Throws message ->
   exists r s', Ai.onRequest p ctx s = (Returns r, s') /\ shown_by r) /\
  (fst (ImageHandler.process p ctx s) = Throws message ->
   exists r s', ImageHandler.onRequest p ctx s = (Returns r, s') /\ shown_by r).
Proof.
  intros Hkeyed Hne shown_by.
  assert (Henv : shown_by (jsonResponse
            (VObj [("success", VBool false); ("error", VStr message)]) 500)).
  { destruct (envelope_is_shown message st c Hne)
      as [(He & Hi & Hg & _) (He' & Hg' & Hi' & Hs' & _)].
    subst shown_by. cbv beta. split; [reflexivity|]. split; repeat split;
      assumption. }
  rewrite Ai_post, Image_post by assumption.
  split; intros Hthrow.
  - destruct (caught_or_built (Ai.process p ctx) Ai.failure s
                (Ai_process_built p ctx)) as (r & s' & -> & _ & Hr).
    exists r, s'. split; [reflexivity|]. now rewrite (Hr _ Hthrow).
  - destruct (caught_or_built (ImageHandler.process p ctx) ImageHandler.failure s
                (Image_process_built p ctx)) as (r & s' & -> & _ & Hr).
    exists r, s'. split; [reflexivity|]. now rewrite (Hr _ Hthrow).
Qed.

(** X25: the image the client uploads to [functions/ai.js] becomes a video
    job there, if it gets that far.  With the form the client sends (prompt,
    image, ratio), a file whose bytes fit in the arguments of one call and
    an upstream that accepts the job, the handler records the task as a video
    when the namespace is bound, and bound or not it answers the poll of the
    succeeded task with [videoUrl]: the client ends with the error "Task
    succeeded but no image URL was returned." and never shows the result.
    With a file whose bytes do not fit, the upload is answered 500 and the
    client shows the message of the [RangeError] and starts no poll. *)
Theorem own_upload_is_polled_as_video
    p e boundary prompt file ratio r task taskId done s st c :
  key_present (RUNWAYML_API_KEY e) = true ->
  prompt <> "" ->
  let form := [("prompt", FText prompt); ("image", FFile file);
               ("ratio", FText ratio)] in
  let upload := Ai.onRequest p (upload_call form boundary e) s in
  (Z.of_nat (length (bytes file)) <= max_arguments p ->
   answers p (RUNWAY_API_BASE +:+ "/image_to_video") r ->
   ok r = true ->
   data r = VObj task ->
   assoc "id" task = VStr taskId ->
   taskId <> "" ->
   polled p (VStr taskId) (VObj done) ->
   assoc "status" done = VStr "SUCCEEDED" ->
   truthy (opt_first (assoc "output" done)) = true ->
   let s1 := snd upload in
   (TASK_INFO_KV e = true ->
    kv s1 !! taskId = Some (VObj [("type", VStr "video")])) /\
   exists answer s2,
     Ai.onRequest p (status_call (VStr taskId) e) s1 = (Returns answer, s2) /\
     (exists payload, rbody answer = BJson payload /\
        prop payload "videoUrl" = opt_first (assoc "output" done) /\
        prop payload "imageUrl" = VUndefined) /\
     let st' := App.resume (receive answer) st in
     App.error st' = "Task succeeded but no image URL was returned." /\
     App.interval st' = false /\
     App.isGenerating st' = false /\
     App.modifiedImageUrl st' = App.modifiedImageUrl st) /\
  (max_arguments p < Z.of_nat (length (bytes file)) ->
   exists answer,
     upload = (Returns answer, s) /\
     rstatus answer = 500 /\
     let c' := Client.uploaded (receive answer) c in
     App.error (Client.shown c') = "Maximum call stack size exceeded" /\
     App.isGenerating (Client.shown c') = false /\
     App.interval (Client.shown c') = App.interval (Client.shown c) /\
     Client.polling c' = Client.polling c /\
     Client.stray c' = Client.stray c).
Proof.
  intros Hk Hp form upload.
  assert (Hpost : multipart_post (upload_call form boundary e) form).
  { split; [split; [reflexivity | exact Hk]|]. split; reflexivity. }
  assert (Hprompt : form_truthy (form_get "prompt" form) = true).
  { cbn. now destruct (String.eqb_spec prompt ""). }
  split.
  - intros Hfit Hup Hok Hd Hid Hne Hpoll Hst Hout s1.
    assert (Hs1 : exists sent,
               s1 = submitted e sent (VStr taskId) "video" s).
    { subst s1 upload. rewrite Ai_post by apply Hpost. unfold try_catch.
      rewrite (Ai_upload_starts_job _ _ _ file _ Hpost Hprompt eq_refl Hfit).
      erewrite startImageToVideoJob_accepted;
        [| apply Hup; reflexivity | exact Hok | exact Hd].
      rewrite Hid. eexists. reflexivity. }
    destruct Hs1 as [sent Hs1].
    pose proof (status_call_is_status_action _ _ Hk Hne) as Hact.
    split.
    + intros Hkv. rewrite Hs1. unfold submitted. rewrite Hkv.
      cbn. apply lookup_insert_eq.
    + destruct (TASK_INFO_KV e) eqn:Hkv.
      * rewrite (Ai_succeeded_with_store _ _ _ _ s1 Hact Hpoll Hst Hout Hkv).
        assert (Hrec : kv s1 !! ToString (VStr taskId)
                       = Some (VObj [("type", VStr "video")])).
        { rewrite Hs1. unfold submitted. rewrite Hkv. cbn.
          apply lookup_insert_eq. }
        rewrite Hrec. cbn [default from_option prop assoc is_str String.eqb
                           Ascii.eqb Bool.eqb].
        eexists _, _. split; [reflexivity|]. split.
        -- eexists. split; [reflexivity|]. split; reflexivity.
        -- now apply no_imageUrl_is_an_error.
      * rewrite (Ai_succeeded_without_store _ _ _ _ s1 Hact Hpoll Hst Hout Hkv).
        eexists _, _. split; [reflexivity|]. split.
        -- eexists. split; [reflexivity|]. split; reflexivity.
        -- now apply no_imageUrl_is_an_error.
  - intros Hbig. subst upload. rewrite Ai_post by apply Hpost.
    unfold try_catch.
    rewrite (Ai_upload_too_large p _ form file s Hpost Hprompt eq_refl Hbig).
    eexists. split; [reflexivity|]. split; [reflexivity|].
    cbn. repeat split.
Qed.

End EndToEnd.

(** ** The component *)

Section Component.
Import JS Sys Browser Client.

Lemma handleFileSelect_cases picked c :
  let c' := handleFileSelect picked c in
  (polling c' = polling c /\ stray c' = stray c /\ uploads c' = uploads c /\
   uploading c' = uploading c /\ prompt c' = prompt c /\
   App.interval (shown c') = App.interval (shown c) /\
   App.requests (shown c') = App.requests (shown c) /\
   App.pending (shown c') = App.pending (shown c)) /\
  ((exists file, picked = Some file /\ valid_file file = true /\
      selectedFile c' = Some file /\ previewUrl c' = Some file) \/
   (selectedFile c' = selectedFile c /\ previewUrl c' = previewUrl c)).
Proof.
  destruct picked as [file|]; cbn zeta; [|split; [repeat split | now right]].
  unfold handleFileSelect.
  destruct (existsb (String.eqb (type file)) validTypes) eqn:Htype;
    cbn [negb]; [|split; [repeat split | now right]].
  destruct (maxSize <? size file) eqn:Hsize;
    [split; [repeat split | now right]|].
  split; [repeat split|]. left. exists file.
  split; [reflexivity|]. split; [|split; reflexivity].
  unfold valid_file. rewrite Htype. apply Z.ltb_ge in Hsize.
  now apply Z.leb_le in Hsize.
Qed.

Lemma uploaded_keeps_form a c :
  selectedFile (uploaded a c) = selectedFile c /\
  previewUrl (uploaded a c) = previewUrl c /\
  uploads (uploaded a c) = uploads c /\
  exists more, stray (uploaded a c) = stray c ++ more.
Proof.
  unfold uploaded.
  destruct a as [msg | ok [| | | | | |props]];
    try solve [repeat split; exists []; now rewrite app_nil_r].
  all: destruct (negb ok || negb (truthy _));
    try solve [repeat split; exists []; now rewrite app_nil_r].
  all: repeat split; unfold pollForStatus; cbn [stray];
    destruct (App.interval _); eauto; exists []; now rewrite app_nil_r.
Qed.

Lemma step_sound c e : sound c -> sound (step c e).
Proof.
  intros Hc. pose proof Hc as (Hsel & Hprev & Hup).
  destruct e as [picked| | text | r | | a | | i | a]; cbn [step];
    try exact Hc.
  - destruct (handleFileSelect_cases picked c)
      as [(_ & _ & Hu & _) [(file & _ & Hv & Hs & Hp) | (Hs & Hp)]];
      cbn zeta in *; unfold sound; rewrite Hu, Hs, Hp.
    + split; [|split; [reflexivity | exact Hup]]. now intros f [= <-].
    + exact Hc.
  - split; [discriminate | split; [reflexivity | exact Hup]].
  - unfold generateModifiedImage.
    destruct (selectedFile c) as [file|] eqn:Hfile; [|exact Hc].
    destruct (negb (truthy (VStr (trim (prompt c))))) eqn:Hblank; [exact Hc|].
    split; [exact (proj1 Hc)|]. split; [exact (proj1 (proj2 Hc))|].
    cbn [uploads]. apply Forall_app. split; [exact Hup|].
    constructor; [|constructor].
    exists (prompt c), file, (ratio c). split; [reflexivity|].
    split; [|now apply Hsel].
    cbn in Hblank. apply negb_false_iff, negb_true_iff in Hblank.
    intros Heq. rewrite Heq in Hblank. discriminate.
  - destruct (uploading c) as [|n]; [exact Hc|].
    match goal with
    | |- sound (uploaded a ?c0) =>
        destruct (uploaded_keeps_form a c0) as (Hs & Hp & Hu & _)
    end.
    unfold sound. rewrite Hs, Hp, Hu. exact Hc.
  - destruct (stray c !! i); exact Hc.
Qed.

Lemma run_sound c es : sound c -> sound (run c es).
Proof.
  revert c. induction es as [|e es IH]; intros c H; [exact H|].
  cbn [run fold_left]. apply IH, step_sound, H.
Qed.

Lemma mounted_sound : sound mounted.
Proof. split; [discriminate | split; [reflexivity | constructor]]. Qed.

(** X26: whatever the user, the timers and the network do after the
    component is mounted, a selected file is always one of the four listed
    types and of at most 10 MiB, and the preview shows that file. *)
Theorem selected_file_is_valid es file :
  selectedFile (run mounted es) = Some file ->
  existsb (String.eqb (type file)) validTypes = true /\
  size file <= 10485760 /\
  previewUrl (run mounted es) = Some file.
Proof.
  intros Hsel. destruct (run_sound mounted es mounted_sound) as (Hv & Hp & _).
  specialize (Hv _ Hsel). unfold valid_file in Hv.
  apply andb_true_iff in Hv as [Ht Hs]. apply Z.leb_le in Hs.
  split; [exact Ht|]. split; [exact Hs | now rewrite Hp].
Qed.

(** X27: every upload the component ever sends has the three fields prompt,
    image and ratio, a prompt that is not blank and a file that
    [handleFileSelect] accepted; without a selected file or with a blank
    prompt [generateModifiedImage] sends nothing and shows an error. *)
Theorem uploads_are_well_formed es c :
  Forall well_formed (uploads (run mounted es)) /\
  (selectedFile c = None \/ trim (prompt c) = "" ->
   uploads (generateModifiedImage c) = uploads c /\
   uploading (generateModifiedImage c) = uploading c /\
   App.error (shown (generateModifiedImage c))
   = "Please upload an image and provide a modification prompt.").
Proof.
  split; [apply (run_sound mounted es mounted_sound)|].
  unfold generateModifiedImage.
  intros [Hno | Hblank].
  - rewrite Hno. repeat split.
  - destruct (selectedFile c); [|repeat split].
    rewrite Hblank. repeat split.
Qed.

Lemma step_stray c e : exists more, stray (step c e) = stray c ++ more.
Proof.
  destruct e as [picked| | text | r | | a | | i | a]; cbn [step];
    try solve [exists []; now rewrite app_nil_r].
  - destruct (handleFileSelect_cases picked c) as [(_ & -> & _) _].
    exists []. now rewrite app_nil_r.
  - unfold generateModifiedImage.
    destruct (selectedFile c); [|exists []; now rewrite app_nil_r].
    destruct (negb _); exists []; now rewrite app_nil_r.
  - destruct (uploading c) as [|n]; [exists []; now rewrite app_nil_r|].
    match goal with
    | |- context [uploaded a ?c0] =>
        destruct (uploaded_keeps_form a c0) as (_ & _ & _ & more & ->)
    end.
    now exists more.
  - destruct (stray c !! i); exists []; now rewrite app_nil_r.
Qed.

Lemma run_stray c es : exists more, stray (run c es) = stray c ++ more.
Proof.
  revert c. induction es as [|e es IH]; intros c.
  - exists []. now rewrite app_nil_r.
  - cbn [run fold_left]. destruct (IH (step c e)) as [more2 H2].
    destruct (step_stray c e) as [more1 H1].
    exists (more1 ++ more2). unfold run in H2.
    now rewrite H2, H1, <- app_assoc.
Qed.

Lemma cleanup_stray c : stray (cleanup c) = stray c.
Proof. unfold cleanup. now destruct (App.interval (shown c)). Qed.

(** X28: an interval that is no longer held in [pollIntervalRef] is never
    cleared: whatever happens afterwards, unmounting included, it stays in
    the list of running intervals, and each of its ticks sends a status
    request for its task. *)
Theorem stray_intervals_are_never_cleared c es :
  (exists more, stray (cleanup (run c es)) = stray c ++ more) /\
  (forall i taskId,
     stray c !! i = Some taskId ->
     App.requests (shown (step c (StrayTick i)))
     = App.requests (shown c) ++ [taskId]).
Proof.
  split.
  - rewrite cleanup_stray. apply run_stray.
  - intros i taskId Hi. cbn [step]. now rewrite Hi.
Qed.

(** X29: a job started while the poll of an earlier job is running orphans
    that poll: when the upload is accepted with the interval running, the
    earlier task moves to the stray intervals, the new task takes its place,
    and the earlier one is still being polled after anything that follows,
    unmounting included. *)
Theorem second_job_orphans_the_first c ok data es :
  App.interval (shown c) = true ->
  ok = true ->
  truthy (prop data "success") = true ->
  let c' := uploaded (App.Arrived ok data) c in
  polling c' = prop data "taskId" /\
  App.interval (shown c') = true /\
  stray c' = stray c ++ [polling c] /\
  In (polling c) (stray (cleanup (run c' es))).
Proof.
  intros Hi -> Hs c'.
  assert (Hc' : c' = pollForStatus (prop data "taskId")
                       (setStatus "Job started, processing image..." c)).
  { subst c'. unfold uploaded.
    destruct data as [| | | | | |props]; try discriminate Hs.
    cbn [negb orb]. now rewrite Hs. }
  assert (Hstray : stray c' = stray c ++ [polling c]).
  { rewrite Hc'. unfold pollForStatus. cbn [stray shown setStatus with_shown].
    cbn [App.setStatus App.interval]. now rewrite Hi. }
  split; [now rewrite Hc'|]. split; [now rewrite Hc'|]. split; [exact Hstray|].
  rewrite cleanup_stray. destruct (run_stray c' es) as [more ->].
  rewrite Hstray. apply in_or_app. left. apply in_or_app. right. now left.
Qed.

Lemma form_event_keeps_poll c e :
  is_form_event e = true ->
  polling (step c e) = polling c /\
  stray (step c e) = stray c /\
  App.interval (shown (step c e)) = App.interval (shown c) /\
  App.requests (shown (step c e)) = App.requests (shown c) /\
  App.pending (shown (step c e)) = App.pending (shown c).
Proof.
  destruct e as [picked| | text | r | | a | | i | a]; try discriminate;
    intros _; cbn [step]; try solve [repeat split].
  destruct (handleFileSelect_cases picked c)
    as [(H1 & H2 & _ & _ & _ & H3 & H4 & H5) _].
  repeat split; assumption.
Qed.

(** X30: choosing a file, removing it, typing the prompt or picking the
    ratio never stops a running poll: the interval, its task and the
    requests sent are as before, and a result that arrives afterwards is
    shown although the form has changed. *)
Theorem form_events_do_not_stop_the_poll c es ok statusData :
  Forall (fun e => is_form_event e = true) es ->
  let c1 := run c es in
  (polling c1 = polling c /\
   stray c1 = stray c /\
   App.interval (shown c1) = App.interval (shown c) /\
   App.requests (shown c1) = App.requests (shown c)) /\
  (App.interval (shown c) = true ->
   App.pending (shown c) = O ->
   shows_result (App.Arrived ok statusData) = true ->
   let c2 := run c1 [Tick; Settle (App.Arrived ok statusData)] in
   App.modifiedImageUrl (shown c2) = prop statusData "imageUrl" /\
   App.requests (shown c2) = App.requests (shown c) ++ [polling c] /\
   App.interval (shown c2) = false).
Proof.
  intros Hall.
  assert (Hkeep : polling (run c es) = polling c /\
                  stray (run c es) = stray c /\
                  App.interval (shown (run c es)) = App.interval (shown c) /\
                  App.requests (shown (run c es)) = App.requests (shown c) /\
                  App.pending (shown (run c es)) = App.pending (shown c)).
  { revert c. induction Hall as [|e es He _ IH]; intros c; [repeat split|].
    cbn [run fold_left].
    destruct (form_event_keeps_poll c e He) as (H1 & H2 & H3 & H4 & H5).
    destruct (IH (step c e)) as (I1 & I2 & I3 & I4 & I5).
    unfold run in *. rewrite I1, I2, I3, I4, I5. repeat split; assumption. }
  destruct Hkeep as (Hp & Hs & Hi & Hr & Hn).
  cbn zeta. split; [repeat split; assumption|].
  intros Hon Hnone Hshow.
  cbn [run fold_left step App.step shown with_shown polling].
  rewrite Hi, Hon. cbn [App.pending App.send].
  destruct (resume_result ok statusData
              (App.settled (App.send (polling (run c es)) (shown (run c es))))
              Hshow) as (Hi' & Hu' & _ & _).
  rewrite Hi', Hu'.
  split; [reflexivity|]. split; [|reflexivity].
  rewrite (proj1 (resume_traffic _ _)). cbn. now rewrite Hr, Hp.
Qed.

End Component.

(** ** The further properties at concrete requests *)

Section FurtherInstances.
Import JS Sys Scenario Effects Browser Sample Cases.

Ltac is_status_action body :=
  exists body; repeat split; reflexivity.

Ltac is_polled :=
  eexists; split; [intros rq _; reflexivity | split; reflexivity].

(** X5 at the poll of a running task. *)
Lemma unfinished_poll_at_task1 :
  Ai.onRequest (replying running_task) (post_json status_of_task1 (with_key true))
    holding_image_record
  = (Returns ({| rstatus := 200;
                 rheaders := [("Content-Type", "application/json");
                              ("Access-Control-Allow-Origin", "*")];
                 rbody := BJson
                   (VObj [("success", VBool true); ("status", VStr "RUNNING");
                          ("progress", VNum (Dec 4 1))]) |}),
     called (Ai.status_request (with_key true) (VStr "task-1"))
       holding_image_record).
Proof.
  apply (unfinished_poll_is_read_only (replying running_task)
           (post_json status_of_task1 (with_key true)) (VStr "task-1")
           [("id", VStr "task-1"); ("status", VStr "RUNNING");
            ("progress", VNum (Dec 4 1))] holding_image_record).
  - is_status_action status_of_task1.
  - is_polled.
  - reflexivity.
Defined.

(** X6 at the poll of a task recorded as an image. *)
Lemma stored_image_at_task1 :
  exists s',
    Ai.onRequest (replying succeeded_png)
      (post_json status_of_task1 (with_key true)) holding_image_record
    = (Returns ({| rstatus := 200;
                   rheaders := [("Content-Type", "application/json");
                                ("Access-Control-Allow-Origin", "*")];
                   rbody := BJson
                     (VObj [("success", VBool true); ("status", VStr "SUCCEEDED");
                            ("progress", VUndefined);
                            ("imageUrl", VStr "https://x/y.png")]) |}), s') /\
    kv s' = kv holding_image_record /\
    waiting s' = waiting holding_image_record ++ ["task-1"] /\
    fetched s' = fetched holding_image_record
                 ++ [Ai.status_request (with_key true) (VStr "task-1")].
Proof.
  apply (field_follows_stored_kind (replying succeeded_png)
           (post_json status_of_task1 (with_key true)) (VStr "task-1")
           [("id", VStr "task-1"); ("status", VStr "SUCCEEDED");
            ("output", VArr [VStr "https://x/y.png"])] holding_image_record).
  - is_status_action status_of_task1.
  - is_polled.
  - reflexivity.
  - reflexivity.
  - reflexivity.
Defined.

(** X7 at a small file. *)
Lemma spread_of_png :
  Z.of_nat (length (bytes png)) <= max_arguments (replying VNull) /\
  spread_fromCharCode (replying VNull) (bytes png) fresh
  = (Returns (ImageHandler.binary_of (bytes png)), fresh).
Proof.
  split; [vm_compute; discriminate|].
  apply (loop_builds_the_spread (replying VNull) png fresh).
  vm_compute. discriminate.
Defined.

(** The same file in an engine that takes three arguments. *)
Example spread_of_png_cramped :
  fst (Ai.onRequest cramped (post_form cat_form (with_key true)) fresh)
  = Returns (jsonResponse (Ai.failure "Maximum call stack size exceeded") 500) /\
  fetched (snd (Ai.onRequest cramped (post_form cat_form (with_key true)) fresh))
  = [] /\
  fst (ImageHandler.onRequest cramped (post_form cat_form (with_key true)) fresh)
  = Returns (jsonResponse (VObj [("success", VBool true);
                                 ("taskId", VStr "task-1")]) 200).
Proof. repeat split. Qed.

(** X8 at a video started from a URL, without duration and ratio. *)
Lemma video_from_url_defaults :
  exists sent b,
    Ai.onRequest (replying accepted_job)
      (post_json video_from_url (with_key true)) fresh
    = (Returns ({| rstatus := 200;
                   rheaders := [("Content-Type", "application/json");
                                ("Access-Control-Allow-Origin", "*")];
                   rbody := BJson
                     (VObj [("success", VBool true); ("taskId", VStr "task-1");
                            ("status", VStr "PENDING")]) |}),
       submitted (with_key true) sent (VStr "task-1") "video" fresh) /\
    url sent = RUNWAY_API_BASE +:+ "/image_to_video" /\
    fbody sent = Some b /\
    prop b "promptImage" = VStr "https://x/y.png" /\
    prop b "promptText" = VStr "a cat runs" /\
    prop b "duration" = VNum (Int 5) /\
    prop b "ratio" = VStr "1280:720".
Proof.
  destruct (startVideoFromUrl_starts_job (replying accepted_job)
              (post_json video_from_url (with_key true)) video_from_url
              {| ok := true; status := 200; statusText := "OK";
                 data := accepted_job |}
              [("id", VStr "task-1"); ("status", VStr "PENDING")] fresh)
    as (sent & b & Hrun & Hurl & Hb & Hi & Hp & Hd & _ & Hr & _).
  - repeat split; reflexivity.
  - reflexivity.
  - reflexivity.
  - reflexivity.
  - intros rq _. reflexivity.
  - reflexivity.
  - reflexivity.
  - exists sent, b. rewrite Hrun, Hurl, Hb, Hi, Hp, (Hd eq_refl), (Hr eq_refl).
    repeat split.
Defined.

(** A duration given as text is read by [parseInt], one given as a number
    is written out first. *)
Example video_from_url_durations :
  let sent duration :=
    option_map (fun rq => option_map (fun b => prop b "duration") (fbody rq))
      (last (fetched (snd (Ai.onRequest (replying accepted_job)
               (post_json (VObj [("action", VStr "startVideoFromUrl");
                                 ("videoPrompt", VStr "a cat runs");
                                 ("imageUrl", VStr "https://x/y.png");
                                 ("duration", duration)])
                  (with_key true)) fresh)))) in
  sent (VStr "10 seconds") = Some (Some (VNum (Int 10))) /\
  sent (VStr "long") = Some (Some (VNum NaN)) /\
  sent (VNum (Int 10)) = Some (Some (VNum (Int 10))) /\
  sent (VNum (Dec 1 7)) = Some (Some (VNum (Int 1))).
Proof. repeat split. Qed.

(** X9 at the upload of a small file. *)
Lemma Ai_upload_of_png :
  exists sent,
    Ai.onRequest (replying accepted_job) (post_form cat_form (with_key true)) fresh
    = (Returns ({| rstatus := 200;
                   rheaders := [("Content-Type", "application/json");
                                ("Access-Control-Allow-Origin", "*")];
                   rbody := BJson
                     (VObj [("success", VBool true); ("taskId", VStr "task-1");
                            ("status", VStr "PENDING")]) |}),
       submitted (with_key true) sent (VStr "task-1") "video" fresh) /\
    url sent = RUNWAY_API_BASE +:+ "/image_to_video" /\
    option_map (fun b => prop b "promptImage") (fbody sent)
      = Some (VStr "data:image/png;base64,iVBORw==") /\
    option_map (fun b => prop b "promptText") (fbody sent)
      = Some (VStr "a cat") /\
    option_map (fun b => prop b "watermark") (fbody sent) = Some (VBool false).
Proof.
  apply (Ai_upload_starts_video_job (replying accepted_job)
           (post_form cat_form (with_key true)) cat_form png
           {| ok := true; status := 200; statusText := "OK";
              data := accepted_job |}
           [("id", VStr "task-1"); ("status", VStr "PENDING")] fresh).
  - repeat split; reflexivity.
  - reflexivity.
  - reflexivity.
  - vm_compute. discriminate.
  - intros rq _. reflexivity.
  - reflexivity.
  - reflexivity.
Defined.


(** X11 at a poll the upstream refuses with an error of its own. *)
Lemma refused_poll_at_task1 :
  Ai.onRequest (refusing (VObj [("error", VStr "Task not found.")]))
    (post_json status_of_task1 (with_key true)) fresh
  = (Returns ({| rstatus := 500;
                 rheaders := [("Content-Type", "application/json");
                              ("Access-Control-Allow-Origin", "*")];
                 rbody := BJson
                   (VObj [("success", VBool false);
                          ("error", VStr "Status check failed: Task not found.")]) |}),
     called (Ai.status_request (with_key true) (VStr "task-1")) fresh) /\
  ImageHandler.onRequest (refusing (VObj [("error", VStr "Task not found.")]))
    (post_json status_of_task1 (with_key true)) fresh
  = (Returns ({| rstatus := 500;
                 rheaders := [("Content-Type", "application/json");
                              ("Access-Control-Allow-Origin", "*")];
                 rbody := BJson
                   (VObj [("success", VBool false);
                          ("error", VStr "Status check failed: Task not found.")]) |}),
     called (ImageHandler.status_request (with_key true) (VStr "task-1")) fresh).
Proof.
  destruct (refused_poll_passes_message
              (refusing (VObj [("error", VStr "Task not found.")]))
              (post_json status_of_task1 (with_key true)) (VStr "task-1") fresh)
    as [Hrefused _].
  - is_status_action status_of_task1.
  - destruct (Hrefused
                {| ok := false; status := 400; statusText := "Bad Request";
                   data := VObj [("error", VStr "Task not found.")] |})
      as (Hmessage & _ & _).
    + intros rq _. reflexivity.
    + reflexivity.
    + apply (Hmessage "Task not found."); [reflexivity | discriminate].
Defined.

(** The same poll refused without an error, with the body [null], and with
    a body that is not JSON. *)
Example refused_poll_otherwise :
  let says (p : platform) :=
    fst (Ai.onRequest p (post_json status_of_task1 (with_key true)) fresh) in
  says (refusing (VObj [])) =
    Returns (jsonResponse (Ai.failure "Status check failed: Bad Request") 500) /\
  says (refusing VNull) =
    Returns (jsonResponse
               (Ai.failure "Cannot read properties of null (reading 'error')")
               500) /\
  says down =
    Returns (jsonResponse (Ai.failure "Network connection lost.") 500).
Proof. repeat split. Qed.

(** X12 at a submission the upstream refuses without a message. *)
Lemma refused_generateImage_at_a_cat :
  Ai.onRequest (refusing (VObj [])) (post_json image_of_a_cat (with_key true))
    fresh
  = (Returns ({| rstatus := 500;
                 rheaders := [("Content-Type", "application/json");
                              ("Access-Control-Allow-Origin", "*")];
                 rbody := BJson
                   (VObj [("success", VBool false);
                          ("error", VStr "Runway T2I API error: 400")]) |}),
     called (Ai.text_to_image_request (refusing (VObj [])) (with_key true)
               (VStr "a cat") VUndefined) fresh).
Proof.
  destruct (refused_generateImage_passes_message (refusing (VObj []))
              (post_json image_of_a_cat (with_key true)) image_of_a_cat fresh)
    as [Hrefused _].
  - repeat split; reflexivity.
  - reflexivity.
  - reflexivity.
  - destruct (Hrefused
                {| ok := false; status := 400; statusText := "Bad Request";
                   data := VObj [] |})
      as (_ & Hmessage & _).
    + intros rq _. reflexivity.
    + reflexivity.
    + apply Hmessage; [discriminate | discriminate | reflexivity].
Defined.

(** X13 at a POST without content type. *)
Lemma bare_post_is_turned_down :
  Ai.onRequest (replying VNull) (bare "POST" (with_key true)) fresh
  = (Returns ({| rstatus := 500;
                 rheaders := [("Content-Type", "application/json");
                              ("Access-Control-Allow-Origin", "*")];
                 rbody := BJson
                   (VObj [("success", VBool false);
                          ("error", VStr "Invalid request content-type.")]) |}),
     fresh) /\
  ImageHandler.onRequest (replying VNull) (bare "POST" (with_key true)) fresh
  = (Returns ({| rstatus := 500;
                 rheaders := [("Content-Type", "application/json");
                              ("Access-Control-Allow-Origin", "*")];
                 rbody := BJson
                   (VObj [("success", VBool false);
                          ("error", VStr "Invalid request content-type: ")]) |}),
     fresh).
Proof.
  apply (turned_down_before_any_call (replying VNull)
           (bare "POST" (with_key true)) fresh).
  - split; reflexivity.
  - reflexivity.
  - reflexivity.
Defined.

(** A JSON body that reads [null] is turned down by the destructuring. *)
Example null_body_is_turned_down :
  fst (Ai.onRequest (replying VNull) (post_json VNull (with_key true)) fresh)
  = Returns (jsonResponse
               (Ai.failure
                  "Cannot destructure property 'action' of 'body' as it is null.")
               500) /\
  snd (Ai.onRequest (replying VNull) (post_json VNull (with_key true)) fresh)
  = fresh.
Proof. split; reflexivity. Qed.

(** X14 at a submission while the upstream is down. *)
Lemma generateImage_while_down :
  (exists message s',
     Ai.onRequest down (post_json image_of_a_cat (with_key true)) fresh
     = (Returns ({| rstatus := 500;
                    rheaders := [("Content-Type", "application/json");
                                 ("Access-Control-Allow-Origin", "*")];
                    rbody := BJson
                      (VObj [("success", VBool false);
                             ("error", VStr message)]) |}), s') /\
     kv s' = kv fresh /\ waiting s' = waiting fresh) /\
  (exists message s',
     ImageHandler.onRequest down (post_json image_of_a_cat (with_key true)) fresh
     = (Returns ({| rstatus := 500;
                    rheaders := [("Content-Type", "application/json");
                                 ("Access-Control-Allow-Origin", "*")];
                    rbody := BJson
                      (VObj [("success", VBool false);
                             ("error", VStr message)]) |}), s') /\
     kv s' = kv fresh /\ waiting s' = waiting fresh).
Proof.
  apply (unreachable_upstream_is_reported down
           (post_json image_of_a_cat (with_key true)) fresh).
  - intros rq. eexists. reflexivity.
  - split; reflexivity.
Defined.

(** X15 at an image generated and polled twice. *)
Lemma a_cat_generated_then_polled :
  let p := serving accepted_job succeeded_png in
  let generate := post_json image_of_a_cat (with_key true) in
  let poll := post_json status_of_task1 (with_key true) in
  let answer field :=
    Returns ({| rstatus := 200;
                rheaders := [("Content-Type", "application/json");
                             ("Access-Control-Allow-Origin", "*")];
                rbody := BJson
                  (VObj [("success", VBool true); ("status", VStr "SUCCEEDED");
                         ("progress", VUndefined);
                         (field, VStr "https://x/y.png")]) |}) in
  let s1 := snd (Ai.onRequest p generate fresh) in
  let s2 := snd (Ai.onRequest p poll s1) in
  fst (Ai.onRequest p poll s1) = answer "imageUrl" /\
  kv s2 !! "task-1" = Some (VObj [("type", VStr "image")]) /\
  kv (settle s2) !! "task-1" = None /\
  fst (Ai.onRequest p poll (settle s2)) = answer "videoUrl".
Proof.
  apply (generate_then_poll (serving accepted_job succeeded_png)
           (post_json image_of_a_cat (with_key true))
           (post_json status_of_task1 (with_key true)) image_of_a_cat
           {| ok := true; status := 200; statusText := "OK";
              data := accepted_job |}
           [("id", VStr "task-1"); ("status", VStr "PENDING")] "task-1"
           [("id", VStr "task-1"); ("status", VStr "SUCCEEDED");
            ("output", VArr [VStr "https://x/y.png"])] fresh).
  - repeat split; reflexivity.
  - reflexivity.
  - reflexivity.
  - intros rq Hurl. cbn [serving upstream]. now rewrite Hurl.
  - reflexivity.
  - reflexivity.
  - reflexivity.
  - reflexivity.
  - is_status_action status_of_task1.
  - eexists. split; [intros rq Hurl; cbn [serving upstream]; now rewrite Hurl|].
    split; reflexivity.
  - reflexivity.
  - reflexivity.
  - reflexivity.
Defined.

(** X17 after a poll of two requests: the answer to the second clears the
    interval while the first is still outstanding, and neither its late
    answer nor the ticks that follow send anything. *)
Lemma late_answer_after_clearing :
  let cleared := App.run (VStr "task-1") (App.pollForStatus App.started)
                   [App.Tick; App.Tick;
                    App.Settle (done_with "https://x/y.png")] in
  let later := [App.Tick; App.Settle (running (Dec 9 1)); App.Tick] in
  (App.requests cleared = [VStr "task-1"; VStr "task-1"] /\
   App.pending cleared = 1%nat /\
   App.interval cleared = false) /\
  (App.interval (App.run (VStr "task-1") cleared later) = false /\
   App.requests (App.run (VStr "task-1") cleared later) = App.requests cleared).
Proof.
  split; [repeat split|].
  apply (cleared_interval_sends_nothing (VStr "task-1")
           (App.run (VStr "task-1") (App.pollForStatus App.started)
              [App.Tick; App.Tick; App.Settle (done_with "https://x/y.png")])
           [App.Tick; App.Settle (running (Dec 9 1)); App.Tick]).
  reflexivity.
Defined.

(** X19 at two responses of a running task. *)
Lemma two_rounds_of_polling :
  let s' := App.run (VStr "task-1") (App.pollForStatus App.started)
              (App.prompt_run [running (Dec 1 1); running (Dec 4 1)]) in
  App.interval s' = true /\
  App.pending s' = O /\
  App.requests s' = App.requests (App.pollForStatus App.started)
                    ++ replicate 2 (VStr "task-1") /\
  App.isGenerating s' = App.isGenerating (App.pollForStatus App.started) /\
  App.modifiedImageUrl s' = App.modifiedImageUrl (App.pollForStatus App.started).
Proof.
  apply (polls_as_long_as_in_progress (VStr "task-1")
           [running (Dec 1 1); running (Dec 4 1)]
           (App.pollForStatus App.started)).
  - repeat constructor.
  - reflexivity.
  - reflexivity.
Defined.

(** An answer that reads [null] stops the poller at the first property it
    reads. *)
Example null_answer_at_the_client :
  App.error (App.resume (App.Arrived true VNull) (App.pollForStatus App.started))
  = "Cannot read properties of null (reading 'success')" /\
  App.error (App.resume (App.Arrived false VNull) (App.pollForStatus App.started))
  = "Cannot read properties of null (reading 'error')".
Proof. split; reflexivity. Qed.

(** X20 at the poll of task-1 through the copy of the handler. *)
Lemma png_reaches_the_client :
  exists r s',
    ImageHandler.onRequest (replying succeeded_png)
      (status_call (VStr "task-1") (with_key false)) fresh = (Returns r, s') /\
    let st' := App.resume (receive r) (App.pollForStatus App.started) in
    App.modifiedImageUrl st' = VStr "https://x/y.png" /\
    App.interval st' = false /\
    App.isGenerating st' = false /\
    App.error st' = App.error (App.pollForStatus App.started).
Proof.
  apply (Image_result_reaches_client (replying succeeded_png) (with_key false)
           "task-1"
           [("id", VStr "task-1"); ("status", VStr "SUCCEEDED");
            ("output", VArr [VStr "https://x/y.png"])]
           "https://x/y.png" [] fresh (App.pollForStatus App.started)).
  - reflexivity.
  - discriminate.
  - is_polled.
  - reflexivity.
  - reflexivity.
  - discriminate.
Defined.

(** X21 at the same poll through [functions/ai.js], without a record. *)
Lemma png_as_video_fails_the_client :
  exists r s',
    Ai.onRequest (replying succeeded_png)
      (status_call (VStr "task-1") (with_key true)) fresh = (Returns r, s') /\
    let st' := App.resume (receive r) (App.pollForStatus App.started) in
    App.error st' = "Task succeeded but no image URL was returned." /\
    App.interval st' = false /\
    App.isGenerating st' = false /\
    App.modifiedImageUrl st' = App.modifiedImageUrl (App.pollForStatus App.started).
Proof.
  apply (Ai_video_answer_is_an_error_for_the_client (replying succeeded_png)
           (with_key true) "task-1"
           [("id", VStr "task-1"); ("status", VStr "SUCCEEDED");
            ("output", VArr [VStr "https://x/y.png"])]
           fresh (App.pollForStatus App.started)).
  - reflexivity.
  - discriminate.
  - is_polled.
  - reflexivity.
  - reflexivity.
  - right. reflexivity.
Defined.

(** X22 at a task that succeeded with nothing. *)
Lemma empty_output_at_the_client :
  (exists r s',
     ImageHandler.onRequest (replying succeeded_empty)
       (status_call (VStr "task-1") (with_key true)) fresh = (Returns r, s') /\
     rstatus r = 200 /\
     let st' := App.resume (receive r) (App.pollForStatus App.started) in
     App.error st' = "Task succeeded but output was empty." /\
     App.interval st' = false /\ App.isGenerating st' = false) /\
  (exists r s',
     Ai.onRequest (replying succeeded_empty)
       (status_call (VStr "task-1") (with_key true)) fresh = (Returns r, s') /\
     let st' := App.resume (receive r) (App.pollForStatus App.started) in
     App.error st' = "Task succeeded but no image URL was returned." /\
     App.interval st' = false /\ App.isGenerating st' = false).
Proof.
  apply (empty_output_stops_the_client (replying succeeded_empty) (with_key true)
           "task-1"
           [("id", VStr "task-1"); ("status", VStr "SUCCEEDED");
            ("output", VArr [])]
           fresh (App.pollForStatus App.started)).
  - reflexivity.
  - discriminate.
  - is_polled.
  - reflexivity.
  - reflexivity.
Defined.

(** X23 at a task that failed with a reason. *)
Lemma moderation_failure_at_the_client :
  exists r s',
    Ai.onRequest (replying failed_task)
      (status_call (VStr "task-1") (with_key true)) fresh = (Returns r, s') /\
    let st' := App.resume (receive r) (App.pollForStatus App.started) in
    App.error st' = "Image generation failed" /\
    App.interval st' = false /\ App.isGenerating st' = false.
Proof.
  apply (failure_reason_is_not_relayed (replying failed_task) (with_key true)
           "task-1"
           [("id", VStr "task-1"); ("status", VStr "FAILED");
            ("failure", VStr "Content moderation.");
            ("failureCode", VStr "SAFETY")]
           fresh (App.pollForStatus App.started)).
  - reflexivity.
  - discriminate.
  - is_polled.
  - reflexivity.
Defined.

(** X24 at an upload without the image, as the client takes the answer. *)
Lemma missing_image_is_shown :
  exists r s',
    Ai.onRequest (replying VNull)
      (post_form [("prompt", FText "a cat")] (with_key true)) fresh
    = (Returns r, s') /\
    rstatus r = 500 /\
    (let st' := App.resume (receive r) (App.pollForStatus App.started) in
     App.error st' = "Request is missing prompt or image file." /\
     App.interval st' = false /\ App.isGenerating st' = false) /\
    (let c' := Client.uploaded (receive r) Client.mounted in
     App.error (Client.shown c') = "Request is missing prompt or image file." /\
     App.isGenerating (Client.shown c') = false /\
     App.interval (Client.shown c') = App.interval (Client.shown Client.mounted) /\
     Client.stray c' = Client.stray Client.mounted).
Proof.
  apply (thrown_error_is_shown (replying VNull)
           (post_form [("prompt", FText "a cat")] (with_key true))
           "Request is missing prompt or image file." fresh
           (App.pollForStatus App.started) Client.mounted).
  - split; reflexivity.
  - discriminate.
  - reflexivity.
Defined.

(** X25 at the form the client sends. *)
Lemma cat_upload_is_polled_as_video :
  let s1 := snd (Ai.onRequest (serving accepted_job succeeded_png)
                   (upload_call cat_form "----x" (with_key true)) fresh) in
  (TASK_INFO_KV (with_key true) = true ->
   kv s1 !! "task-1" = Some (VObj [("type", VStr "video")])) /\
  exists answer s2,
    Ai.onRequest (serving accepted_job succeeded_png)
      (status_call (VStr "task-1") (with_key true)) s1 = (Returns answer, s2) /\
    (exists payload, rbody answer = BJson payload /\
       prop payload "videoUrl" = VStr "https://x/y.png" /\
       prop payload "imageUrl" = VUndefined) /\
    let st' := App.resume (receive answer) (App.pollForStatus App.started) in
    App.error st' = "Task succeeded but no image URL was returned." /\
    App.interval st' = false /\
    App.isGenerating st' = false /\
    App.modifiedImageUrl st' = App.modifiedImageUrl (App.pollForStatus App.started).
Proof.
  apply (own_upload_is_polled_as_video (serving accepted_job succeeded_png)
           (with_key true) "----x" "a cat" png "1280:720"
           {| ok := true; status := 200; statusText := "OK";
              data := accepted_job |}
           [("id", VStr "task-1"); ("status", VStr "PENDING")] "task-1"
           [("id", VStr "task-1"); ("status", VStr "SUCCEEDED");
            ("output", VArr [VStr "https://x/y.png"])]
           fresh (App.pollForStatus App.started) Client.mounted).
  - reflexivity.
  - discriminate.
  - vm_compute. discriminate.
  - intros rq Hurl. cbn [serving upstream]. now rewrite Hurl.
  - reflexivity.
  - reflexivity.
  - reflexivity.
  - discriminate.
  - eexists. split; [intros rq Hurl; cbn [serving upstream]; now rewrite Hurl|].
    split; reflexivity.
  - reflexivity.
  - reflexivity.
Defined.

(** The same form in an engine that takes three arguments: the client shows
    the message of the [RangeError]. *)
Example cat_upload_cramped :
  let answer := fst (Ai.onRequest cramped
                       (upload_call cat_form "----x" (with_key true)) fresh) in
  exists r,
    answer = Returns r /\
    App.error (Client.shown (Client.uploaded (receive r) Client.mounted))
    = "Maximum call stack size exceeded".
Proof. eexists. split; reflexivity. Qed.

(** X26 after a PNG has been chosen. *)
Lemma chosen_png_is_valid :
  existsb (String.eqb (type png)) Client.validTypes = true /\
  Client.size png <= 10485760 /\
  Client.previewUrl (Client.run Client.mounted [Client.SelectFile (Some png)])
  = Some png.
Proof.
  apply (selected_file_is_valid [Client.SelectFile (Some png)] png).
  reflexivity.
Defined.

(** X29 at a second job accepted while task-1 is polled. *)
Lemma task1_is_orphaned :
  let c' := Client.uploaded
              (App.Arrived true (VObj [("success", VBool true);
                                       ("taskId", VStr "task-2")]))
              polling_task1 in
  Client.polling c' = VStr "task-2" /\
  App.interval (Client.shown c') = true /\
  Client.stray c' = Client.stray polling_task1 ++ [VStr "task-1"] /\
  In (VStr "task-1")
     (Client.stray (Client.cleanup
        (Client.run c' [Client.Tick;
                        Client.Settle (done_with "https://x/z.png")]))).
Proof.
  apply (second_job_orphans_the_first polling_task1 true
           (VObj [("success", VBool true); ("taskId", VStr "task-2")])
           [Client.Tick; Client.Settle (done_with "https://x/z.png")]).
  - reflexivity.
  - reflexivity.
  - reflexivity.
Defined.

(** X30 at a file removed while task-1 is polled. *)
Lemma result_after_removal :
  let c1 := Client.run polling_task1 [Client.RemoveFile] in
  (Client.polling c1 = Client.polling polling_task1 /\
   Client.stray c1 = Client.stray polling_task1 /\
   App.interval (Client.shown c1) = App.interval (Client.shown polling_task1) /\
   App.requests (Client.shown c1) = App.requests (Client.shown polling_task1)) /\
  (App.interval (Client.shown polling_task1) = true ->
   App.pending (Client.shown polling_task1) = O ->
   shows_result (done_with "https://x/y.png") = true ->
   let c2 := Client.run c1 [Client.Tick;
                            Client.Settle (done_with "https://x/y.png")] in
   App.modifiedImageUrl (Client.shown c2)
   = prop (VObj [("success", VBool true); ("status", VStr "SUCCEEDED");
                 ("progress", VNum (Int 1));
                 ("imageUrl", VStr "https://x/y.png")]) "imageUrl" /\
   App.requests (Client.shown c2)
   = App.requests (Client.shown polling_task1) ++ [Client.polling polling_task1] /\
   App.interval (Client.shown c2) = false).
Proof.
  apply (form_events_do_not_stop_the_poll polling_task1 [Client.RemoveFile] true
           (VObj [("success", VBool true); ("status", VStr "SUCCEEDED");
                  ("progress", VNum (Int 1));
                  ("imageUrl", VStr "https://x/y.png")])).
  repeat constructor.
Defined.

End FurtherInstances.
